(** * route-monitor-operator: the RouteMonitor reconcile steps and the
      ServiceMonitor deployment handler

    A shallow embedding of
      - controllers/routemonitor/routemonitor_supplement.go
      - pkg/servicemonitor/servicemonitor.go
    and of the declarations they lean on.

    Every call that leaves the process (the controller-runtime client, and the
    handler interfaces of controllers/interfaces.go, whose generated mocks are
    part of the repository) is modelled the way the mocks see it: the call is
    appended to a trace, and what it answers is a function of the trace so far.
    A Go function that performs such calls becomes a function from the trace
    before to its result and the trace after.  logr calls do not influence
    control flow or the store and are left out. *)

From stdpp Require Import base decidable option list strings gmap.

Local Open Scope string_scope.
Local Open Scope list_scope.

(** ** Errors *)

Module k8serrors.
(** k8s.io/apimachinery/pkg/api/errors: an API status error carries a reason;
    [errors.New] gives a plain error string. *)
Inductive StatusReason : Type :=
| StatusReasonNotFound
| StatusReasonAlreadyExists
| StatusReasonConflict
| StatusReasonInternalError
| StatusReasonUnknown.

Inductive error : Type :=
| StatusError (reason : StatusReason) (message : string)
| errorString (s : string).

Definition IsNotFound (err : error) : bool :=
  match err with
  | StatusError StatusReasonNotFound _ => true
  | _ => false
  end.

#[global] Instance StatusReason_eq_dec : EqDecision StatusReason.
Proof. solve_decision. Defined.
#[global] Instance error_eq_dec : EqDecision error.
Proof. solve_decision. Defined.
End k8serrors.
Export k8serrors.

Module errors.
Definition New (text : string) : error := errorString text.
End errors.

(** ** API types *)

Module types.
(** k8s.io/apimachinery/pkg/types.NamespacedName and v1alpha1.NamespacedName
    have the same two fields and are converted into each other field by
    field; one record stands for both. *)
Record NamespacedName : Type := mkNamespacedName {
  Name : string;
  Namespace : string
}.

#[global] Instance NamespacedName_eq_dec : EqDecision NamespacedName.
Proof. solve_decision. Defined.

(** The zero value, [types.NamespacedName{}]: the absent sentinel. *)
Definition empty : NamespacedName := {| Name := ""; Namespace := "" |}.
End types.

Module metav1.
Record TypeMeta : Type := mkTypeMeta {
  Kind : string;
  APIVersion : string
}.

(** The fields of ObjectMeta that the controller reads or writes. *)
Record ObjectMeta : Type := mkObjectMeta {
  Name : string;
  Namespace : string;
  ResourceVersion : string;
  DeletionTimestamp : option string;
  Finalizers : list string
}.

Record LabelSelector : Type := mkLabelSelector {
  MatchLabels : gmap string string
}.

#[global] Instance TypeMeta_eq_dec : EqDecision TypeMeta.
Proof. solve_decision. Defined.
#[global] Instance ObjectMeta_eq_dec : EqDecision ObjectMeta.
Proof. solve_decision. Defined.
#[global] Instance LabelSelector_eq_dec : EqDecision LabelSelector.
Proof. solve_decision. Defined.

Definition zeroTypeMeta : TypeMeta := {| Kind := ""; APIVersion := "" |}.
Definition zeroObjectMeta : ObjectMeta :=
  {| Name := ""; Namespace := ""; ResourceVersion := "";
     DeletionTimestamp := None; Finalizers := [] |}.

Definition SetFinalizers (o : ObjectMeta) (fs : list string) : ObjectMeta :=
  {| Name := Name o; Namespace := Namespace o;
     ResourceVersion := ResourceVersion o;
     DeletionTimestamp := DeletionTimestamp o; Finalizers := fs |}.
End metav1.

Module v1alpha1.
Record RouteMonitorRouteSpec : Type := mkRouteMonitorRouteSpec {
  Name : string;
  Namespace : string
}.

Record SloSpec : Type := mkSloSpec {
  TargetAvailabilityPercent : string
}.

Record RouteMonitorSpec : Type := mkRouteMonitorSpec {
  Route : RouteMonitorRouteSpec;
  Slo : SloSpec;
  SkipPrometheusRule : bool
}.

Record RouteMonitorStatus : Type := mkRouteMonitorStatus {
  RouteURL : string;
  ServiceMonitorRef : types.NamespacedName;
  PrometheusRuleRef : types.NamespacedName;
  ErrorStatus : string
}.

(** What the records here do not show of the Go value: the remaining fields
    of the metadata, the spec and the status, and whether an empty Finalizers
    slice is nil.  The controller hands them on untouched; the one place that
    looks at them is [reflect.DeepEqual] against the zero value in
    [GetRouteMonitor], for which all that counts is whether every one of them
    is zero (an empty slice that is not nil is not). *)
Inductive UnmodelledFields : Type :=
| AllZero
| SomeSet.

Record RouteMonitor : Type := mkRouteMonitor {
  TypeMeta : metav1.TypeMeta;
  ObjectMeta : metav1.ObjectMeta;
  Spec : RouteMonitorSpec;
  Status : RouteMonitorStatus;
  Unmodelled : UnmodelledFields
}.

#[global] Instance UnmodelledFields_eq_dec : EqDecision UnmodelledFields.
Proof. solve_decision. Defined.

#[global] Instance RouteMonitorRouteSpec_eq_dec : EqDecision RouteMonitorRouteSpec.
Proof. solve_decision. Defined.
#[global] Instance SloSpec_eq_dec : EqDecision SloSpec.
Proof. solve_decision. Defined.
#[global] Instance RouteMonitorSpec_eq_dec : EqDecision RouteMonitorSpec.
Proof. solve_decision. Defined.
#[global] Instance RouteMonitorStatus_eq_dec : EqDecision RouteMonitorStatus.
Proof. solve_decision. Defined.
#[global] Instance RouteMonitor_eq_dec : EqDecision RouteMonitor.
Proof. solve_decision. Defined.

(** [v1alpha1.RouteMonitor{}] *)
Definition zero : RouteMonitor :=
  {| TypeMeta := metav1.zeroTypeMeta;
     ObjectMeta := metav1.zeroObjectMeta;
     Spec := {| Route := {| Name := ""; Namespace := "" |};
                Slo := {| TargetAvailabilityPercent := "" |};
                SkipPrometheusRule := false |};
     Status := {| RouteURL := ""; ServiceMonitorRef := types.empty;
                  PrometheusRuleRef := types.empty; ErrorStatus := "" |};
     Unmodelled := AllZero |}.

(** Assignments to single fields, as the Go code writes them through
    [routeMonitor.Status.X = v] or a pointer to the field. *)
Definition withStatus (rm : RouteMonitor) (st : RouteMonitorStatus) : RouteMonitor :=
  {| TypeMeta := TypeMeta rm; ObjectMeta := ObjectMeta rm;
     Spec := Spec rm; Status := st; Unmodelled := Unmodelled rm |}.

Definition withObjectMeta (rm : RouteMonitor) (om : metav1.ObjectMeta) : RouteMonitor :=
  {| TypeMeta := TypeMeta rm; ObjectMeta := om;
     Spec := Spec rm; Status := Status rm; Unmodelled := Unmodelled rm |}.

Definition setRouteURL (rm : RouteMonitor) (url : string) : RouteMonitor :=
  withStatus rm
    {| RouteURL := url;
       ServiceMonitorRef := ServiceMonitorRef (Status rm);
       PrometheusRuleRef := PrometheusRuleRef (Status rm);
       ErrorStatus := ErrorStatus (Status rm) |}.

Definition setServiceMonitorRef (rm : RouteMonitor) (ref : types.NamespacedName)
  : RouteMonitor :=
  withStatus rm
    {| RouteURL := RouteURL (Status rm);
       ServiceMonitorRef := ref;
       PrometheusRuleRef := PrometheusRuleRef (Status rm);
       ErrorStatus := ErrorStatus (Status rm) |}.

Definition setPrometheusRuleRef (rm : RouteMonitor) (ref : types.NamespacedName)
  : RouteMonitor :=
  withStatus rm
    {| RouteURL := RouteURL (Status rm);
       ServiceMonitorRef := ServiceMonitorRef (Status rm);
       PrometheusRuleRef := ref;
       ErrorStatus := ErrorStatus (Status rm) |}.

Definition setErrorStatus (rm : RouteMonitor) (text : string) : RouteMonitor :=
  withStatus rm
    {| RouteURL := RouteURL (Status rm);
       ServiceMonitorRef := ServiceMonitorRef (Status rm);
       PrometheusRuleRef := PrometheusRuleRef (Status rm);
       ErrorStatus := text |}.
End v1alpha1.

Module routev1.
(** github.com/openshift/api/route/v1, the fields the controller reads. *)
Record TLSConfig : Type := mkTLSConfig {
  Termination : string
}.

Record RouteSpec : Type := mkRouteSpec {
  Path : string;
  TLS : option TLSConfig
}.

Record RouteIngress : Type := mkRouteIngress {
  Host : string;
  RouterName : string
}.

Record RouteStatus : Type := mkRouteStatus {
  Ingress : list RouteIngress
}.

Record Route : Type := mkRoute {
  ObjectMeta : metav1.ObjectMeta;
  Spec : RouteSpec;
  Status : RouteStatus
}.

Definition zero : Route :=
  {| ObjectMeta := metav1.zeroObjectMeta;
     Spec := {| Path := ""; TLS := None |};
     Status := {| Ingress := [] |} |}.
End routev1.

Module monitoringv1.
(** prometheus-operator monitoring/v1, as far as
    [TemplateForServiceMonitorResource] fills it in. *)
Record RelabelConfig : Type := mkRelabelConfig {
  Replacement : string;
  TargetLabel : string
}.

Record Endpoint : Type := mkEndpoint {
  Port : string;
  Interval : string;
  ScrapeTimeout : string;
  Path : string;
  Scheme : string;
  Params : gmap string (list string);
  MetricRelabelConfigs : list RelabelConfig
}.

Record NamespaceSelector : Type := mkNamespaceSelector {
  MatchNames : list string
}.

Record ServiceMonitorSpec : Type := mkServiceMonitorSpec {
  Endpoints : list Endpoint;
  Selector : metav1.LabelSelector;
  NamespaceSelector_ : NamespaceSelector
}.

Record ServiceMonitor : Type := mkServiceMonitor {
  ObjectMeta : metav1.ObjectMeta;
  Spec : ServiceMonitorSpec
}.

Record Rule : Type := mkRule {
  Alert : string;
  Expr : string
}.

Record RuleGroup : Type := mkRuleGroup {
  GroupName : string;
  Rules : list Rule
}.

Record PrometheusRule : Type := mkPrometheusRule {
  RuleObjectMeta : metav1.ObjectMeta;
  Groups : list RuleGroup
}.

#[global] Instance RelabelConfig_eq_dec : EqDecision RelabelConfig.
Proof. solve_decision. Defined.
#[global] Instance Endpoint_eq_dec : EqDecision Endpoint.
Proof. solve_decision. Defined.
#[global] Instance NamespaceSelector_eq_dec : EqDecision NamespaceSelector.
Proof. solve_decision. Defined.
#[global] Instance ServiceMonitorSpec_eq_dec : EqDecision ServiceMonitorSpec.
Proof. solve_decision. Defined.

(** [deployedServiceMonitor.Spec = template.Spec] *)
Definition withSpec (sm : ServiceMonitor) (sp : ServiceMonitorSpec) : ServiceMonitor :=
  {| ObjectMeta := ObjectMeta sm; Spec := sp |}.
End monitoringv1.

(** obo-prometheus-operator's monitoring/v1 mirrors the upstream package type
    for type; the two kinds are kept apart by the kind tag of the client
    calls. *)
Module rhobsv1 := monitoringv1.

(** ** Control signals *)

Module utilreconcile.
(** Modelled from the spec: pkg/util/reconcile is not among the source
    files.  The spec's ControlSignal is one of Continue, Stop and Requeue(err); a step returns
    the signal together with Go's error value, which is the [err] of
    Requeue(err) and nil otherwise. *)
Inductive Result : Type :=
| Continue
| Stop
| Requeue.

#[global] Instance Result_eq_dec : EqDecision Result.
Proof. solve_decision. Defined.

(** Modelled from the spec: the signal Continue, without an error value. *)
Definition ContinueOperation : Result := Continue.

(** Modelled from the spec: the signal Stop, without an error value. *)
Definition StopOperation : Result := Stop.
End utilreconcile.
Export utilreconcile.

(** ** Calls and traces *)

(** What the controller-runtime client is asked to fetch: the Go call passes a
    pointer to an empty object, whose type selects the kind. *)
Inductive ObjectKind : Type :=
| KServiceMonitor
| KRhobsServiceMonitor
| KRouteMonitor
| KRoute.

Definition objectOf (k : ObjectKind) : Type :=
  match k with
  | KServiceMonitor => monitoringv1.ServiceMonitor
  | KRhobsServiceMonitor => rhobsv1.ServiceMonitor
  | KRouteMonitor => v1alpha1.RouteMonitor
  | KRoute => routev1.Route
  end.

(** A [client.Object] handed to Create, Update or Delete. *)
Inductive Object : Type :=
| ObjServiceMonitor (o : monitoringv1.ServiceMonitor)
| ObjRhobsServiceMonitor (o : rhobsv1.ServiceMonitor)
| ObjRouteMonitor (o : v1alpha1.RouteMonitor)
| ObjRoute (o : routev1.Route).

Definition toObject (k : ObjectKind) : objectOf k -> Object :=
  match k with
  | KServiceMonitor => ObjServiceMonitor
  | KRhobsServiceMonitor => ObjRhobsServiceMonitor
  | KRouteMonitor => ObjRouteMonitor
  | KRoute => ObjRoute
  end.

Inductive Call : Type :=
(* client.Client *)
| ClientGet (k : ObjectKind) (key : types.NamespacedName)
| ClientCreate (o : Object)
| ClientUpdate (o : Object)
| ClientDelete (o : Object)
(* controllers.BlackBoxExporterHandler *)
| CallShouldDeleteBlackBoxExporterResources
| CallEnsureBlackBoxExporterResourcesAbsent
(* controllers.ServiceMonitorHandler *)
| CallDeleteServiceMonitorDeployment (serviceMonitorRef : types.NamespacedName) (hcp : bool)
| CallTemplateAndUpdateServiceMonitorDeployment
    (url blackBoxExporterNamespace : string) (namespacedName : types.NamespacedName)
    (clusterID : string) (hcp : bool)
(* controllers.PrometheusRuleHandler *)
| CallDeletePrometheusRuleDeployment (prometheusRuleRef : types.NamespacedName)
| CallUpdatePrometheusRuleDeployment (template : monitoringv1.PrometheusRule)
(* controllers.MonitorResourceHandler *)
| CallGetOSDClusterID
| CallUpdateMonitorResource (cr : v1alpha1.RouteMonitor)
| CallUpdateMonitorResourceStatus (cr : v1alpha1.RouteMonitor).

(** Calls in the order they were made. *)
Definition Trace : Type := list Call.

(** A computation that makes calls. *)
Definition M (A : Type) : Type := Trace -> A * Trace.

Definition ret {A : Type} (a : A) : M A := fun t => (a, t).

Definition bind {A B : Type} (m : M A) (k : A -> M B) : M B :=
  fun t => let '(a, t') := m t in k a t'.

(** [invoke c answer]: make call [c]; it answers [answer t] when [t] is the
    trace of the calls before it. *)
Definition invoke {A : Type} (c : Call) (answer : Trace -> A) : M A :=
  fun t => (answer t, t ++ [c]).

Declare Scope go_scope.
Delimit Scope go_scope with go.
Notation "x <- m ;; k" := (bind m (fun x => k))
  (at level 100, m at next level, right associativity) : go_scope.
Local Open Scope go_scope.

(** Go's [(Result, error)] pair; [None] is nil. *)
Definition Signal : Type := Result * option error.

Module reconcileresults.
(** Modelled from the spec: the constructor of pkg/util/reconcile for
    Requeue(err), the signal with its error. *)
Definition RequeueReconcileWith (e : error) : M Signal := ret (Requeue, Some e).

(** Modelled from the spec: the constructor for Stop, with a nil error. *)
Definition StopReconcile : M Signal := ret (Stop, None).

(** Modelled from the spec: the constructor for Continue, with a nil error. *)
Definition ContinueReconcile : M Signal := ret (Continue, None).
End reconcileresults.
Export reconcileresults.

(** ** The controller-runtime client *)

Module client.
(** What each method of the client answers, given the calls so far.  A fetch
    answers an error or the fetched object. *)
Record Client : Type := mkClient {
  onGet : forall k : ObjectKind, Trace -> types.NamespacedName -> error + objectOf k;
  onCreate : Trace -> Object -> option error;
  onUpdate : Trace -> Object -> option error;
  onDelete : Trace -> Object -> option error
}.

Definition Get (c : Client) (k : ObjectKind) (key : types.NamespacedName)
  : M (error + objectOf k) :=
  invoke (ClientGet k key) (fun t => onGet c k t key).

Definition Create (c : Client) (o : Object) : M (option error) :=
  invoke (ClientCreate o) (fun t => onCreate c t o).

Definition Update (c : Client) (o : Object) : M (option error) :=
  invoke (ClientUpdate o) (fun t => onUpdate c t o).

Definition Delete (c : Client) (o : Object) : M (option error) :=
  invoke (ClientDelete o) (fun t => onDelete c t o).

(** [client.IgnoreNotFound]: nil for a not-found error, the error itself
    otherwise. *)
Definition IgnoreNotFound (err : error) : option error :=
  if IsNotFound err then None else Some err.
End client.

(** ** Declarations of the repository outside the two files *)

(** The package-level constants and the alert template the two files use but
    do not declare: pkg/consts (the two finalizer keys), pkg/util/errors
    (NoHost), pkg/consts/blackboxexporter (port name and labels) and
    pkg/alert (the PrometheusRule template).  They are parameters of the
    development. *)
Class Externals : Type := mkExternals {
  FinalizerKey : string;
  PrevFinalizerKey : string;
  NoHost : error;
  BlackBoxExporterPortName : string;
  GenerateBlackBoxExporterLables : gmap string string;
  TemplateForPrometheusRuleResource :
    string -> string -> types.NamespacedName -> monitoringv1.PrometheusRule
}.

(** ** pkg/servicemonitor *)

Module servicemonitor.
Import monitoringv1.

(** [util.ResourceComparerInterface] *)
Record ResourceComparerInterface : Type := mkComparer {
  DeepEqual : ServiceMonitorSpec -> ServiceMonitorSpec -> bool
}.

Record ServiceMonitor : Type := mkServiceMonitorHandler {
  Client : client.Client;
  Comparer : ResourceComparerInterface
}.

Definition ServiceMonitorPeriod : string := "30s".
Definition UrlLabelName : string := "probe_url".

Section Templates.
Context `{Externals}.

Definition TemplateForServiceMonitorResource
    (routeURL blackBoxExporterNamespace : string)
    (params : gmap string (list string))
    (namespacedName : types.NamespacedName) (clusterID : string)
  : monitoringv1.ServiceMonitor :=
  {| ObjectMeta :=
       {| metav1.Name := types.Name namespacedName;
          metav1.Namespace := types.Namespace namespacedName;
          metav1.ResourceVersion := "";
          metav1.DeletionTimestamp := None;
          metav1.Finalizers := [] |};
     Spec :=
       {| Endpoints :=
            [ {| Port := BlackBoxExporterPortName;
                 Interval := ServiceMonitorPeriod;
                 ScrapeTimeout := "15s";
                 Path := "/probe";
                 Scheme := "http";
                 Params := params;
                 MetricRelabelConfigs :=
                   [ {| Replacement := routeURL; TargetLabel := UrlLabelName |};
                     {| Replacement := clusterID; TargetLabel := "_id" |} ] |} ];
          Selector := {| metav1.MatchLabels := GenerateBlackBoxExporterLables |};
          NamespaceSelector_ := {| MatchNames := [blackBoxExporterNamespace] |} |} |}.

Definition HyperShiftTemplateForServiceMonitorResource
    (routeURL blackBoxExporterNamespace : string)
    (params : gmap string (list string))
    (namespacedName : types.NamespacedName) (clusterID : string)
  : rhobsv1.ServiceMonitor :=
  TemplateForServiceMonitorResource routeURL blackBoxExporterNamespace params
    namespacedName clusterID.
End Templates.

(** Creates or Updates Service Monitor Deployment according to the template *)
Definition UpdateServiceMonitorDeployment (u : ServiceMonitor)
    (template : monitoringv1.ServiceMonitor) : M (option error) :=
  let namespacedName :=
    {| types.Name := metav1.Name (ObjectMeta template);
       types.Namespace := metav1.Namespace (ObjectMeta template) |} in
  fetched <- client.Get (Client u) KServiceMonitor namespacedName ;;
  match fetched with
  | inl err =>
      (* No similar ServiceMonitor exists *)
      if negb (IsNotFound err) then ret (Some err)
      else client.Create (Client u) (ObjServiceMonitor template)
  | inr deployedServiceMonitor =>
      if negb (DeepEqual (Comparer u) (Spec deployedServiceMonitor) (Spec template))
      then
        (* Update existing ServiceMonitor for the case that the template changed *)
        let deployedServiceMonitor := withSpec deployedServiceMonitor (Spec template) in
        client.Update (Client u) (ObjServiceMonitor deployedServiceMonitor)
      else ret None
  end.

Definition HypershiftUpdateServiceMonitorDeployment (u : ServiceMonitor)
    (template : rhobsv1.ServiceMonitor) : M (option error) :=
  let namespacedName :=
    {| types.Name := metav1.Name (ObjectMeta template);
       types.Namespace := metav1.Namespace (ObjectMeta template) |} in
  fetched <- client.Get (Client u) KRhobsServiceMonitor namespacedName ;;
  match fetched with
  | inl err =>
      if negb (IsNotFound err) then ret (Some err)
      else client.Create (Client u) (ObjRhobsServiceMonitor template)
  | inr deployedServiceMonitor =>
      if negb (DeepEqual (Comparer u) (Spec deployedServiceMonitor) (Spec template))
      then
        let deployedServiceMonitor := withSpec deployedServiceMonitor (Spec template) in
        client.Update (Client u) (ObjRhobsServiceMonitor deployedServiceMonitor)
      else ret None
  end.

Definition TemplateAndUpdateServiceMonitorDeployment `{Externals} (u : ServiceMonitor)
    (routeURL blackBoxExporterNamespace : string)
    (namespacedName : types.NamespacedName) (clusterID : string)
    (isHCPMonitor : bool) : M (option error) :=
  let params : gmap string (list string) :=
    (* Currently we only support `http_2xx` as module *)
    <["module" := ["http_2xx"]]> (<["target" := [routeURL]]> ∅) in
  if isHCPMonitor then
    let s := HyperShiftTemplateForServiceMonitorResource routeURL
               blackBoxExporterNamespace params namespacedName clusterID in
    HypershiftUpdateServiceMonitorDeployment u s
  else
    let s := TemplateForServiceMonitorResource routeURL
               blackBoxExporterNamespace params namespacedName clusterID in
    UpdateServiceMonitorDeployment u s.

(** The kind [DeleteServiceMonitorDeployment] fetches and deletes:
    [&rhobsv1.ServiceMonitor{}] for HCP, [&monitoringv1.ServiceMonitor{}]
    otherwise. *)
Definition fetchedKind (isHCP : bool) : ObjectKind :=
  if isHCP then KRhobsServiceMonitor else KServiceMonitor.

(** DeleteServiceMonitorDeployment deletes the corresponding ServiceMonitor:
    servicemonitor.monitoring.rhobs for HCP or
    servicemonitor.monitoring.coreos.com otherwise *)
Definition DeleteServiceMonitorDeployment (u : ServiceMonitor)
    (serviceMonitorRef : types.NamespacedName) (isHCP : bool) : M (option error) :=
  if bool_decide (types.Name serviceMonitorRef = "")
     || bool_decide (types.Namespace serviceMonitorRef = "")
  then ret None
  else
    let namespacedName :=
      {| types.Name := types.Name serviceMonitorRef;
         types.Namespace := types.Namespace serviceMonitorRef |} in
    if isHCP then
      fetched <- client.Get (Client u) KRhobsServiceMonitor namespacedName ;;
      match fetched with
      | inl err => ret (client.IgnoreNotFound err)
      | inr resource => client.Delete (Client u) (ObjRhobsServiceMonitor resource)
      end
    else
      fetched <- client.Get (Client u) KServiceMonitor namespacedName ;;
      match fetched with
      | inl err => ret (client.IgnoreNotFound err)
      | inr resource => client.Delete (Client u) (ObjServiceMonitor resource)
      end.
End servicemonitor.

(** ** controllers: the handler interfaces *)

Module controllers.
Import v1alpha1.

(** A handler is given by what each of its methods answers, as a function of
    the calls made before; calling a method records the call (as the
    generated mocks of interfaces.go do). *)
Record BlackBoxExporterHandler : Type := mkBlackBoxExporterHandler {
  onShouldDeleteBlackBoxExporterResources : Trace -> bool * option error;
  onEnsureBlackBoxExporterResourcesAbsent : Trace -> option error;
  GetBlackBoxExporterNamespace : string
}.

Record ServiceMonitorHandler : Type := mkServiceMonitorHandler {
  onDeleteServiceMonitorDeployment :
    Trace -> types.NamespacedName -> bool -> option error;
  onTemplateAndUpdateServiceMonitorDeployment :
    Trace -> string -> string -> types.NamespacedName -> string -> bool -> option error
}.

Record PrometheusRuleHandler : Type := mkPrometheusRuleHandler {
  onDeletePrometheusRuleDeployment : Trace -> types.NamespacedName -> option error;
  onUpdatePrometheusRuleDeployment : Trace -> monitoringv1.PrometheusRule -> option error
}.

(** [ParseMonitorSLOSpecs] and [SetErrorStatus] make no call: the first is a
    function of its arguments, the second takes the current error text and
    the error and gives back whether it changed the text, and the text. *)
Record MonitorResourceHandler : Type := mkMonitorResourceHandler {
  onGetOSDClusterID : Trace -> string * option error;
  ParseMonitorSLOSpecs : string -> SloSpec -> string * option error;
  SetErrorStatus : string -> option error -> bool * string;
  onUpdateMonitorResource : Trace -> RouteMonitor -> Signal;
  onUpdateMonitorResourceStatus : Trace -> RouteMonitor -> Signal
}.

Definition ShouldDeleteBlackBoxExporterResources (h : BlackBoxExporterHandler)
  : M (bool * option error) :=
  invoke CallShouldDeleteBlackBoxExporterResources
    (onShouldDeleteBlackBoxExporterResources h).

Definition EnsureBlackBoxExporterResourcesAbsent (h : BlackBoxExporterHandler)
  : M (option error) :=
  invoke CallEnsureBlackBoxExporterResourcesAbsent
    (onEnsureBlackBoxExporterResourcesAbsent h).

Definition DeleteServiceMonitorDeployment (h : ServiceMonitorHandler)
    (serviceMonitorRef : types.NamespacedName) (hcp : bool) : M (option error) :=
  invoke (CallDeleteServiceMonitorDeployment serviceMonitorRef hcp)
    (fun t => onDeleteServiceMonitorDeployment h t serviceMonitorRef hcp).

Definition TemplateAndUpdateServiceMonitorDeployment (h : ServiceMonitorHandler)
    (url blackBoxExporterNamespace : string) (namespacedName : types.NamespacedName)
    (clusterID : string) (hcp : bool) : M (option error) :=
  invoke (CallTemplateAndUpdateServiceMonitorDeployment url blackBoxExporterNamespace
            namespacedName clusterID hcp)
    (fun t => onTemplateAndUpdateServiceMonitorDeployment h t url
                blackBoxExporterNamespace namespacedName clusterID hcp).

Definition DeletePrometheusRuleDeployment (h : PrometheusRuleHandler)
    (prometheusRuleRef : types.NamespacedName) : M (option error) :=
  invoke (CallDeletePrometheusRuleDeployment prometheusRuleRef)
    (fun t => onDeletePrometheusRuleDeployment h t prometheusRuleRef).

Definition UpdatePrometheusRuleDeployment (h : PrometheusRuleHandler)
    (template : monitoringv1.PrometheusRule) : M (option error) :=
  invoke (CallUpdatePrometheusRuleDeployment template)
    (fun t => onUpdatePrometheusRuleDeployment h t template).

Definition GetOSDClusterID (h : MonitorResourceHandler) : M (string * option error) :=
  invoke CallGetOSDClusterID (onGetOSDClusterID h).

Definition UpdateMonitorResource (h : MonitorResourceHandler) (cr : RouteMonitor)
  : M Signal :=
  invoke (CallUpdateMonitorResource cr) (fun t => onUpdateMonitorResource h t cr).

Definition UpdateMonitorResourceStatus (h : MonitorResourceHandler) (cr : RouteMonitor)
  : M Signal :=
  invoke (CallUpdateMonitorResourceStatus cr)
    (fun t => onUpdateMonitorResourceStatus h t cr).

(** Modelled from the spec: [SetResourceReference] of pkg/reconcile is not
    among the source files.  The spec's StatusReferenceTracker is a pure
    compare-and-assign, setRef(&statusField, newValue) -> changed: the field
    takes the new value and the call reports whether that changed it.  The Go signature also
    returns an error, which a pure compare-and-assign leaves nil.  The
    pointer argument becomes the field's value, and the value after the call
    is returned with the answer. *)
Definition SetResourceReference (reference target : types.NamespacedName)
  : (bool * option error) * types.NamespacedName :=
  if bool_decide (reference = target) then ((false, None), reference)
  else ((true, None), target).

(** Modelled from the spec: [DeleteFinalizer] of pkg/reconcile is not among
    the source files.  The spec's FinalizerLifecycle removes the marker from
    the parent's finalizer set and tells whether it was there (the cascade
    signals Stop when the marker is already absent). *)
Definition DeleteFinalizer (o : RouteMonitor) (finalizerKey : string)
  : bool * RouteMonitor :=
  let finalizers := metav1.Finalizers (ObjectMeta o) in
  if bool_decide (finalizerKey ∈ finalizers) then
    (true,
     withObjectMeta o
       (metav1.SetFinalizers (ObjectMeta o)
          (filter (fun f => f ≠ finalizerKey) finalizers)))
  else (false, o).

(** Modelled from the spec: [SetFinalizer] of pkg/reconcile is not among the
    source files.  The spec's FinalizerLifecycle adds the marker when a
    reconcile observes it missing, and tells whether it did. *)
Definition SetFinalizer (o : RouteMonitor) (finalizerKey : string)
  : bool * RouteMonitor :=
  let finalizers := metav1.Finalizers (ObjectMeta o) in
  if bool_decide (finalizerKey ∈ finalizers) then (false, o)
  else
    (true,
     withObjectMeta o
       (metav1.SetFinalizers (ObjectMeta o) (finalizers ++ [finalizerKey]))).
End controllers.

(** [ctrl.Request] *)
Module ctrl.
Record Request : Type := mkRequest {
  NamespacedName : types.NamespacedName
}.
End ctrl.

(** ** controllers/routemonitor *)

Module routemonitor.
Import v1alpha1.

Record RouteMonitorReconciler : Type := mkRouteMonitorReconciler {
  Client : client.Client;
  BlackBoxExporter : controllers.BlackBoxExporterHandler;
  ServiceMonitor : controllers.ServiceMonitorHandler;
  Prom : controllers.PrometheusRuleHandler;
  Common : controllers.MonitorResourceHandler
}.

Section Steps.
Context `{Externals}.
Variable r : RouteMonitorReconciler.

(** Ensures that all PrometheusRules CR are created according to the
    RouteMonitor *)
Definition EnsurePrometheusRuleExists (routeMonitor : RouteMonitor) : M Signal :=
  (* If .spec.skipPrometheusRule is true, ensure that the PrometheusRule
     does NOT exist *)
  if SkipPrometheusRule (Spec routeMonitor) then
    (* Cleanup any existing PrometheusRules and update the status *)
    err <- controllers.DeletePrometheusRuleDeployment (Prom r)
             (PrometheusRuleRef (Status routeMonitor)) ;;
    match err with
    | Some err => RequeueReconcileWith err
    | None =>
        let '((updated, _), ref) :=
          controllers.SetResourceReference
            (PrometheusRuleRef (Status routeMonitor)) types.empty in
        let routeMonitor := setPrometheusRuleRef routeMonitor ref in
        if updated
        then controllers.UpdateMonitorResourceStatus (Common r) routeMonitor
        else ContinueReconcile
    end
  else
    let '(parsedSlo, err) :=
      controllers.ParseMonitorSLOSpecs (Common r)
        (RouteURL (Status routeMonitor)) (Slo (Spec routeMonitor)) in
    let '(changed, errorStatus) :=
      controllers.SetErrorStatus (Common r)
        (ErrorStatus (Status routeMonitor)) err in
    let routeMonitor := setErrorStatus routeMonitor errorStatus in
    if changed
    then controllers.UpdateMonitorResourceStatus (Common r) routeMonitor
    else if bool_decide (parsedSlo = "") then
      (* Delete existing PrometheusRules if required *)
      err <- controllers.DeletePrometheusRuleDeployment (Prom r)
               (PrometheusRuleRef (Status routeMonitor)) ;;
      match err with
      | Some err => RequeueReconcileWith err
      | None =>
          let '((updated, _), ref) :=
            controllers.SetResourceReference
              (PrometheusRuleRef (Status routeMonitor)) types.empty in
          let routeMonitor := setPrometheusRuleRef routeMonitor ref in
          if updated
          then controllers.UpdateMonitorResourceStatus (Common r) routeMonitor
          else StopReconcile
      end
    else
      (* Update PrometheusRule from templates *)
      let namespacedName :=
        {| types.Namespace := metav1.Namespace (ObjectMeta routeMonitor);
           types.Name := metav1.Name (ObjectMeta routeMonitor) |} in
      let template :=
        TemplateForPrometheusRuleResource (RouteURL (Status routeMonitor))
          parsedSlo namespacedName in
      err <- controllers.UpdatePrometheusRuleDeployment (Prom r) template ;;
      match err with
      | Some err => RequeueReconcileWith err
      | None =>
          (* Update PrometheusRuleReference in RouteMonitor if necessary *)
          let '((updated, _), ref) :=
            controllers.SetResourceReference
              (PrometheusRuleRef (Status routeMonitor)) namespacedName in
          let routeMonitor := setPrometheusRuleRef routeMonitor ref in
          if updated
          then controllers.UpdateMonitorResourceStatus (Common r) routeMonitor
          else ContinueReconcile
      end.

(** Ensures that a ServiceMonitor is created from the RouteMonitor CR *)
Definition EnsureServiceMonitorExists (routeMonitor : RouteMonitor) : M Signal :=
  (* Was the RouteURL populated by a previous step? *)
  if bool_decide (RouteURL (Status routeMonitor) = "") then
    RequeueReconcileWith NoHost
  else
    let namespacedName :=
      {| types.Name := metav1.Name (ObjectMeta routeMonitor);
         types.Namespace := metav1.Namespace (ObjectMeta routeMonitor) |} in
    let isHCP := false in
    got <- controllers.GetOSDClusterID (Common r) ;;
    let '(id, err) := got in
    match err with
    | Some err => RequeueReconcileWith err
    | None =>
        err <- controllers.TemplateAndUpdateServiceMonitorDeployment
                 (ServiceMonitor r) (RouteURL (Status routeMonitor))
                 (controllers.GetBlackBoxExporterNamespace (BlackBoxExporter r))
                 namespacedName id isHCP ;;
        match err with
        | Some err => RequeueReconcileWith err
        | None =>
            (* update ServiceMonitorRef if required *)
            let '((updated, err), ref) :=
              controllers.SetResourceReference
                (ServiceMonitorRef (Status routeMonitor)) namespacedName in
            let routeMonitor := setServiceMonitorRef routeMonitor ref in
            match err with
            | Some err => RequeueReconcileWith err
            | None =>
                if updated
                then controllers.UpdateMonitorResourceStatus (Common r) routeMonitor
                else ContinueReconcile
            end
        end
    end.

(** Ensures that all dependencies related to a RouteMonitor are deleted *)
Definition EnsureMonitorAndDependenciesAbsent (routeMonitor : RouteMonitor)
  : M Signal :=
  got <- controllers.ShouldDeleteBlackBoxExporterResources (BlackBoxExporter r) ;;
  let '(shouldDeleteBlackBoxResources, err) := got in
  match err with
  | Some err => RequeueReconcileWith err
  | None =>
      err <- (if shouldDeleteBlackBoxResources : bool
              then controllers.EnsureBlackBoxExporterResourcesAbsent
                     (BlackBoxExporter r)
              else ret None) ;;
      match err with
      | Some err => RequeueReconcileWith err
      | None =>
          let isHCP := false in
          err <- controllers.DeleteServiceMonitorDeployment (ServiceMonitor r)
                   (ServiceMonitorRef (Status routeMonitor)) isHCP ;;
          match err with
          | Some err => RequeueReconcileWith err
          | None =>
              err <- controllers.DeletePrometheusRuleDeployment (Prom r)
                       (PrometheusRuleRef (Status routeMonitor)) ;;
              match err with
              | Some err => RequeueReconcileWith err
              | None =>
                  let '(deleted, routeMonitor) :=
                    controllers.DeleteFinalizer routeMonitor FinalizerKey in
                  if deleted then
                    (* ignore the output as we want to remove the
                       PrevFinalizerKey anyways *)
                    let '(_, routeMonitor) :=
                      controllers.DeleteFinalizer routeMonitor PrevFinalizerKey in
                    controllers.UpdateMonitorResource (Common r) routeMonitor
                  else StopReconcile
              end
          end
      end
  end.

Definition EnsureFinalizerSet (routeMonitor : RouteMonitor) : M Signal :=
  let '(set, routeMonitor) := controllers.SetFinalizer routeMonitor FinalizerKey in
  if set then
    (* ignore the output as we want to remove the PrevFinalizerKey anyways *)
    let '(_, routeMonitor) :=
      controllers.DeleteFinalizer routeMonitor PrevFinalizerKey in
    controllers.UpdateMonitorResource (Common r) routeMonitor
  else ContinueReconcile.

(** GetRouteMonitor return the RouteMonitor that is tested *)
Definition GetRouteMonitor (req : ctrl.Request)
  : M (RouteMonitor * Result * option error) :=
  fetched <- client.Get (Client r) KRouteMonitor (ctrl.NamespacedName req) ;;
  match fetched with
  | inl err =>
      (* If this is an unknown error *)
      if negb (IsNotFound err) then
        res <- RequeueReconcileWith err ;;
        let '(res, err) := res in
        ret (v1alpha1.zero, res, err)
      else ret (v1alpha1.zero, StopOperation, None)
  | inr routeMonitor =>
      (* if the resource is empty, we should terminate *)
      let emptyRouteMonitor := v1alpha1.zero in
      (* reflect.DeepEqual against the zero value: every field is zero, those
         of [v1alpha1.Unmodelled] included *)
      if bool_decide (routeMonitor = emptyRouteMonitor)
      then ret (v1alpha1.zero, StopOperation, None)
      else ret (routeMonitor, ContinueOperation, None)
  end.

(** GetRoute returns the Route from the RouteMonitor spec *)
Definition GetRoute (routeMonitor : RouteMonitor)
  : M (routev1.Route * option error) :=
  let res := routev1.zero in
  let nsName :=
    {| types.Name := Name (Route (Spec routeMonitor));
       types.Namespace := Namespace (Route (Spec routeMonitor)) |} in
  if bool_decide (types.Name nsName = "")
     || bool_decide (types.Namespace nsName = "") then
    let err :=
      errors.New "Invalid CR: Cannot retrieve route if one of the fields is empty" in
    ret (res, Some err)
  else
    fetched <- client.Get (Client r) KRoute nsName ;;
    match fetched with
    | inl err => ret (res, Some err)
    | inr route => ret (route, None)
    end.

(** EnsureRouteURLExists verifies that the .spec.RouteURL has the Route URL
    inside *)
Definition EnsureRouteURLExists (route : routev1.Route) (routeMonitor : RouteMonitor)
  : M Signal :=
  match routev1.Ingress (routev1.Status route) with
  | [] =>
      (* amountOfIngress == 0 *)
      let err :=
        errors.New "No Ingress: cannot extract route url from the Route resource" in
      RequeueReconcileWith err
  | ingress0 :: _ =>
      let extractedRouteURL := routev1.Host ingress0 in
      if bool_decide (extractedRouteURL = "") then
        RequeueReconcileWith NoHost
      else
        let currentRouteURL := RouteURL (Status routeMonitor) in
        let extractedRouteURL :=
          match routev1.TLS (routev1.Spec route) with
          | Some _ => "https://" +:+ extractedRouteURL
          | None => extractedRouteURL
          end in
        if bool_decide (currentRouteURL = extractedRouteURL) then
          ContinueReconcile
        else
          let routeMonitor := setRouteURL routeMonitor extractedRouteURL in
          controllers.UpdateMonitorResourceStatus (Common r) routeMonitor
  end.

(** Names for parts of [EnsureMonitorAndDependenciesAbsent], used to state
    its properties: the object it hands to [UpdateMonitorResource], after
    the two [DeleteFinalizer] calls, and the calls it makes up to the
    teardown of the shared exporter. *)
Definition finalizersDeleted (routeMonitor : RouteMonitor) : RouteMonitor :=
  snd (controllers.DeleteFinalizer
         (snd (controllers.DeleteFinalizer routeMonitor FinalizerKey))
         PrevFinalizerKey).

Definition exporterCalls (shouldDeleteBlackBoxResources : bool) : list Call :=
  CallShouldDeleteBlackBoxExporterResources ::
  (if shouldDeleteBlackBoxResources
   then [CallEnsureBlackBoxExporterResourcesAbsent] else []).
End Steps.
End routemonitor.

(** ** Reading a run *)

(** The calls a computation makes when started after trace [t], and what it
    returns there. *)
Definition callsOf {A : Type} (m : M A) (t : Trace) : list Call :=
  drop (length t) (snd (m t)).

Definition resultOf {A : Type} (m : M A) (t : Trace) : A := fst (m t).

(** ** Test data *)

Module testdata.
Import monitoringv1.

(** The errors of pkg/consts/test/error, as servicemonitor_test.go uses
    them. *)
Definition CustomError : error := errors.New "custom error".
Definition NotFoundErr : error := StatusError StatusReasonNotFound "not found".

Definition testRef : types.NamespacedName :=
  {| types.Name := "test"; types.Namespace := "test" |}.

Definition externals : Externals :=
  {| FinalizerKey := "routemonitor.routemonitoroperator.monitoring.openshift.io/finalizer";
     PrevFinalizerKey := "finalizer.routemonitor.openshift.io";
     NoHost := errors.New "no host";
     BlackBoxExporterPortName := "blackbox-exporter";
     GenerateBlackBoxExporterLables := {[ "app" := "blackbox-exporter" ]};
     TemplateForPrometheusRuleResource := fun url slo nn =>
       {| RuleObjectMeta :=
            {| metav1.Name := types.Name nn; metav1.Namespace := types.Namespace nn;
               metav1.ResourceVersion := ""; metav1.DeletionTimestamp := None;
               metav1.Finalizers := [] |};
          Groups := [ {| GroupName := "SLOs-probe";
                         Rules := [ {| Alert := url; Expr := slo |} ] |} ] |} |}.

(** A client with scripted answers, like the MockHelper of the tests. *)
Definition scriptedClient (get : forall k : ObjectKind, error + objectOf k)
    (create update delete : option error) : client.Client :=
  {| client.onGet := fun k _ _ => get k;
     client.onCreate := fun _ _ => create;
     client.onUpdate := fun _ _ => update;
     client.onDelete := fun _ _ => delete |}.

Definition getFails (e : error) : forall k : ObjectKind, error + objectOf k :=
  fun _ => inl e.

Definition getsServiceMonitor (sm : ServiceMonitor)
  : forall k : ObjectKind, error + objectOf k :=
  fun k =>
    match k return error + objectOf k with
    | KServiceMonitor => inr sm
    | KRhobsServiceMonitor => inr sm
    | _ => inl NotFoundErr
    end.

Definition getsRouteMonitor (rm : v1alpha1.RouteMonitor)
  : forall k : ObjectKind, error + objectOf k :=
  fun k =>
    match k return error + objectOf k with
    | KRouteMonitor => inr rm
    | _ => inl NotFoundErr
    end.

(** [reflect.DeepEqual] on the spec payload *)
Definition exactComparer : servicemonitor.ResourceComparerInterface :=
  {| servicemonitor.DeepEqual := fun a b => bool_decide (a = b) |}.

Definition handler (c : client.Client) : servicemonitor.ServiceMonitor :=
  {| servicemonitor.Client := c; servicemonitor.Comparer := exactComparer |}.

Definition template : ServiceMonitor :=
  @servicemonitor.TemplateForServiceMonitorResource externals
    "https://console.example.com" "openshift-monitoring"
    (<["module" := ["http_2xx"]]> (<["target" := ["https://console.example.com"]]> ∅))
    testRef "cluster-1".

(** A deployed object with the template's spec, and one with the spec of an
    older target; both carry metadata the store assigned. *)
Definition storeMeta : metav1.ObjectMeta :=
  {| metav1.Name := "test"; metav1.Namespace := "test";
     metav1.ResourceVersion := "4711"; metav1.DeletionTimestamp := None;
     metav1.Finalizers := [] |}.

Definition deployedSame : ServiceMonitor :=
  {| ObjectMeta := storeMeta; Spec := Spec template |}.

Definition deployedStale : ServiceMonitor :=
  {| ObjectMeta := storeMeta;
     Spec := Spec (@servicemonitor.TemplateForServiceMonitorResource externals
                     "http://old.example.com" "openshift-monitoring"
                     (<["module" := ["http_2xx"]]>
                        (<["target" := ["http://old.example.com"]]> ∅))
                     testRef "cluster-1") |}.
(** *** A RouteMonitor and scripted handlers for the reconciler *)

Definition monitor : v1alpha1.RouteMonitor :=
  {| v1alpha1.TypeMeta := {| metav1.Kind := "RouteMonitor";
                             metav1.APIVersion := "monitoring.openshift.io/v1alpha1" |};
     v1alpha1.ObjectMeta :=
       {| metav1.Name := "test"; metav1.Namespace := "test";
          metav1.ResourceVersion := "12"; metav1.DeletionTimestamp := None;
          metav1.Finalizers := [@FinalizerKey externals] |};
     v1alpha1.Spec :=
       {| v1alpha1.Route := {| v1alpha1.Name := "console";
                               v1alpha1.Namespace := "openshift-console" |};
          v1alpha1.Slo := {| v1alpha1.TargetAvailabilityPercent := "99.5" |};
          v1alpha1.SkipPrometheusRule := false |};
     v1alpha1.Status :=
       {| v1alpha1.RouteURL := "https://console.example.com";
          v1alpha1.ServiceMonitorRef := testRef;
          v1alpha1.PrometheusRuleRef := testRef;
          v1alpha1.ErrorStatus := "" |};
     v1alpha1.Unmodelled := v1alpha1.SomeSet |}.

Definition withSkip (rm : v1alpha1.RouteMonitor) (skip : bool) : v1alpha1.RouteMonitor :=
  {| v1alpha1.TypeMeta := v1alpha1.TypeMeta rm;
     v1alpha1.ObjectMeta := v1alpha1.ObjectMeta rm;
     v1alpha1.Spec :=
       {| v1alpha1.Route := v1alpha1.Route (v1alpha1.Spec rm);
          v1alpha1.Slo := v1alpha1.Slo (v1alpha1.Spec rm);
          v1alpha1.SkipPrometheusRule := skip |};
     v1alpha1.Status := v1alpha1.Status rm;
     v1alpha1.Unmodelled := v1alpha1.Unmodelled rm |}.

(** A stored RouteMonitor whose fields shown in the records are all zero while
    one that is not shown is set: a label, say, or a Finalizers slice that is
    empty without being nil. *)
Definition zeroButUnmodelled : v1alpha1.RouteMonitor :=
  {| v1alpha1.TypeMeta := v1alpha1.TypeMeta v1alpha1.zero;
     v1alpha1.ObjectMeta := v1alpha1.ObjectMeta v1alpha1.zero;
     v1alpha1.Spec := v1alpha1.Spec v1alpha1.zero;
     v1alpha1.Status := v1alpha1.Status v1alpha1.zero;
     v1alpha1.Unmodelled := v1alpha1.SomeSet |}.

(** The monitor once both finalizer keys are taken off. *)
Definition released : v1alpha1.RouteMonitor :=
  v1alpha1.withObjectMeta monitor
    (metav1.SetFinalizers (v1alpha1.ObjectMeta monitor) []).

(** An error status that takes the error's text, empty for nil, and reports
    whether that changed it. *)
Definition errorText (err : option error) : string :=
  match err with
  | None => ""
  | Some (StatusError _ msg) => msg
  | Some (errorString msg) => msg
  end.

Definition compareAndAssign (current : string) (err : option error) : bool * string :=
  (negb (bool_decide (current = errorText err)), errorText err).

(** Handlers with fixed answers: the accounting answer, the four teardown
    and delete answers, what the SLO parses to, and the answer of a write of
    the parent. *)
Definition reconciler (should : bool * option error)
    (exporterAbsent smDelete promDelete : option error)
    (parsed : string * option error) (written : Signal)
  : routemonitor.RouteMonitorReconciler :=
  {| routemonitor.Client := scriptedClient (getFails NotFoundErr) None None None;
     routemonitor.BlackBoxExporter :=
       {| controllers.onShouldDeleteBlackBoxExporterResources := fun _ => should;
          controllers.onEnsureBlackBoxExporterResourcesAbsent := fun _ => exporterAbsent;
          controllers.GetBlackBoxExporterNamespace := "openshift-monitoring" |};
     routemonitor.ServiceMonitor :=
       {| controllers.onDeleteServiceMonitorDeployment := fun _ _ _ => smDelete;
          controllers.onTemplateAndUpdateServiceMonitorDeployment :=
            fun _ _ _ _ _ _ => None |};
     routemonitor.Prom :=
       {| controllers.onDeletePrometheusRuleDeployment := fun _ _ => promDelete;
          controllers.onUpdatePrometheusRuleDeployment := fun _ _ => None |};
     routemonitor.Common :=
       {| controllers.onGetOSDClusterID := fun _ => ("cluster-1", None);
          controllers.ParseMonitorSLOSpecs := fun _ _ => parsed;
          controllers.SetErrorStatus := compareAndAssign;
          controllers.onUpdateMonitorResource := fun _ _ => written;
          controllers.onUpdateMonitorResourceStatus := fun _ _ => written |} |}.

(** Every call succeeds; a write of the parent answers Stop. *)
Definition healthy (parsed : string) : routemonitor.RouteMonitorReconciler :=
  reconciler (false, None) None None None (parsed, None) (Stop, None).

Definition withClient (c : client.Client) : routemonitor.RouteMonitorReconciler :=
  {| routemonitor.Client := c;
     routemonitor.BlackBoxExporter := routemonitor.BlackBoxExporter (healthy "");
     routemonitor.ServiceMonitor := routemonitor.ServiceMonitor (healthy "");
     routemonitor.Prom := routemonitor.Prom (healthy "");
     routemonitor.Common := routemonitor.Common (healthy "") |}.

Definition route (hosts : list string) (tls : option routev1.TLSConfig) : routev1.Route :=
  {| routev1.ObjectMeta :=
       {| metav1.Name := "console"; metav1.Namespace := "openshift-console";
          metav1.ResourceVersion := "3"; metav1.DeletionTimestamp := None;
          metav1.Finalizers := [] |};
     routev1.Spec := {| routev1.Path := ""; routev1.TLS := tls |};
     routev1.Status :=
       {| routev1.Ingress :=
            map (fun h => {| routev1.Host := h; routev1.RouterName := "default" |})
              hosts |} |}.

Definition edge : routev1.TLSConfig := {| routev1.Termination := "edge" |}.
End testdata.

(** ** Reading calls *)

(** The kind a client call works on, and the kind of object a status write of
    the parent carries; used to state which calls a function can make. *)
Definition objectKind (o : Object) : ObjectKind :=
  match o with
  | ObjServiceMonitor _ => KServiceMonitor
  | ObjRhobsServiceMonitor _ => KRhobsServiceMonitor
  | ObjRouteMonitor _ => KRouteMonitor
  | ObjRoute _ => KRoute
  end.

Definition callKind (c : Call) : option ObjectKind :=
  match c with
  | ClientGet k _ => Some k
  | ClientCreate o => Some (objectKind o)
  | ClientUpdate o => Some (objectKind o)
  | ClientDelete o => Some (objectKind o)
  | _ => None
  end.

(** The object of the flavour the HCP flag selects, read as and made from a
    ServiceMonitor: the two flavours have the same fields. *)
Definition flavourToServiceMonitor (isHCP : bool)
  : objectOf (servicemonitor.fetchedKind isHCP) -> monitoringv1.ServiceMonitor :=
  match isHCP return objectOf (servicemonitor.fetchedKind isHCP)
                     -> monitoringv1.ServiceMonitor with
  | true => fun sm => sm
  | false => fun sm => sm
  end.

Definition flavourOfServiceMonitor (isHCP : bool)
  : monitoringv1.ServiceMonitor -> objectOf (servicemonitor.fetchedKind isHCP) :=
  match isHCP return monitoringv1.ServiceMonitor
                     -> objectOf (servicemonitor.fetchedKind isHCP) with
  | true => fun sm => sm
  | false => fun sm => sm
  end.

(** The params map [TemplateAndUpdateServiceMonitorDeployment] builds for a
    route URL. *)
Definition probeParams (routeURL : string) : gmap string (list string) :=
  <["module" := ["http_2xx"]]> (<["target" := [routeURL]]> ∅).

(** ** controllers/clusterurlmonitor *)

Module clusterurlmonitor.
Definition FinalizerKey : string :=
  "clusterurlmonitor.routemonitoroperator.monitoring.openshift.io/finalizer".

(** PrevFinalizerKey is here until migration to new key is done *)
Definition PrevFinalizerKey : string :=
  "clusterurlmonitor.monitoring.openshift.io/clusterurlmonitorcontroller".

(** [ctrl.Result] of controller-runtime. *)
Record ctrlResult : Type := mkCtrlResult {
  Requeue : bool;
  RequeueAfter : Z
}.

(** [ctrl.Result{}] *)
Definition zeroResult : ctrlResult := {| Requeue := false; RequeueAfter := 0 |}.

Section Reconcile.
(** The steps [Reconcile] drives are methods of the ClusterUrlMonitor
    reconciler declared in other files of the package, and [ShouldStop] is a
    method of pkg/util/reconcile's Result: they are parameters here, as is the
    ClusterUrlMonitor type they pass along. *)
Variable ClusterUrlMonitor : Type.
Variable ShouldStop : Result -> bool.
Variable GetClusterUrlMonitor :
  ctrl.Request -> M (ClusterUrlMonitor * Result * option error).
Variable EnsureMonitorAndDependenciesAbsent : ClusterUrlMonitor -> M Signal.
Variable EnsureFinalizerSet : ClusterUrlMonitor -> M Signal.
Variable EnsureBlackBoxExporterResourcesExist : M (option error).
Variable EnsureServiceMonitorExists : ClusterUrlMonitor -> M Signal.
Variable EnsurePrometheusRuleExists : ClusterUrlMonitor -> M Signal.

Definition Reconcile (req : ctrl.Request) : M (ctrlResult * option error) :=
  got <- GetClusterUrlMonitor req ;;
  let '(clusterUrlMonitor, res, err) := got in
  match err with
  | Some err => ret (zeroResult, Some err)
  | None =>
  if ShouldStop res then ret (zeroResult, None)
  else
  got <- EnsureMonitorAndDependenciesAbsent clusterUrlMonitor ;;
  let '(res, err) := got in
  match err with
  | Some err => ret (zeroResult, Some err)
  | None =>
  if ShouldStop res then ret (zeroResult, None)
  else
  got <- EnsureFinalizerSet clusterUrlMonitor ;;
  let '(res, err) := got in
  match err with
  | Some err => ret (zeroResult, Some err)
  | None =>
  if ShouldStop res then ret (zeroResult, None)
  else
  err <- EnsureBlackBoxExporterResourcesExist ;;
  match err with
  | Some err => ret (zeroResult, Some err)
  | None =>
  got <- EnsureServiceMonitorExists clusterUrlMonitor ;;
  let '(res, err) := got in
  match err with
  | Some err => ret (zeroResult, Some err)
  | None =>
  if ShouldStop res then ret (zeroResult, None)
  else
  got <- EnsurePrometheusRuleExists clusterUrlMonitor ;;
  let '(res, err) := got in
  match err with
  | Some err => ret (zeroResult, Some err)
  | None =>
  if ShouldStop res then ret (zeroResult, None)
  else ret (zeroResult, None)
  end end end end end end.

(** Whether the driver goes on after a step: the step returned no error and
    its result does not ask to stop. *)
Definition proceeds (s : Signal) : bool :=
  match snd s with
  | Some _ => false
  | None => negb (ShouldStop (fst s))
  end.
End Reconcile.
End clusterurlmonitor.

(** ** More test data *)

Module moredata.
(** A ClusterUrlMonitor reconcile whose steps are scripted: each step makes
    the one call given for it (standing for whatever it does) and returns the
    given signal; a result stops unless it is Continue. *)
Definition stopsUnlessContinue (r : Result) : bool :=
  match r with
  | Continue => false
  | _ => true
  end.

Definition scriptedReconcile (found absent finalizer : Signal)
    (exporter : option error) (scrape alert : Signal)
  : ctrl.Request -> M (clusterurlmonitor.ctrlResult * option error) :=
  clusterurlmonitor.Reconcile unit stopsUnlessContinue
    (fun req => invoke (ClientGet KRouteMonitor (ctrl.NamespacedName req))
                  (fun _ => (tt, fst found, snd found)))
    (fun _ => invoke CallShouldDeleteBlackBoxExporterResources (fun _ => absent))
    (fun _ => invoke (CallUpdateMonitorResource v1alpha1.zero) (fun _ => finalizer))
    (invoke CallEnsureBlackBoxExporterResourcesAbsent (fun _ => exporter))
    (fun _ => invoke CallGetOSDClusterID (fun _ => scrape))
    (fun _ => invoke (CallUpdateMonitorResourceStatus v1alpha1.zero) (fun _ => alert)).

(** A monitor that carries only the legacy finalizer key. *)
Definition legacyOnly : v1alpha1.RouteMonitor :=
  v1alpha1.withObjectMeta testdata.monitor
    (metav1.SetFinalizers (v1alpha1.ObjectMeta testdata.monitor)
       [@PrevFinalizerKey testdata.externals]).

(** A monitor without finalizers. *)
Definition fresh : v1alpha1.RouteMonitor :=
  v1alpha1.withObjectMeta testdata.monitor
    (metav1.SetFinalizers (v1alpha1.ObjectMeta testdata.monitor) []).

(** Handlers as in [testdata.reconciler], with the answers of the cluster-ID
    lookup and of the ServiceMonitor template call given. *)
Definition scrapeReconciler (clusterID : string * option error)
    (templated : option error) (written : Signal)
  : routemonitor.RouteMonitorReconciler :=
  {| routemonitor.Client := routemonitor.Client (testdata.healthy "");
     routemonitor.BlackBoxExporter := routemonitor.BlackBoxExporter (testdata.healthy "");
     routemonitor.ServiceMonitor :=
       {| controllers.onDeleteServiceMonitorDeployment := fun _ _ _ => None;
          controllers.onTemplateAndUpdateServiceMonitorDeployment :=
            fun _ _ _ _ _ _ => templated |};
     routemonitor.Prom := routemonitor.Prom (testdata.healthy "");
     routemonitor.Common :=
       {| controllers.onGetOSDClusterID := fun _ => clusterID;
          controllers.ParseMonitorSLOSpecs := fun _ _ => ("", None);
          controllers.SetErrorStatus := testdata.compareAndAssign;
          controllers.onUpdateMonitorResource := fun _ _ => written;
          controllers.onUpdateMonitorResourceStatus := fun _ _ => written |} |}.

(** Handlers as in [testdata.reconciler], with the answer of the
    PrometheusRule update given. *)
Definition alertReconciler (promDelete promUpdate : option error)
    (parsed : string * option error) (written : Signal)
  : routemonitor.RouteMonitorReconciler :=
  {| routemonitor.Client := routemonitor.Client (testdata.healthy "");
     routemonitor.BlackBoxExporter := routemonitor.BlackBoxExporter (testdata.healthy "");
     routemonitor.ServiceMonitor := routemonitor.ServiceMonitor (testdata.healthy "");
     routemonitor.Prom :=
       {| controllers.onDeletePrometheusRuleDeployment := fun _ _ => promDelete;
          controllers.onUpdatePrometheusRuleDeployment := fun _ _ => promUpdate |};
     routemonitor.Common :=
       {| controllers.onGetOSDClusterID := fun _ => ("cluster-1", None);
          controllers.ParseMonitorSLOSpecs := fun _ _ => parsed;
          controllers.SetErrorStatus := testdata.compareAndAssign;
          controllers.onUpdateMonitorResource := fun _ _ => written;
          controllers.onUpdateMonitorResourceStatus := fun _ _ => written |} |}.

Definition getsRoute (rt : routev1.Route) : forall k : ObjectKind, error + objectOf k :=
  fun k =>
    match k return error + objectOf k with
    | KRoute => inr rt
    | _ => inl testdata.NotFoundErr
    end.
End moredata.

(** * Properties *)

(** ** Runs and their calls *)

Lemma callsOf_app {A : Type} (m : M A) (t : Trace) (a : A) (l : list Call) :
  m t = (a, t ++ l) -> callsOf m t = l.
Proof.
  intros E. unfold callsOf. rewrite E. simpl. apply drop_app_length.
Qed.

Lemma callsOf_nil {A : Type} (m : M A) (t : Trace) (a : A) :
  m t = (a, t) -> callsOf m t = [].
Proof.
  intros E. apply (callsOf_app m t a []). rewrite app_nil_r. exact E.
Qed.

Lemma resultOf_eq {A : Type} (m : M A) (t t' : Trace) (a : A) :
  m t = (a, t') -> resultOf m t = a.
Proof. intros E. unfold resultOf. now rewrite E. Qed.

Lemma invoke_run {A : Type} (c : Call) (answer : Trace -> A) (t : Trace) :
  invoke c answer t = (answer t, t ++ [c]).
Proof. reflexivity. Qed.

Lemma trace_snoc2 (t : Trace) (a b : Call) : (t ++ [a]) ++ [b] = t ++ [a; b].
Proof. now rewrite <- app_assoc. Qed.

(** ** pkg/servicemonitor *)

Section ServiceMonitorDeployment.
Import servicemonitor monitoringv1.
Variable u : servicemonitor.ServiceMonitor.

(** The full case analysis of [UpdateServiceMonitorDeployment]: one fetch,
    then at most one write, chosen by the fetch's answer and the comparer. *)
Lemma UpdateServiceMonitorDeployment_run (template : ServiceMonitor) (t : Trace) :
  let key := {| types.Name := metav1.Name (ObjectMeta template);
                types.Namespace := metav1.Namespace (ObjectMeta template) |} in
  let fetch := ClientGet KServiceMonitor key in
  UpdateServiceMonitorDeployment u template t =
    match client.onGet (Client u) KServiceMonitor t key with
    | inl err =>
        if IsNotFound err
        then (client.onCreate (Client u) (t ++ [fetch]) (ObjServiceMonitor template),
              t ++ [fetch; ClientCreate (ObjServiceMonitor template)])
        else (Some err, t ++ [fetch])
    | inr deployed =>
        if DeepEqual (Comparer u) (Spec deployed) (Spec template)
        then (None, t ++ [fetch])
        else (client.onUpdate (Client u) (t ++ [fetch])
                (ObjServiceMonitor (withSpec deployed (Spec template))),
              t ++ [fetch;
                    ClientUpdate (ObjServiceMonitor (withSpec deployed (Spec template)))])
    end.
Proof.
  intros key fetch. unfold UpdateServiceMonitorDeployment, client.Get.
  unfold bind at 1. rewrite invoke_run. fold key. fold fetch.
  destruct (client.onGet (Client u) KServiceMonitor t key) as [err|deployed].
  - destruct (IsNotFound err); simpl.
    + unfold client.Create. rewrite invoke_run. now rewrite trace_snoc2.
    + reflexivity.
  - destruct (DeepEqual (Comparer u) (Spec deployed) (Spec template)); simpl.
    + reflexivity.
    + unfold client.Update. rewrite invoke_run. now rewrite trace_snoc2.
Qed.

(** C3.  ensureExists, [UpdateServiceMonitorDeployment]: for every template
    and every client, after any trace: a not-found fetch is followed by
    Create of the template and nothing else; after a successful fetch an
    Update is issued exactly when the comparer reports the deployed spec
    unequal to the template's, and the object updated is the fetched one
    with its spec replaced and its metadata kept; equal specs give no write
    and nil; any other fetch error is returned as it is, with no write. *)
Theorem UpdateServiceMonitorDeployment_ensureExists
    (template : ServiceMonitor) (t : Trace) :
  let key := {| types.Name := metav1.Name (ObjectMeta template);
                types.Namespace := metav1.Namespace (ObjectMeta template) |} in
  let fetch := ClientGet KServiceMonitor key in
  let m := UpdateServiceMonitorDeployment u template in
  (forall err,
      client.onGet (Client u) KServiceMonitor t key = inl err ->
      IsNotFound err = true ->
      callsOf m t = [fetch; ClientCreate (ObjServiceMonitor template)] /\
      resultOf m t =
        client.onCreate (Client u) (t ++ [fetch]) (ObjServiceMonitor template))
  /\
  (forall deployed,
      client.onGet (Client u) KServiceMonitor t key = inr deployed ->
      let updated := withSpec deployed (Spec template) in
      ((exists o, ClientUpdate o ∈ callsOf m t) <->
         DeepEqual (Comparer u) (Spec deployed) (Spec template) = false) /\
      (DeepEqual (Comparer u) (Spec deployed) (Spec template) = false ->
         callsOf m t = [fetch; ClientUpdate (ObjServiceMonitor updated)] /\
         resultOf m t =
           client.onUpdate (Client u) (t ++ [fetch]) (ObjServiceMonitor updated) /\
         ObjectMeta updated = ObjectMeta deployed /\
         Spec updated = Spec template) /\
      (DeepEqual (Comparer u) (Spec deployed) (Spec template) = true ->
         callsOf m t = [fetch] /\ resultOf m t = None))
  /\
  (forall err,
      client.onGet (Client u) KServiceMonitor t key = inl err ->
      IsNotFound err = false ->
      callsOf m t = [fetch] /\ resultOf m t = Some err).
Proof.
  intros key fetch m.
  pose proof (UpdateServiceMonitorDeployment_run template t) as R.
  cbv zeta in R. fold key fetch in R. fold m in R.
  split; [|split].
  - intros err G NF. rewrite G, NF in R.
    split; [eapply callsOf_app | eapply resultOf_eq]; exact R.
  - intros deployed G updated. rewrite G in R. fold updated in R.
    destruct (DeepEqual (Comparer u) (Spec deployed) (Spec template)) eqn:D.
    + assert (C : callsOf m t = [fetch]) by (eapply callsOf_app; exact R).
      split; [|split].
      * rewrite C. split; [|discriminate].
        intros [o Ho]. apply list_elem_of_singleton in Ho. discriminate.
      * discriminate.
      * intros _. split; [exact C | eapply resultOf_eq; exact R].
    + assert (C : callsOf m t = [fetch; ClientUpdate (ObjServiceMonitor updated)])
        by (eapply callsOf_app; exact R).
      split; [|split].
      * rewrite C. split; [reflexivity|].
        intros _. exists (ObjServiceMonitor updated). set_solver.
      * intros _. repeat split; [exact C | eapply resultOf_eq; exact R].
      * discriminate.
  - intros err G NF. rewrite G, NF in R.
    split; [eapply callsOf_app | eapply resultOf_eq]; exact R.
Qed.
End ServiceMonitorDeployment.

Lemma UpdateServiceMonitorDeployment_ensureExists_witness :
  let missing := testdata.handler
    (testdata.scriptedClient (testdata.getFails testdata.NotFoundErr) None None None) in
  let stale := testdata.handler
    (testdata.scriptedClient (testdata.getsServiceMonitor testdata.deployedStale)
       None None None) in
  let same := testdata.handler
    (testdata.scriptedClient (testdata.getsServiceMonitor testdata.deployedSame)
       None None None) in
  let broken := testdata.handler
    (testdata.scriptedClient (testdata.getFails testdata.CustomError) None None None) in
  let fetch := ClientGet KServiceMonitor testdata.testRef in
  let run h := servicemonitor.UpdateServiceMonitorDeployment h testdata.template in
  (IsNotFound testdata.NotFoundErr = true /\
   callsOf (run missing) [] = [fetch; ClientCreate (ObjServiceMonitor testdata.template)] /\
   resultOf (run missing) [] = None)
  /\
  (servicemonitor.DeepEqual testdata.exactComparer
     (monitoringv1.Spec testdata.deployedStale) (monitoringv1.Spec testdata.template)
     = false /\
   callsOf (run stale) [] =
     [fetch;
      ClientUpdate (ObjServiceMonitor
        (monitoringv1.withSpec testdata.deployedStale
           (monitoringv1.Spec testdata.template)))] /\
   resultOf (run stale) [] = None)
  /\
  (servicemonitor.DeepEqual testdata.exactComparer
     (monitoringv1.Spec testdata.deployedSame) (monitoringv1.Spec testdata.template)
     = true /\
   callsOf (run same) [] = [fetch] /\ resultOf (run same) [] = None)
  /\
  (IsNotFound testdata.CustomError = false /\
   callsOf (run broken) [] = [fetch] /\
   resultOf (run broken) [] = Some testdata.CustomError).
Proof.
  intros missing stale same broken fetch run.
  split; [|split; [|split]].
  - split; [reflexivity|].
    destruct (UpdateServiceMonitorDeployment_ensureExists missing testdata.template [])
      as (H & _ & _).
    exact (H testdata.NotFoundErr eq_refl eq_refl).
  - assert (D : servicemonitor.DeepEqual testdata.exactComparer
                  (monitoringv1.Spec testdata.deployedStale)
                  (monitoringv1.Spec testdata.template) = false)
      by (vm_compute; reflexivity).
    split; [exact D|].
    destruct (UpdateServiceMonitorDeployment_ensureExists stale testdata.template [])
      as (_ & H & _).
    destruct (H testdata.deployedStale eq_refl) as (_ & H' & _).
    destruct (H' D) as (C & R & _). split; [exact C | exact R].
  - assert (D : servicemonitor.DeepEqual testdata.exactComparer
                  (monitoringv1.Spec testdata.deployedSame)
                  (monitoringv1.Spec testdata.template) = true)
      by (vm_compute; reflexivity).
    split; [exact D|].
    destruct (UpdateServiceMonitorDeployment_ensureExists same testdata.template [])
      as (_ & H & _).
    destruct (H testdata.deployedSame eq_refl) as (_ & _ & H').
    exact (H' D).
  - split; [reflexivity|].
    destruct (UpdateServiceMonitorDeployment_ensureExists broken testdata.template [])
      as (_ & _ & H).
    exact (H testdata.CustomError eq_refl eq_refl).
Defined.

Section ServiceMonitorRemoval.
Import servicemonitor monitoringv1.
Variable u : servicemonitor.ServiceMonitor.

(** With either field of the ref empty, nothing is called. *)
Lemma DeleteServiceMonitorDeployment_skip
    (ref : types.NamespacedName) (isHCP : bool) (t : Trace) :
  types.Name ref = "" \/ types.Namespace ref = "" ->
  DeleteServiceMonitorDeployment u ref isHCP t = (None, t).
Proof.
  intros E. unfold DeleteServiceMonitorDeployment.
  destruct E as [E|E]; rewrite E; simpl.
  - reflexivity.
  - now rewrite orb_true_r.
Qed.

(** With both fields set, one fetch by the ref, then a delete of what was
    fetched. *)
Lemma DeleteServiceMonitorDeployment_run
    (ref : types.NamespacedName) (isHCP : bool) (t : Trace) :
  types.Name ref <> "" -> types.Namespace ref <> "" ->
  let k := fetchedKind isHCP in
  let fetch := ClientGet k ref in
  DeleteServiceMonitorDeployment u ref isHCP t =
    match client.onGet (Client u) k t ref with
    | inl err => (client.IgnoreNotFound err, t ++ [fetch])
    | inr resource =>
        (client.onDelete (Client u) (t ++ [fetch]) (toObject k resource),
         t ++ [fetch; ClientDelete (toObject k resource)])
    end.
Proof.
  intros Hn Hns k fetch. unfold DeleteServiceMonitorDeployment.
  rewrite (bool_decide_eq_false_2 _ Hn), (bool_decide_eq_false_2 _ Hns). simpl.
  assert (Eref : {| types.Name := types.Name ref;
                    types.Namespace := types.Namespace ref |} = ref)
    by (now destruct ref).
  rewrite Eref. subst k fetch.
  destruct isHCP; simpl; unfold client.Get, bind; rewrite invoke_run;
    match goal with
    | |- context [client.onGet ?c ?k ?t ?r] => destruct (client.onGet c k t r)
    end; simpl; try reflexivity;
    unfold client.Delete; rewrite invoke_run; now rewrite trace_snoc2.
Qed.

(** C4, as the code has it.  ensureAbsent, [DeleteServiceMonitorDeployment]:
    for a ref whose name or whose namespace is empty, the absent sentinel
    among them, it returns nil and calls nothing.  For a ref with both set:
    a not-found fetch gives nil and no delete; a successful fetch is followed
    by the delete of the fetched object, whose answer is returned; any other
    fetch error is returned.  For every ref whatsoever, a delete is only
    issued for an object a fetch has just returned. *)
Theorem DeleteServiceMonitorDeployment_ensureAbsent
    (ref : types.NamespacedName) (isHCP : bool) (t : Trace) :
  let k := fetchedKind isHCP in
  let fetch := ClientGet k ref in
  let m := DeleteServiceMonitorDeployment u ref isHCP in
  (types.Name ref = "" \/ types.Namespace ref = "" ->
     callsOf m t = [] /\ resultOf m t = None)
  /\
  (types.Name ref <> "" -> types.Namespace ref <> "" ->
     (forall err,
         client.onGet (Client u) k t ref = inl err -> IsNotFound err = true ->
         callsOf m t = [fetch] /\ resultOf m t = None) /\
     (forall resource,
         client.onGet (Client u) k t ref = inr resource ->
         callsOf m t = [fetch; ClientDelete (toObject k resource)] /\
         resultOf m t =
           client.onDelete (Client u) (t ++ [fetch]) (toObject k resource)) /\
     (forall err,
         client.onGet (Client u) k t ref = inl err -> IsNotFound err = false ->
         callsOf m t = [fetch] /\ resultOf m t = Some err))
  /\
  (forall o, ClientDelete o ∈ callsOf m t ->
     exists resource,
       client.onGet (Client u) k t ref = inr resource /\ o = toObject k resource /\
       callsOf m t = [fetch; ClientDelete o]).
Proof.
  intros k fetch m. split; [|split].
  - intros E.
    pose proof (DeleteServiceMonitorDeployment_skip ref isHCP t E) as R.
    split; [eapply callsOf_nil | eapply resultOf_eq]; exact R.
  - intros Hn Hns.
    pose proof (DeleteServiceMonitorDeployment_run ref isHCP t Hn Hns) as R.
    cbv zeta in R. fold k fetch m in R.
    split; [|split].
    + intros err G NF. rewrite G in R. unfold client.IgnoreNotFound in R.
      rewrite NF in R.
      split; [eapply callsOf_app | eapply resultOf_eq]; exact R.
    + intros resource G. rewrite G in R.
      split; [eapply callsOf_app | eapply resultOf_eq]; exact R.
    + intros err G NF. rewrite G in R. unfold client.IgnoreNotFound in R.
      rewrite NF in R.
      split; [eapply callsOf_app | eapply resultOf_eq]; exact R.
  - intros o Ho.
    destruct (decide (types.Name ref = "")) as [En|Hn];
      [|destruct (decide (types.Namespace ref = "")) as [Ens|Hns]].
    + rewrite (callsOf_nil m t None) in Ho
        by (apply DeleteServiceMonitorDeployment_skip; now left).
      set_solver.
    + rewrite (callsOf_nil m t None) in Ho
        by (apply DeleteServiceMonitorDeployment_skip; now right).
      set_solver.
    + pose proof (DeleteServiceMonitorDeployment_run ref isHCP t Hn Hns) as R.
      cbv zeta in R. fold k fetch m in R.
      destruct (client.onGet (Client u) k t ref) as [err|resource].
      * rewrite (callsOf_app m t _ _ R) in Ho.
        apply list_elem_of_singleton in Ho. discriminate.
      * rewrite (callsOf_app m t _ _ R) in Ho |- *.
        exists resource. split; [reflexivity|].
        assert (o = toObject k resource) as ->; [|now split].
        apply elem_of_cons in Ho as [Ho|Ho]; [discriminate|].
        apply list_elem_of_singleton in Ho. now inversion Ho.
Qed.

(** C8.  [DeleteServiceMonitorDeployment] takes a ref for absent, returning
    nil with no store call, whenever either its name or its namespace is
    empty, and only then; this is strictly more than the absent sentinel: a
    ref with a name and no namespace is not the sentinel and is skipped all
    the same, never fetched or deleted. *)
Theorem DeleteServiceMonitorDeployment_either_empty_skipped
    (ref : types.NamespacedName) (isHCP : bool) (t : Trace) :
  let m := DeleteServiceMonitorDeployment u ref isHCP in
  (types.Name ref = "" \/ types.Namespace ref = "" ->
     callsOf m t = [] /\ resultOf m t = None)
  /\
  (types.Name ref <> "" -> types.Namespace ref <> "" ->
     ClientGet (fetchedKind isHCP) ref ∈ callsOf m t)
  /\
  (types.Name ref <> "" -> types.Namespace ref = "" ->
     ref <> types.empty /\ callsOf m t = [] /\ resultOf m t = None).
Proof.
  intros m. split; [|split].
  - intros E.
    pose proof (DeleteServiceMonitorDeployment_skip ref isHCP t E) as R.
    split; [eapply callsOf_nil | eapply resultOf_eq]; exact R.
  - intros Hn Hns.
    pose proof (DeleteServiceMonitorDeployment_run ref isHCP t Hn Hns) as R.
    cbv zeta in R. fold m in R.
    destruct (client.onGet (Client u) (fetchedKind isHCP) t ref);
      rewrite (callsOf_app m t _ _ R); set_solver.
  - intros Hn Ens.
    pose proof (DeleteServiceMonitorDeployment_skip ref isHCP t (or_intror Ens)) as R.
    split; [|split; [eapply callsOf_nil | eapply resultOf_eq]; exact R].
    intros ->. now apply Hn.
Qed.
End ServiceMonitorRemoval.

Lemma DeleteServiceMonitorDeployment_ensureAbsent_witness :
  let gone := testdata.handler
    (testdata.scriptedClient (testdata.getFails testdata.NotFoundErr) None None None) in
  let present := testdata.handler
    (testdata.scriptedClient (testdata.getsServiceMonitor testdata.deployedSame)
       None None (Some testdata.CustomError)) in
  let broken := testdata.handler
    (testdata.scriptedClient (testdata.getFails testdata.CustomError) None None None) in
  let fetch := ClientGet KServiceMonitor testdata.testRef in
  let run h ref := servicemonitor.DeleteServiceMonitorDeployment h ref false in
  let noName := {| types.Name := ""; types.Namespace := "test" |} in
  (callsOf (run present types.empty) [] = [] /\
   resultOf (run present types.empty) [] = None)
  /\
  (types.Name noName = "" /\ noName <> types.empty /\
   callsOf (run present noName) [] = [] /\
   resultOf (run present noName) [] = None)
  /\
  (types.Name testdata.testRef <> "" /\ types.Namespace testdata.testRef <> "" /\
   (callsOf (run gone testdata.testRef) [] = [fetch] /\
    resultOf (run gone testdata.testRef) [] = None) /\
   (callsOf (run present testdata.testRef) [] =
      [fetch; ClientDelete (ObjServiceMonitor testdata.deployedSame)] /\
    resultOf (run present testdata.testRef) [] = Some testdata.CustomError) /\
   (callsOf (run broken testdata.testRef) [] = [fetch] /\
    resultOf (run broken testdata.testRef) [] = Some testdata.CustomError))
  /\
  (ClientDelete (ObjServiceMonitor testdata.deployedSame)
     ∈ callsOf (run present testdata.testRef) [] /\
   exists resource,
     client.onGet (servicemonitor.Client present) KServiceMonitor [] testdata.testRef
       = inr resource /\
     ObjServiceMonitor testdata.deployedSame = ObjServiceMonitor resource).
Proof.
  intros gone present broken fetch run noName.
  assert (Hn : types.Name testdata.testRef <> "") by discriminate.
  assert (Hns : types.Namespace testdata.testRef <> "") by discriminate.
  split; [|split; [|split]].
  - destruct (DeleteServiceMonitorDeployment_ensureAbsent present types.empty false [])
      as (H & _ & _).
    exact (H (or_introl eq_refl)).
  - split; [reflexivity|]. split; [discriminate|].
    destruct (DeleteServiceMonitorDeployment_ensureAbsent present noName false [])
      as (H & _ & _).
    exact (H (or_introl eq_refl)).
  - split; [exact Hn|]. split; [exact Hns|]. split; [|split].
    + destruct (DeleteServiceMonitorDeployment_ensureAbsent gone testdata.testRef false [])
        as (_ & H & _).
      destruct (H Hn Hns) as (H' & _ & _).
      exact (H' testdata.NotFoundErr eq_refl eq_refl).
    + destruct (DeleteServiceMonitorDeployment_ensureAbsent present testdata.testRef
                  false []) as (_ & H & _).
      destruct (H Hn Hns) as (_ & H' & _).
      exact (H' testdata.deployedSame eq_refl).
    + destruct (DeleteServiceMonitorDeployment_ensureAbsent broken testdata.testRef
                  false []) as (_ & H & _).
      destruct (H Hn Hns) as (_ & _ & H').
      exact (H' testdata.CustomError eq_refl eq_refl).
  - assert (I : ClientDelete (ObjServiceMonitor testdata.deployedSame)
                  ∈ callsOf (run present testdata.testRef) [])
      by (vm_compute; apply list_elem_of_further, list_elem_of_here).
    split; [exact I|].
    destruct (DeleteServiceMonitorDeployment_ensureAbsent present testdata.testRef
                false []) as (_ & _ & H).
    destruct (H _ I) as (resource & G & E & _).
    exists resource. split; [exact G | exact E].
Defined.

(** C4, as stated, fails.  A ref with a name and no namespace is not the
    absent sentinel, and the store answers a fetch by it with an object; the
    function all the same returns nil without fetching and without deleting,
    so that no delete follows on what a fetch would have found.  The same for
    a ref with a namespace and no name, and for the other flavour. *)
Lemma DeleteServiceMonitorDeployment_half_empty_ref_is_left_in_store :
  let present := testdata.handler
    (testdata.scriptedClient (testdata.getsServiceMonitor testdata.deployedSame)
       None None None) in
  let noNamespace := {| types.Name := "test"; types.Namespace := "" |} in
  let noName := {| types.Name := ""; types.Namespace := "test" |} in
  let run ref isHCP := servicemonitor.DeleteServiceMonitorDeployment present ref isHCP in
  noNamespace <> types.empty /\
  noName <> types.empty /\
  client.onGet (servicemonitor.Client present) KServiceMonitor [] noNamespace
    = inr testdata.deployedSame /\
  client.onGet (servicemonitor.Client present) KRhobsServiceMonitor [] noName
    = inr testdata.deployedSame /\
  run noNamespace false [] = (None, []) /\
  run noName false [] = (None, []) /\
  run noNamespace true [] = (None, []) /\
  run noName true [] = (None, []).
Proof.
  intros present noNamespace noName run.
  repeat split; try reflexivity; discriminate.
Qed.

Lemma DeleteServiceMonitorDeployment_either_empty_skipped_witness :
  let present := testdata.handler
    (testdata.scriptedClient (testdata.getsServiceMonitor testdata.deployedSame)
       None None None) in
  let noNamespace := {| types.Name := "test"; types.Namespace := "" |} in
  let run ref := servicemonitor.DeleteServiceMonitorDeployment present ref false in
  (types.Name noNamespace <> "" /\ types.Namespace noNamespace = "" /\
   noNamespace <> types.empty /\
   callsOf (run noNamespace) [] = [] /\ resultOf (run noNamespace) [] = None)
  /\
  (types.Name testdata.testRef <> "" /\ types.Namespace testdata.testRef <> "" /\
   ClientGet KServiceMonitor testdata.testRef ∈ callsOf (run testdata.testRef) []).
Proof.
  intros present noNamespace run. split.
  - assert (Hn : types.Name noNamespace <> "") by discriminate.
    split; [exact Hn|]. split; [reflexivity|].
    destruct (DeleteServiceMonitorDeployment_either_empty_skipped present noNamespace
                false []) as (_ & _ & H).
    exact (H Hn eq_refl).
  - assert (Hn : types.Name testdata.testRef <> "") by discriminate.
    assert (Hns : types.Namespace testdata.testRef <> "") by discriminate.
    split; [exact Hn|]. split; [exact Hns|].
    destruct (DeleteServiceMonitorDeployment_either_empty_skipped present
                testdata.testRef false []) as (_ & H & _).
    exact (H Hn Hns).
Defined.

(** ** controllers: finalizers and references *)

Section Finalizers.
Import v1alpha1.

Lemma filter_ne_absent (key : string) (l : list string) :
  key ∉ l -> filter (fun f => f ≠ key) l = l.
Proof.
  induction l as [|x l IH]; intros Hn; [reflexivity|].
  apply not_elem_of_cons in Hn as [Hx Hl].
  rewrite filter_cons_True by congruence. now rewrite IH.
Qed.

Lemma DeleteFinalizer_deleted (o : RouteMonitor) (key : string) :
  fst (controllers.DeleteFinalizer o key)
  = bool_decide (key ∈ metav1.Finalizers (ObjectMeta o)).
Proof. unfold controllers.DeleteFinalizer. now case_bool_decide. Qed.

Lemma DeleteFinalizer_Finalizers (o : RouteMonitor) (key : string) :
  metav1.Finalizers (ObjectMeta (snd (controllers.DeleteFinalizer o key)))
  = filter (fun f => f ≠ key) (metav1.Finalizers (ObjectMeta o)).
Proof.
  unfold controllers.DeleteFinalizer. case_bool_decide; simpl.
  - reflexivity.
  - now rewrite filter_ne_absent.
Qed.

Lemma DeleteFinalizer_Status (o : RouteMonitor) (key : string) :
  Status (snd (controllers.DeleteFinalizer o key)) = Status o.
Proof. unfold controllers.DeleteFinalizer. now case_bool_decide. Qed.

Lemma DeleteFinalizer_absent_after (o : RouteMonitor) (key : string) :
  key ∉ metav1.Finalizers (ObjectMeta (snd (controllers.DeleteFinalizer o key))).
Proof.
  rewrite DeleteFinalizer_Finalizers. intros Hin.
  apply list_elem_of_filter in Hin as [Hne _]. now apply Hne.
Qed.

Lemma SetResourceReference_value (reference target : types.NamespacedName) :
  snd (controllers.SetResourceReference reference target) = target.
Proof. unfold controllers.SetResourceReference. now case_bool_decide. Qed.

Lemma SetResourceReference_updated (reference target : types.NamespacedName) :
  fst (controllers.SetResourceReference reference target)
  = (negb (bool_decide (reference = target)), None).
Proof. unfold controllers.SetResourceReference. now case_bool_decide. Qed.
End Finalizers.

(** ** controllers/routemonitor: the deletion cascade *)

Section DeletionCascade.
Import v1alpha1 routemonitor.
Context `{Externals}.
Variable r : RouteMonitorReconciler.

(** The full case analysis of [EnsureMonitorAndDependenciesAbsent]. *)
Lemma EnsureMonitorAndDependenciesAbsent_run (routeMonitor : RouteMonitor) (t : Trace) :
  let sref := ServiceMonitorRef (Status routeMonitor) in
  let pref := PrometheusRuleRef (Status routeMonitor) in
  let deleteSM := CallDeleteServiceMonitorDeployment sref false in
  let deleteProm := CallDeletePrometheusRuleDeployment pref in
  EnsureMonitorAndDependenciesAbsent r routeMonitor t =
    match controllers.onShouldDeleteBlackBoxExporterResources (BlackBoxExporter r) t with
    | (should, Some err) =>
        ((Requeue, Some err), t ++ [CallShouldDeleteBlackBoxExporterResources])
    | (should, None) =>
        let pre := exporterCalls should in
        match (if should
               then controllers.onEnsureBlackBoxExporterResourcesAbsent
                      (BlackBoxExporter r)
                      (t ++ [CallShouldDeleteBlackBoxExporterResources])
               else None) with
        | Some err => ((Requeue, Some err), t ++ pre)
        | None =>
            match controllers.onDeleteServiceMonitorDeployment (ServiceMonitor r)
                    (t ++ pre) sref false with
            | Some err => ((Requeue, Some err), t ++ pre ++ [deleteSM])
            | None =>
                match controllers.onDeletePrometheusRuleDeployment (Prom r)
                        (t ++ pre ++ [deleteSM]) pref with
                | Some err => ((Requeue, Some err), t ++ pre ++ [deleteSM; deleteProm])
                | None =>
                    if bool_decide
                         (FinalizerKey ∈ metav1.Finalizers (ObjectMeta routeMonitor))
                    then
                      (controllers.onUpdateMonitorResource (Common r)
                         (t ++ pre ++ [deleteSM; deleteProm])
                         (finalizersDeleted routeMonitor),
                       t ++ pre ++ [deleteSM; deleteProm;
                                    CallUpdateMonitorResource
                                      (finalizersDeleted routeMonitor)])
                    else ((Stop, None), t ++ pre ++ [deleteSM; deleteProm])
                end
            end
        end
    end.
Proof.
  intros sref pref deleteSM deleteProm.
  unfold EnsureMonitorAndDependenciesAbsent,
    controllers.ShouldDeleteBlackBoxExporterResources.
  unfold bind at 1. rewrite invoke_run.
  destruct (controllers.onShouldDeleteBlackBoxExporterResources (BlackBoxExporter r) t)
    as [should [err|]]; [reflexivity|].
  assert (Epre : forall (rest : Trace -> Signal * Trace),
    bind (if should
          then controllers.EnsureBlackBoxExporterResourcesAbsent (BlackBoxExporter r)
          else ret None)
      (fun err => match err with
                  | Some err => RequeueReconcileWith err
                  | None => fun t' => rest t'
                  end)
      (t ++ [CallShouldDeleteBlackBoxExporterResources])
    = match (if should
             then controllers.onEnsureBlackBoxExporterResourcesAbsent
                    (BlackBoxExporter r)
                    (t ++ [CallShouldDeleteBlackBoxExporterResources])
             else None) with
      | Some err => ((Requeue, Some err), t ++ exporterCalls should)
      | None => rest (t ++ exporterCalls should)
      end).
  { intros rest. unfold exporterCalls. destruct should.
    - unfold bind, controllers.EnsureBlackBoxExporterResourcesAbsent.
      rewrite invoke_run, trace_snoc2.
      now destruct (controllers.onEnsureBlackBoxExporterResourcesAbsent _ _).
    - reflexivity. }
  etransitivity; [apply Epre|]. cbv zeta.
  destruct (if should then _ else None); [reflexivity|].
  unfold bind at 1. unfold controllers.DeleteServiceMonitorDeployment.
  rewrite invoke_run. fold sref deleteSM.
  destruct (controllers.onDeleteServiceMonitorDeployment _ _ _ _);
    [now rewrite <- app_assoc|].
  unfold bind at 1. unfold controllers.DeletePrometheusRuleDeployment.
  rewrite invoke_run. fold pref deleteProm.
  rewrite <- !app_assoc. simpl.
  destruct (controllers.onDeletePrometheusRuleDeployment _ _ _); [reflexivity|].
  unfold finalizersDeleted.
  pose proof (DeleteFinalizer_deleted routeMonitor FinalizerKey) as D.
  destruct (controllers.DeleteFinalizer routeMonitor FinalizerKey) as [deleted rm1].
  simpl in D. rewrite <- D. destruct deleted; [|reflexivity].
  simpl. destruct (controllers.DeleteFinalizer rm1 PrevFinalizerKey) as [d2 rm2].
  simpl. unfold controllers.UpdateMonitorResource. rewrite invoke_run.
  rewrite <- !app_assoc. now destruct should.
Qed.

(** Decides a membership in an explicit list of calls, one element at a
    time. *)
Ltac decide_call H :=
  repeat (apply elem_of_cons in H as [H|H]; [try discriminate|]);
  try (apply elem_of_nil in H; contradiction).

(** C2.  If a step of the deletion cascade fails (the accounting call
    ShouldDeleteBlackBoxExporterResources, the teardown of the shared
    exporter, the ServiceMonitor delete or the PrometheusRule delete answers
    an error), [EnsureMonitorAndDependenciesAbsent] returns Requeue with that
    error and stops at the failed call: no [UpdateMonitorResource] is issued,
    so the parent's finalizers stay as they are.  A write of the parent is
    issued only when the accounting, the teardown where it ran, and both
    deletes answered nil. *)
Theorem EnsureMonitorAndDependenciesAbsent_failure_requeues
    (routeMonitor : RouteMonitor) (t : Trace) (err : error) :
  let sref := ServiceMonitorRef (Status routeMonitor) in
  let pref := PrometheusRuleRef (Status routeMonitor) in
  let deleteSM := CallDeleteServiceMonitorDeployment sref false in
  let deleteProm := CallDeletePrometheusRuleDeployment pref in
  let m := EnsureMonitorAndDependenciesAbsent r routeMonitor in
  let accounting :=
    controllers.onShouldDeleteBlackBoxExporterResources (BlackBoxExporter r) t in
  let teardown :=
    controllers.onEnsureBlackBoxExporterResourcesAbsent (BlackBoxExporter r)
      (t ++ [CallShouldDeleteBlackBoxExporterResources]) in
  (snd accounting = Some err ->
     resultOf m t = (Requeue, Some err) /\
     callsOf m t = [CallShouldDeleteBlackBoxExporterResources])
  /\
  (accounting = (true, None) -> teardown = Some err ->
     resultOf m t = (Requeue, Some err) /\
     callsOf m t = [CallShouldDeleteBlackBoxExporterResources;
                    CallEnsureBlackBoxExporterResourcesAbsent])
  /\
  (forall should,
     accounting = (should, None) -> (should = true -> teardown = None) ->
     controllers.onDeleteServiceMonitorDeployment (ServiceMonitor r)
       (t ++ exporterCalls should) sref false = Some err ->
     resultOf m t = (Requeue, Some err) /\
     callsOf m t = exporterCalls should ++ [deleteSM])
  /\
  (forall should,
     accounting = (should, None) -> (should = true -> teardown = None) ->
     controllers.onDeleteServiceMonitorDeployment (ServiceMonitor r)
       (t ++ exporterCalls should) sref false = None ->
     controllers.onDeletePrometheusRuleDeployment (Prom r)
       (t ++ exporterCalls should ++ [deleteSM]) pref = Some err ->
     resultOf m t = (Requeue, Some err) /\
     callsOf m t = exporterCalls should ++ [deleteSM; deleteProm])
  /\
  (forall cr, CallUpdateMonitorResource cr ∈ callsOf m t ->
     exists should,
       accounting = (should, None) /\ (should = true -> teardown = None) /\
       controllers.onDeleteServiceMonitorDeployment (ServiceMonitor r)
         (t ++ exporterCalls should) sref false = None /\
       controllers.onDeletePrometheusRuleDeployment (Prom r)
         (t ++ exporterCalls should ++ [deleteSM]) pref = None).
Proof.
  intros sref pref deleteSM deleteProm m accounting teardown.
  pose proof (EnsureMonitorAndDependenciesAbsent_run routeMonitor t) as R.
  cbv zeta in R. fold sref pref deleteSM deleteProm m accounting teardown in R.
  split; [|split; [|split; [|split]]].
  - intros E. destruct accounting as [should [e|]]; simpl in E; [|discriminate].
    injection E as ->.
    split; [eapply resultOf_eq | eapply callsOf_app]; exact R.
  - intros Ea Et. rewrite Ea, Et in R.
    split; [eapply resultOf_eq | eapply callsOf_app]; exact R.
  - intros should Ea Et Esm. rewrite Ea in R.
    assert (Et' : (if should then teardown else None) = None)
      by (destruct should; [now apply Et | reflexivity]).
    rewrite Et', Esm in R.
    split; [eapply resultOf_eq | eapply callsOf_app]; exact R.
  - intros should Ea Et Esm Epr. rewrite Ea in R.
    assert (Et' : (if should then teardown else None) = None)
      by (destruct should; [now apply Et | reflexivity]).
    rewrite Et', Esm, Epr in R.
    split; [eapply resultOf_eq | eapply callsOf_app]; exact R.
  - intros cr Hin.
    destruct accounting as [should [e|]].
    { rewrite (callsOf_app m t _ _ R) in Hin. decide_call Hin. }
    exists should. split; [reflexivity|].
    destruct (if should then teardown else None) as [e|] eqn:Et.
    { rewrite (callsOf_app m t _ _ R) in Hin.
      destruct should; simpl in Hin; decide_call Hin. }
    split; [intros ->; exact Et|].
    destruct (controllers.onDeleteServiceMonitorDeployment _ _ _ _) as [e|].
    { rewrite (callsOf_app m t _ _ R) in Hin.
      destruct should; simpl in Hin; decide_call Hin. }
    split; [reflexivity|].
    destruct (controllers.onDeletePrometheusRuleDeployment _ _ _) as [e|].
    { rewrite (callsOf_app m t _ _ R) in Hin.
      destruct should; simpl in Hin; decide_call Hin. }
    reflexivity.
Qed.

(** C1, as the code has it.  Whenever [EnsureMonitorAndDependenciesAbsent]
    removes the finalizer, that is, issues [UpdateMonitorResource], the two
    calls before it are the ServiceMonitor delete for Status.ServiceMonitorRef
    and the PrometheusRule delete for Status.PrometheusRuleRef, and both
    answered nil; the object written has lost the finalizer key, and its
    status, the two refs included, is the one the cascade was entered with:
    the cascade does not clear the refs. *)
Theorem EnsureMonitorAndDependenciesAbsent_removal_follows_deletes
    (routeMonitor : RouteMonitor) (t : Trace) (cr : RouteMonitor) :
  let sref := ServiceMonitorRef (Status routeMonitor) in
  let pref := PrometheusRuleRef (Status routeMonitor) in
  let deleteSM := CallDeleteServiceMonitorDeployment sref false in
  let deleteProm := CallDeletePrometheusRuleDeployment pref in
  let m := EnsureMonitorAndDependenciesAbsent r routeMonitor in
  CallUpdateMonitorResource cr ∈ callsOf m t ->
  exists pre,
    callsOf m t = pre ++ [deleteSM; deleteProm; CallUpdateMonitorResource cr] /\
    controllers.onDeleteServiceMonitorDeployment (ServiceMonitor r)
      (t ++ pre) sref false = None /\
    controllers.onDeletePrometheusRuleDeployment (Prom r)
      (t ++ pre ++ [deleteSM]) pref = None /\
    FinalizerKey ∈ metav1.Finalizers (ObjectMeta routeMonitor) /\
    (FinalizerKey ∉ metav1.Finalizers (ObjectMeta cr)) /\
    Status cr = Status routeMonitor /\
    ServiceMonitorRef (Status cr) = sref /\
    PrometheusRuleRef (Status cr) = pref.
Proof.
  intros sref pref deleteSM deleteProm m Hin.
  pose proof (EnsureMonitorAndDependenciesAbsent_run routeMonitor t) as R.
  cbv zeta in R. fold sref pref deleteSM deleteProm m in R.
  destruct (controllers.onShouldDeleteBlackBoxExporterResources _ _)
    as [should [e|]].
  { rewrite (callsOf_app m t _ _ R) in Hin. decide_call Hin. }
  destruct (if should then _ else None) as [e|].
  { rewrite (callsOf_app m t _ _ R) in Hin.
    destruct should; simpl in Hin; decide_call Hin. }
  destruct (controllers.onDeleteServiceMonitorDeployment _ _ _ _) as [e|] eqn:Esm.
  { rewrite (callsOf_app m t _ _ R) in Hin.
    destruct should; simpl in Hin; decide_call Hin. }
  destruct (controllers.onDeletePrometheusRuleDeployment _ _ _) as [e|] eqn:Epr.
  { rewrite (callsOf_app m t _ _ R) in Hin.
    destruct should; simpl in Hin; decide_call Hin. }
  case_bool_decide as Hfin.
  2:{ rewrite (callsOf_app m t _ _ R) in Hin.
      destruct should; simpl in Hin; decide_call Hin. }
  pose proof (callsOf_app m t _ _ R) as C.
  assert (Ecr : cr = finalizersDeleted routeMonitor).
  { rewrite C in Hin. destruct should; simpl in Hin; decide_call Hin;
      now inversion Hin. }
  exists (exporterCalls should). subst cr.
  assert (St : Status (finalizersDeleted routeMonitor) = Status routeMonitor)
    by (unfold finalizersDeleted; now rewrite !DeleteFinalizer_Status).
  repeat split; try assumption.
  - unfold finalizersDeleted. rewrite DeleteFinalizer_Finalizers.
    intros Hf. apply list_elem_of_filter in Hf as [_ Hf].
    now apply DeleteFinalizer_absent_after in Hf.
  - now rewrite St.
  - now rewrite St.
Qed.
End DeletionCascade.

Lemma EnsureMonitorAndDependenciesAbsent_failure_requeues_witness :
  let run r := @routemonitor.EnsureMonitorAndDependenciesAbsent testdata.externals r
                 testdata.monitor in
  let failed := (Requeue, Some testdata.CustomError) in
  let deleteSM := CallDeleteServiceMonitorDeployment testdata.testRef false in
  let deleteProm := CallDeletePrometheusRuleDeployment testdata.testRef in
  let accountingFails :=
    testdata.reconciler (false, Some testdata.CustomError) None None None
      ("", None) (Stop, None) in
  let teardownFails :=
    testdata.reconciler (true, None) (Some testdata.CustomError) None None
      ("", None) (Stop, None) in
  let scrapeDeleteFails :=
    testdata.reconciler (true, None) None (Some testdata.CustomError) None
      ("", None) (Stop, None) in
  let alertDeleteFails :=
    testdata.reconciler (false, None) None None (Some testdata.CustomError)
      ("", None) (Stop, None) in
  (resultOf (run accountingFails) [] = failed /\
   callsOf (run accountingFails) [] = [CallShouldDeleteBlackBoxExporterResources])
  /\
  (resultOf (run teardownFails) [] = failed /\
   callsOf (run teardownFails) [] =
     [CallShouldDeleteBlackBoxExporterResources;
      CallEnsureBlackBoxExporterResourcesAbsent])
  /\
  (resultOf (run scrapeDeleteFails) [] = failed /\
   callsOf (run scrapeDeleteFails) [] =
     [CallShouldDeleteBlackBoxExporterResources;
      CallEnsureBlackBoxExporterResourcesAbsent; deleteSM])
  /\
  (resultOf (run alertDeleteFails) [] = failed /\
   callsOf (run alertDeleteFails) [] =
     [CallShouldDeleteBlackBoxExporterResources; deleteSM; deleteProm])
  /\
  (CallUpdateMonitorResource testdata.released
     ∈ callsOf (run (testdata.healthy "")) [] /\
   controllers.onDeleteServiceMonitorDeployment
     (routemonitor.ServiceMonitor (testdata.healthy ""))
     [CallShouldDeleteBlackBoxExporterResources] testdata.testRef false = None).
Proof.
  intros run failed deleteSM deleteProm accountingFails teardownFails
    scrapeDeleteFails alertDeleteFails.
  split; [|split; [|split; [|split]]].
  - destruct (@EnsureMonitorAndDependenciesAbsent_failure_requeues testdata.externals
                accountingFails testdata.monitor [] testdata.CustomError)
      as (H & _).
    exact (H eq_refl).
  - destruct (@EnsureMonitorAndDependenciesAbsent_failure_requeues testdata.externals
                teardownFails testdata.monitor [] testdata.CustomError)
      as (_ & H & _).
    exact (H eq_refl eq_refl).
  - destruct (@EnsureMonitorAndDependenciesAbsent_failure_requeues testdata.externals
                scrapeDeleteFails testdata.monitor [] testdata.CustomError)
      as (_ & _ & H & _).
    exact (H true eq_refl (fun _ => eq_refl) eq_refl).
  - destruct (@EnsureMonitorAndDependenciesAbsent_failure_requeues testdata.externals
                alertDeleteFails testdata.monitor [] testdata.CustomError)
      as (_ & _ & _ & H & _).
    exact (H false eq_refl (fun _ => eq_refl) eq_refl eq_refl).
  - assert (I : CallUpdateMonitorResource testdata.released
                  ∈ callsOf (run (testdata.healthy "")) [])
      by (vm_compute; do 3 apply list_elem_of_further; apply list_elem_of_here).
    split; [exact I|].
    destruct (@EnsureMonitorAndDependenciesAbsent_failure_requeues testdata.externals
                (testdata.healthy "") testdata.monitor [] testdata.CustomError)
      as (_ & _ & _ & _ & H).
    destruct (H _ I) as (should & Ea & _ & Esm & _).
    injection Ea as <-. exact Esm.
Defined.

Lemma EnsureMonitorAndDependenciesAbsent_removal_follows_deletes_witness :
  let m := @routemonitor.EnsureMonitorAndDependenciesAbsent testdata.externals
             (testdata.healthy "") testdata.monitor in
  CallUpdateMonitorResource testdata.released ∈ callsOf m [] /\
  exists pre,
    callsOf m [] =
      pre ++ [CallDeleteServiceMonitorDeployment testdata.testRef false;
              CallDeletePrometheusRuleDeployment testdata.testRef;
              CallUpdateMonitorResource testdata.released] /\
    v1alpha1.Status testdata.released = v1alpha1.Status testdata.monitor.
Proof.
  intros m.
  assert (I : CallUpdateMonitorResource testdata.released ∈ callsOf m [])
    by (vm_compute; do 3 apply list_elem_of_further; apply list_elem_of_here).
  split; [exact I|].
  destruct (@EnsureMonitorAndDependenciesAbsent_removal_follows_deletes
              testdata.externals (testdata.healthy "") testdata.monitor []
              testdata.released I)
    as (pre & C & _ & _ & _ & _ & St & _).
  exists pre. split; [exact C | exact St].
Defined.

(** C1, as stated, fails.  Every call of the cascade succeeds for a monitor
    whose two refs are set: the finalizer is removed (the object written back
    has no finalizer left) while ServiceMonitorRef and PrometheusRuleRef in
    the status, of the object written as of the one passed in, are still
    test/test and not the absent sentinel. *)
Lemma EnsureMonitorAndDependenciesAbsent_removes_finalizer_with_refs_set :
  let m := @routemonitor.EnsureMonitorAndDependenciesAbsent testdata.externals
             (testdata.healthy "") testdata.monitor in
  m [] =
    ((Stop, None),
     [CallShouldDeleteBlackBoxExporterResources;
      CallDeleteServiceMonitorDeployment testdata.testRef false;
      CallDeletePrometheusRuleDeployment testdata.testRef;
      CallUpdateMonitorResource testdata.released]) /\
  metav1.Finalizers (v1alpha1.ObjectMeta testdata.monitor)
    = [@FinalizerKey testdata.externals] /\
  metav1.Finalizers (v1alpha1.ObjectMeta testdata.released) = [] /\
  v1alpha1.ServiceMonitorRef (v1alpha1.Status testdata.released) = testdata.testRef /\
  v1alpha1.PrometheusRuleRef (v1alpha1.Status testdata.released) = testdata.testRef /\
  v1alpha1.ServiceMonitorRef (v1alpha1.Status testdata.monitor) = testdata.testRef /\
  v1alpha1.PrometheusRuleRef (v1alpha1.Status testdata.monitor) = testdata.testRef /\
  testdata.testRef <> types.empty.
Proof.
  intros m. repeat split; try reflexivity. discriminate.
Qed.

(** ** controllers/routemonitor: fetching the parent *)

Section FetchParent.
Import v1alpha1 routemonitor.
Variable r : RouteMonitorReconciler.

(** C9.  [GetRouteMonitor] returns Stop with a nil error, and the zero
    RouteMonitor, when the store reports not-found, and also when the fetch
    succeeds with an object deeply equal to the zero-value RouteMonitor.  Any
    other fetched object is returned with Continue, any other error with
    Requeue and the error. *)
Theorem GetRouteMonitor_stops_on_empty (req : ctrl.Request) (t : Trace) :
  let fetch := ClientGet KRouteMonitor (ctrl.NamespacedName req) in
  let answer := client.onGet (Client r) KRouteMonitor t (ctrl.NamespacedName req) in
  let m := GetRouteMonitor r req in
  (forall err, answer = inl err -> IsNotFound err = true ->
     resultOf m t = (v1alpha1.zero, Stop, None) /\ callsOf m t = [fetch])
  /\
  (answer = inr v1alpha1.zero ->
     resultOf m t = (v1alpha1.zero, Stop, None) /\ callsOf m t = [fetch])
  /\
  (forall routeMonitor, answer = inr routeMonitor -> routeMonitor <> v1alpha1.zero ->
     resultOf m t = (routeMonitor, Continue, None) /\ callsOf m t = [fetch])
  /\
  (forall err, answer = inl err -> IsNotFound err = false ->
     resultOf m t = (v1alpha1.zero, Requeue, Some err) /\ callsOf m t = [fetch]).
Proof.
  intros fetch answer m.
  assert (R : m t =
    match answer with
    | inl err =>
        if IsNotFound err then ((v1alpha1.zero, Stop, None), t ++ [fetch])
        else ((v1alpha1.zero, Requeue, Some err), t ++ [fetch])
    | inr routeMonitor =>
        if bool_decide (routeMonitor = v1alpha1.zero)
        then ((v1alpha1.zero, Stop, None), t ++ [fetch])
        else ((routeMonitor, Continue, None), t ++ [fetch])
    end).
  { subst m. unfold GetRouteMonitor, client.Get. unfold bind at 1.
    rewrite invoke_run. fold answer fetch.
    destruct answer as [err|routeMonitor].
    - now destruct (IsNotFound err).
    - now case_bool_decide. }
  split; [|split; [|split]].
  - intros err Ea NF. rewrite Ea, NF in R.
    split; [eapply resultOf_eq | eapply callsOf_app]; exact R.
  - intros Ea. rewrite Ea in R. rewrite bool_decide_eq_true_2 in R by reflexivity.
    split; [eapply resultOf_eq | eapply callsOf_app]; exact R.
  - intros routeMonitor Ea Hne. rewrite Ea in R.
    rewrite bool_decide_eq_false_2 in R by exact Hne.
    split; [eapply resultOf_eq | eapply callsOf_app]; exact R.
  - intros err Ea NF. rewrite Ea, NF in R.
    split; [eapply resultOf_eq | eapply callsOf_app]; exact R.
Qed.
End FetchParent.

Lemma GetRouteMonitor_stops_on_empty_witness :
  let req := {| ctrl.NamespacedName := testdata.testRef |} in
  let fetch := ClientGet KRouteMonitor testdata.testRef in
  let run get := routemonitor.GetRouteMonitor
                   (testdata.withClient (testdata.scriptedClient get None None None))
                   req in
  (resultOf (run (testdata.getFails testdata.NotFoundErr)) []
     = (v1alpha1.zero, Stop, None) /\
   callsOf (run (testdata.getFails testdata.NotFoundErr)) [] = [fetch])
  /\
  (resultOf (run (testdata.getsRouteMonitor v1alpha1.zero)) []
     = (v1alpha1.zero, Stop, None) /\
   callsOf (run (testdata.getsRouteMonitor v1alpha1.zero)) [] = [fetch])
  /\
  (testdata.monitor <> v1alpha1.zero /\
   resultOf (run (testdata.getsRouteMonitor testdata.monitor)) []
     = (testdata.monitor, Continue, None) /\
   callsOf (run (testdata.getsRouteMonitor testdata.monitor)) [] = [fetch])
  /\
  (testdata.zeroButUnmodelled <> v1alpha1.zero /\
   resultOf (run (testdata.getsRouteMonitor testdata.zeroButUnmodelled)) []
     = (testdata.zeroButUnmodelled, Continue, None) /\
   callsOf (run (testdata.getsRouteMonitor testdata.zeroButUnmodelled)) [] = [fetch])
  /\
  (resultOf (run (testdata.getFails testdata.CustomError)) []
     = (v1alpha1.zero, Requeue, Some testdata.CustomError) /\
   callsOf (run (testdata.getFails testdata.CustomError)) [] = [fetch]).
Proof.
  intros req fetch run.
  split; [|split; [|split; [|split]]].
  - destruct (GetRouteMonitor_stops_on_empty
                (testdata.withClient
                   (testdata.scriptedClient (testdata.getFails testdata.NotFoundErr)
                      None None None)) req []) as (H & _).
    exact (H testdata.NotFoundErr eq_refl eq_refl).
  - destruct (GetRouteMonitor_stops_on_empty
                (testdata.withClient
                   (testdata.scriptedClient (testdata.getsRouteMonitor v1alpha1.zero)
                      None None None)) req []) as (_ & H & _).
    exact (H eq_refl).
  - assert (Hne : testdata.monitor <> v1alpha1.zero) by discriminate.
    split; [exact Hne|].
    destruct (GetRouteMonitor_stops_on_empty
                (testdata.withClient
                   (testdata.scriptedClient (testdata.getsRouteMonitor testdata.monitor)
                      None None None)) req []) as (_ & _ & H & _).
    exact (H testdata.monitor eq_refl Hne).
  - assert (Hne : testdata.zeroButUnmodelled <> v1alpha1.zero) by discriminate.
    split; [exact Hne|].
    destruct (GetRouteMonitor_stops_on_empty
                (testdata.withClient
                   (testdata.scriptedClient
                      (testdata.getsRouteMonitor testdata.zeroButUnmodelled)
                      None None None)) req []) as (_ & _ & H & _).
    exact (H testdata.zeroButUnmodelled eq_refl Hne).
  - destruct (GetRouteMonitor_stops_on_empty
                (testdata.withClient
                   (testdata.scriptedClient (testdata.getFails testdata.CustomError)
                      None None None)) req []) as (_ & _ & _ & H).
    exact (H testdata.CustomError eq_refl eq_refl).
Defined.

(** ** controllers/routemonitor: the route URL *)

Section RouteURL.
Import v1alpha1 routemonitor.
Context `{Externals}.
Variable r : RouteMonitorReconciler.

(** What [EnsureRouteURLExists] does once the first ingress has a host. *)
Lemma EnsureRouteURLExists_run (route : routev1.Route) (routeMonitor : RouteMonitor)
    (t : Trace) (ingress0 : routev1.RouteIngress) (rest : list routev1.RouteIngress) :
  routev1.Ingress (routev1.Status route) = ingress0 :: rest ->
  routev1.Host ingress0 <> "" ->
  let extractedRouteURL :=
    match routev1.TLS (routev1.Spec route) with
    | Some _ => "https://" +:+ routev1.Host ingress0
    | None => routev1.Host ingress0
    end in
  EnsureRouteURLExists r route routeMonitor t =
    if bool_decide (RouteURL (Status routeMonitor) = extractedRouteURL)
    then ((Continue, None), t)
    else (controllers.onUpdateMonitorResourceStatus (Common r) t
            (setRouteURL routeMonitor extractedRouteURL),
          t ++ [CallUpdateMonitorResourceStatus
                  (setRouteURL routeMonitor extractedRouteURL)]).
Proof.
  intros Ei Hh extractedRouteURL. unfold EnsureRouteURLExists.
  rewrite Ei. rewrite bool_decide_eq_false_2 by exact Hh.
  fold extractedRouteURL. now case_bool_decide.
Qed.

(** C7.  In [EnsureRouteURLExists], with a host in the first ingress:
    whenever the URL extracted from the Route differs from the one recorded in
    the monitor's status, the extracted URL overwrites the status field and
    the status is persisted (one UpdateMonitorResourceStatus call with the new
    value, whose answer is returned); when the two are equal the step returns
    Continue and makes no call. *)
Theorem EnsureRouteURLExists_new_value_wins (route : routev1.Route)
    (routeMonitor : RouteMonitor) (t : Trace)
    (ingress0 : routev1.RouteIngress) (rest : list routev1.RouteIngress) :
  routev1.Ingress (routev1.Status route) = ingress0 :: rest ->
  routev1.Host ingress0 <> "" ->
  let extractedRouteURL :=
    match routev1.TLS (routev1.Spec route) with
    | Some _ => "https://" +:+ routev1.Host ingress0
    | None => routev1.Host ingress0
    end in
  let m := EnsureRouteURLExists r route routeMonitor in
  let written := setRouteURL routeMonitor extractedRouteURL in
  (RouteURL (Status routeMonitor) <> extractedRouteURL ->
     callsOf m t = [CallUpdateMonitorResourceStatus written] /\
     resultOf m t = controllers.onUpdateMonitorResourceStatus (Common r) t written /\
     RouteURL (Status written) = extractedRouteURL /\
     ServiceMonitorRef (Status written) = ServiceMonitorRef (Status routeMonitor) /\
     PrometheusRuleRef (Status written) = PrometheusRuleRef (Status routeMonitor) /\
     ErrorStatus (Status written) = ErrorStatus (Status routeMonitor))
  /\
  (RouteURL (Status routeMonitor) = extractedRouteURL ->
     callsOf m t = [] /\ resultOf m t = (Continue, None)).
Proof.
  intros Ei Hh extractedRouteURL m written.
  pose proof (EnsureRouteURLExists_run route routeMonitor t ingress0 rest Ei Hh) as R.
  cbv zeta in R. fold extractedRouteURL m written in R.
  split.
  - intros Hne. rewrite bool_decide_eq_false_2 in R by exact Hne.
    repeat split; try reflexivity;
      [eapply callsOf_app | eapply resultOf_eq]; exact R.
  - intros Heq. rewrite bool_decide_eq_true_2 in R by exact Heq.
    split; [eapply callsOf_nil | eapply resultOf_eq]; exact R.
Qed.

(** C10.  [EnsureRouteURLExists] reads the Route only through the host of its
    first ingress and through whether Spec.TLS is nil: two Routes with a
    non-empty ingress list that agree on both give the same result and the
    same calls, whatever their further ingress entries and other fields.  The
    URL it persists is "https://" followed by that host when Spec.TLS is
    non-nil, and the host as it is when Spec.TLS is nil. *)
Theorem EnsureRouteURLExists_first_ingress_and_tls_only
    (route1 route2 : routev1.Route) (routeMonitor : RouteMonitor) (t : Trace)
    (ingress1 ingress2 : routev1.RouteIngress)
    (rest1 rest2 : list routev1.RouteIngress) :
  routev1.Ingress (routev1.Status route1) = ingress1 :: rest1 ->
  routev1.Ingress (routev1.Status route2) = ingress2 :: rest2 ->
  routev1.Host ingress1 = routev1.Host ingress2 ->
  (routev1.TLS (routev1.Spec route1) = None <->
   routev1.TLS (routev1.Spec route2) = None) ->
  EnsureRouteURLExists r route1 routeMonitor t
    = EnsureRouteURLExists r route2 routeMonitor t
  /\
  (forall cr,
     CallUpdateMonitorResourceStatus cr
       ∈ callsOf (EnsureRouteURLExists r route1 routeMonitor) t ->
     (routev1.TLS (routev1.Spec route1) <> None ->
        RouteURL (Status cr) = "https://" +:+ routev1.Host ingress1) /\
     (routev1.TLS (routev1.Spec route1) = None ->
        RouteURL (Status cr) = routev1.Host ingress1)).
Proof.
  intros E1 E2 Eh Etls. split.
  - unfold EnsureRouteURLExists. rewrite E1, E2, Eh.
    destruct (routev1.TLS (routev1.Spec route1)) as [tls1|],
             (routev1.TLS (routev1.Spec route2)) as [tls2|];
      try reflexivity.
    + destruct Etls as [_ A]. now specialize (A eq_refl).
    + destruct Etls as [A _]. now specialize (A eq_refl).
  - intros cr Hin.
    destruct (decide (routev1.Host ingress1 = "")) as [E0|Hh].
    { exfalso. revert Hin. unfold callsOf, EnsureRouteURLExists.
      rewrite E1. rewrite bool_decide_eq_true_2 by exact E0.
      unfold RequeueReconcileWith, ret. simpl. rewrite drop_all.
      apply not_elem_of_nil. }
    pose proof (EnsureRouteURLExists_run route1 routeMonitor t ingress1 rest1 E1 Hh) as R.
    cbv zeta in R. case_bool_decide.
    { rewrite (callsOf_nil _ t _ R) in Hin. now apply elem_of_nil in Hin. }
    rewrite (callsOf_app _ t _ _ R) in Hin.
    apply list_elem_of_singleton in Hin. injection Hin as ->.
    destruct (routev1.TLS (routev1.Spec route1)); split; intros; simpl;
      congruence.
Qed.

(** When the host does not itself begin with "https://", the persisted URL
    begins with it exactly when Spec.TLS is non-nil. *)
Lemma extracted_url_prefix_iff_tls (host : string) (tls : option routev1.TLSConfig) :
  String.prefix "https://" host = false ->
  String.prefix "https://"
    (match tls with Some _ => "https://" +:+ host | None => host end) = true
  <-> tls <> None.
Proof.
  intros Hp. destruct tls; simpl.
  - split; [discriminate|]. intros _. now destruct host.
  - rewrite Hp. split; [discriminate | congruence].
Qed.
End RouteURL.

Lemma EnsureRouteURLExists_new_value_wins_witness :
  let run route := @routemonitor.EnsureRouteURLExists testdata.externals
                     (testdata.healthy "") route testdata.monitor in
  let moved := testdata.route ["a.example.com"; "b.example.com"] (Some testdata.edge) in
  let same := testdata.route ["console.example.com"] (Some testdata.edge) in
  let written := v1alpha1.setRouteURL testdata.monitor "https://a.example.com" in
  (v1alpha1.RouteURL (v1alpha1.Status testdata.monitor) <> "https://a.example.com" /\
   callsOf (run moved) [] = [CallUpdateMonitorResourceStatus written] /\
   resultOf (run moved) [] = (Stop, None) /\
   v1alpha1.RouteURL (v1alpha1.Status written) = "https://a.example.com")
  /\
  (v1alpha1.RouteURL (v1alpha1.Status testdata.monitor) = "https://console.example.com" /\
   callsOf (run same) [] = [] /\ resultOf (run same) [] = (Continue, None)).
Proof.
  intros run moved same written. split.
  - assert (Hne : v1alpha1.RouteURL (v1alpha1.Status testdata.monitor)
                    <> "https://a.example.com") by discriminate.
    split; [exact Hne|].
    assert (Hh : routev1.Host {| routev1.Host := "a.example.com";
                                 routev1.RouterName := "default" |} <> "")
      by discriminate.
    destruct (@EnsureRouteURLExists_new_value_wins testdata.externals
                (testdata.healthy "") moved testdata.monitor [] _ _ eq_refl Hh)
      as (H & _).
    destruct (H Hne) as (C & R & U & _).
    split; [exact C|]. split; [exact R | exact U].
  - split; [reflexivity|].
    assert (Hh : routev1.Host {| routev1.Host := "console.example.com";
                                 routev1.RouterName := "default" |} <> "")
      by discriminate.
    destruct (@EnsureRouteURLExists_new_value_wins testdata.externals
                (testdata.healthy "") same testdata.monitor [] _ _ eq_refl Hh)
      as (_ & H).
    exact (H eq_refl).
Defined.

Lemma EnsureRouteURLExists_first_ingress_and_tls_only_witness :
  let run route := @routemonitor.EnsureRouteURLExists testdata.externals
                     (testdata.healthy "") route testdata.monitor in
  let one := testdata.route ["a.example.com"] (Some testdata.edge) in
  let two := testdata.route ["a.example.com"; "b.example.com"]
               (Some {| routev1.Termination := "passthrough" |}) in
  let written := v1alpha1.setRouteURL testdata.monitor "https://a.example.com" in
  run one [] = run two [] /\
  CallUpdateMonitorResourceStatus written ∈ callsOf (run one) [] /\
  v1alpha1.RouteURL (v1alpha1.Status written) = "https://" +:+ "a.example.com".
Proof.
  intros run one two written.
  assert (Etls : routev1.TLS (routev1.Spec one) = None <->
                 routev1.TLS (routev1.Spec two) = None)
    by (split; discriminate).
  destruct (@EnsureRouteURLExists_first_ingress_and_tls_only testdata.externals
              (testdata.healthy "") one two testdata.monitor [] _ _ _ _
              eq_refl eq_refl eq_refl Etls) as (Same & Url).
  split; [exact Same|].
  assert (I : CallUpdateMonitorResourceStatus written ∈ callsOf (run one) [])
    by (vm_compute; apply list_elem_of_here).
  split; [exact I|].
  destruct (Url written I) as (U & _). apply U. discriminate.
Defined.

(** ** controllers/routemonitor: the alert rule and the scrape resource *)

Section AlertRule.
Import v1alpha1 routemonitor.
Context `{Externals}.
Variable r : RouteMonitorReconciler.

(** ensureAbsent on the alert resource followed by clearing the ref: the tail
    shared by the skip branch and the empty-SLO branch of
    [EnsurePrometheusRuleExists]; [unchanged] is what the branch returns when
    the ref was absent already. *)
Lemma delete_and_clear_run (routeMonitor : RouteMonitor) (unchanged : M Signal)
    (idle : Signal) (t : Trace) :
  let pref := PrometheusRuleRef (Status routeMonitor) in
  let delete := CallDeletePrometheusRuleDeployment pref in
  let cleared := setPrometheusRuleRef routeMonitor types.empty in
  (forall t', unchanged t' = (idle, t')) ->
  bind (controllers.DeletePrometheusRuleDeployment (Prom r) pref)
    (fun err =>
       match err with
       | Some err => RequeueReconcileWith err
       | None =>
           let '((updated, _), ref) :=
             controllers.SetResourceReference pref types.empty in
           let routeMonitor := setPrometheusRuleRef routeMonitor ref in
           if updated
           then controllers.UpdateMonitorResourceStatus (Common r) routeMonitor
           else unchanged
       end) t
  = match controllers.onDeletePrometheusRuleDeployment (Prom r) t pref with
    | Some err => ((Requeue, Some err), t ++ [delete])
    | None =>
        if bool_decide (pref = types.empty)
        then (idle, t ++ [delete])
        else (controllers.onUpdateMonitorResourceStatus (Common r)
                (t ++ [delete]) cleared,
              t ++ [delete; CallUpdateMonitorResourceStatus cleared])
    end.
Proof.
  intros pref delete cleared Hidle.
  unfold bind, controllers.DeletePrometheusRuleDeployment. rewrite invoke_run.
  fold delete.
  destruct (controllers.onDeletePrometheusRuleDeployment (Prom r) t pref);
    [reflexivity|].
  unfold controllers.SetResourceReference. case_bool_decide; simpl.
  - apply Hidle.
  - unfold controllers.UpdateMonitorResourceStatus. rewrite invoke_run.
    now rewrite trace_snoc2.
Qed.

(** C5, as the code has it.  In [EnsurePrometheusRuleExists] the skip branch
    and the empty-SLO branch both call the delete of the PrometheusRule named
    by the ref and, once it has answered nil, clear the ref, persisting the
    status only if that changed the ref; they differ in the signal returned
    when nothing changed, Continue for the one and Stop for the other.  With
    Spec.SkipPrometheusRule set: a failing delete gives Requeue with its error
    and nothing further; else Continue and no status write when the ref was
    absent already, else one status write with the ref cleared, whose answer
    is returned.  With the flag unset and the SLO parsing to the empty
    expression: when SetErrorStatus reports a change the step is the one
    status write of the new error status, whose answer is returned, with no
    delete and the ref as it was; when it reports none, a failing delete gives
    Requeue with its error, else Stop and no status write when the ref was
    absent already, else one status write with the ref cleared, whose answer,
    Stop or not, is returned. *)
Theorem EnsurePrometheusRuleExists_skip_and_empty_slo
    (routeMonitor : RouteMonitor) (t : Trace) :
  let pref := PrometheusRuleRef (Status routeMonitor) in
  let delete := CallDeletePrometheusRuleDeployment pref in
  let deleted := controllers.onDeletePrometheusRuleDeployment (Prom r) t pref in
  let m := EnsurePrometheusRuleExists r routeMonitor in
  (SkipPrometheusRule (Spec routeMonitor) = true ->
   let cleared := setPrometheusRuleRef routeMonitor types.empty in
   PrometheusRuleRef (Status cleared) = types.empty /\
   (forall e, deleted = Some e ->
      callsOf m t = [delete] /\ resultOf m t = (Requeue, Some e)) /\
   (deleted = None -> pref = types.empty ->
      callsOf m t = [delete] /\ resultOf m t = (Continue, None)) /\
   (deleted = None -> pref <> types.empty ->
      callsOf m t = [delete; CallUpdateMonitorResourceStatus cleared] /\
      resultOf m t =
        controllers.onUpdateMonitorResourceStatus (Common r) (t ++ [delete]) cleared))
  /\
  (SkipPrometheusRule (Spec routeMonitor) = false ->
   forall err changed text,
   controllers.ParseMonitorSLOSpecs (Common r) (RouteURL (Status routeMonitor))
     (Slo (Spec routeMonitor)) = ("", err) ->
   controllers.SetErrorStatus (Common r) (ErrorStatus (Status routeMonitor)) err
     = (changed, text) ->
   let noted := setErrorStatus routeMonitor text in
   let cleared := setPrometheusRuleRef noted types.empty in
   PrometheusRuleRef (Status noted) = pref /\
   PrometheusRuleRef (Status cleared) = types.empty /\
   (changed = true ->
      callsOf m t = [CallUpdateMonitorResourceStatus noted] /\
      resultOf m t = controllers.onUpdateMonitorResourceStatus (Common r) t noted) /\
   (changed = false -> forall e, deleted = Some e ->
      callsOf m t = [delete] /\ resultOf m t = (Requeue, Some e)) /\
   (changed = false -> deleted = None -> pref = types.empty ->
      callsOf m t = [delete] /\ resultOf m t = (Stop, None)) /\
   (changed = false -> deleted = None -> pref <> types.empty ->
      callsOf m t = [delete; CallUpdateMonitorResourceStatus cleared] /\
      resultOf m t =
        controllers.onUpdateMonitorResourceStatus (Common r) (t ++ [delete]) cleared)).
Proof.
  intros pref delete deleted m. split.
  - intros Eskip cleared.
    assert (R : m t =
      match deleted with
      | Some e => ((Requeue, Some e), t ++ [delete])
      | None =>
          if bool_decide (pref = types.empty)
          then ((Continue, None), t ++ [delete])
          else (controllers.onUpdateMonitorResourceStatus (Common r)
                  (t ++ [delete]) cleared,
                t ++ [delete; CallUpdateMonitorResourceStatus cleared])
      end).
    { subst m. unfold EnsurePrometheusRuleExists. rewrite Eskip.
      now rewrite (delete_and_clear_run routeMonitor ContinueReconcile (Continue, None))
        by reflexivity. }
    split; [reflexivity|]. split; [|split].
    + intros e Edel. rewrite Edel in R.
      split; [eapply callsOf_app | eapply resultOf_eq]; exact R.
    + intros Edel E. rewrite Edel, bool_decide_eq_true_2 in R by exact E.
      split; [eapply callsOf_app | eapply resultOf_eq]; exact R.
    + intros Edel E. rewrite Edel, bool_decide_eq_false_2 in R by exact E.
      split; [eapply callsOf_app | eapply resultOf_eq]; exact R.
  - intros Eskip err changed text Eparse Estatus noted cleared.
    assert (R : m t =
      if changed
      then (controllers.onUpdateMonitorResourceStatus (Common r) t noted,
            t ++ [CallUpdateMonitorResourceStatus noted])
      else
        match deleted with
        | Some e => ((Requeue, Some e), t ++ [delete])
        | None =>
            if bool_decide (pref = types.empty)
            then ((Stop, None), t ++ [delete])
            else (controllers.onUpdateMonitorResourceStatus (Common r)
                    (t ++ [delete]) cleared,
                  t ++ [delete; CallUpdateMonitorResourceStatus cleared])
        end).
    { subst m. unfold EnsurePrometheusRuleExists.
      rewrite Eskip, Eparse, Estatus.
      destruct changed.
      - unfold controllers.UpdateMonitorResourceStatus. now rewrite invoke_run.
      - rewrite bool_decide_eq_true_2 by reflexivity.
        now rewrite (delete_and_clear_run (setErrorStatus routeMonitor text)
                       StopReconcile (Stop, None)) by reflexivity. }
    split; [reflexivity|]. split; [reflexivity|]. split; [|split; [|split]].
    + intros ->.
      split; [eapply callsOf_app | eapply resultOf_eq]; exact R.
    + intros -> e Edel. rewrite Edel in R.
      split; [eapply callsOf_app | eapply resultOf_eq]; exact R.
    + intros -> Edel E. rewrite Edel, bool_decide_eq_true_2 in R by exact E.
      split; [eapply callsOf_app | eapply resultOf_eq]; exact R.
    + intros -> Edel E. rewrite Edel, bool_decide_eq_false_2 in R by exact E.
      split; [eapply callsOf_app | eapply resultOf_eq]; exact R.
Qed.

(** C6, as the code has it.  For a monitor whose target URL is not yet
    resolved (empty RouteURL in status) the Requeue with the no-host error
    comes from the scrape-resource step: [EnsureServiceMonitorExists] returns
    it before any call, whatever the skip flag.  [EnsurePrometheusRuleExists]
    has no such guard: with the skip flag unset it hands the empty URL to
    ParseMonitorSLOSpecs and goes on by the outcome, to a status write when
    the error status changed, else to ensureAbsent on the alert resource when
    the expression is empty, else to ensureExists. *)
Theorem unresolved_url_guard_is_in_EnsureServiceMonitorExists
    (routeMonitor : RouteMonitor) (t : Trace) :
  RouteURL (Status routeMonitor) = "" ->
  (resultOf (EnsureServiceMonitorExists r routeMonitor) t = (Requeue, Some NoHost) /\
   callsOf (EnsureServiceMonitorExists r routeMonitor) t = [])
  /\
  (SkipPrometheusRule (Spec routeMonitor) = false ->
   forall parsedSlo err changed text,
   controllers.ParseMonitorSLOSpecs (Common r) "" (Slo (Spec routeMonitor))
     = (parsedSlo, err) ->
   controllers.SetErrorStatus (Common r) (ErrorStatus (Status routeMonitor)) err
     = (changed, text) ->
   let m := EnsurePrometheusRuleExists r routeMonitor in
   let noted := setErrorStatus routeMonitor text in
   let namespacedName :=
     {| types.Namespace := metav1.Namespace (ObjectMeta routeMonitor);
        types.Name := metav1.Name (ObjectMeta routeMonitor) |} in
   (changed = true ->
      callsOf m t = [CallUpdateMonitorResourceStatus noted] /\
      resultOf m t = controllers.onUpdateMonitorResourceStatus (Common r) t noted) /\
   (changed = false -> parsedSlo = "" ->
      head (callsOf m t)
      = Some (CallDeletePrometheusRuleDeployment
                (PrometheusRuleRef (Status routeMonitor)))) /\
   (changed = false -> parsedSlo <> "" ->
      head (callsOf m t)
      = Some (CallUpdatePrometheusRuleDeployment
                (TemplateForPrometheusRuleResource "" parsedSlo namespacedName)))).
Proof.
  intros Eurl. split.
  - assert (R : EnsureServiceMonitorExists r routeMonitor t
                = ((Requeue, Some NoHost), t)).
    { unfold EnsureServiceMonitorExists.
      now rewrite bool_decide_eq_true_2 by exact Eurl. }
    split; [eapply resultOf_eq | eapply callsOf_nil]; exact R.
  - intros Eskip parsedSlo err changed text Eparse Estatus m noted namespacedName.
    split; [|split].
    + intros ->.
      assert (R : m t =
        (controllers.onUpdateMonitorResourceStatus (Common r) t noted,
         t ++ [CallUpdateMonitorResourceStatus noted])).
      { subst m. unfold EnsurePrometheusRuleExists.
        now rewrite Eskip, Eurl, Eparse, Estatus. }
      split; [eapply callsOf_app | eapply resultOf_eq]; exact R.
    + intros -> ->.
      assert (R : m t =
        match controllers.onDeletePrometheusRuleDeployment (Prom r) t
                (PrometheusRuleRef (Status routeMonitor)) with
        | Some e =>
            ((Requeue, Some e),
             t ++ [CallDeletePrometheusRuleDeployment
                     (PrometheusRuleRef (Status routeMonitor))])
        | None =>
            if bool_decide (PrometheusRuleRef (Status routeMonitor) = types.empty)
            then ((Stop, None),
                  t ++ [CallDeletePrometheusRuleDeployment
                          (PrometheusRuleRef (Status routeMonitor))])
            else (controllers.onUpdateMonitorResourceStatus (Common r)
                    (t ++ [CallDeletePrometheusRuleDeployment
                             (PrometheusRuleRef (Status routeMonitor))])
                    (setPrometheusRuleRef noted types.empty),
                  t ++ [CallDeletePrometheusRuleDeployment
                          (PrometheusRuleRef (Status routeMonitor));
                        CallUpdateMonitorResourceStatus
                          (setPrometheusRuleRef noted types.empty)])
        end).
      { subst m. unfold EnsurePrometheusRuleExists.
        rewrite Eskip, Eurl, Eparse, Estatus.
        rewrite bool_decide_eq_true_2 by reflexivity.
        now rewrite (delete_and_clear_run (setErrorStatus routeMonitor text)
                       StopReconcile (Stop, None)) by reflexivity. }
      destruct (controllers.onDeletePrometheusRuleDeployment _ _ _);
        [|case_bool_decide]; now rewrite (callsOf_app m t _ _ R).
    + intros -> Hne.
      subst m. unfold callsOf, EnsurePrometheusRuleExists.
      rewrite Eskip, Eurl, Eparse, Estatus.
      rewrite bool_decide_eq_false_2 by exact Hne.
      fold namespacedName.
      unfold bind, controllers.UpdatePrometheusRuleDeployment. rewrite invoke_run.
      destruct (controllers.onUpdatePrometheusRuleDeployment _ _ _).
      { simpl. rewrite Eurl. now rewrite drop_app_length. }
      unfold controllers.SetResourceReference. simpl. rewrite !Eurl.
      case_bool_decide; simpl.
      { now rewrite drop_app_length. }
      rewrite trace_snoc2. now rewrite drop_app_length.
Qed.
End AlertRule.

Lemma EnsurePrometheusRuleExists_skip_and_empty_slo_witness :
  let run r rm := @routemonitor.EnsurePrometheusRuleExists testdata.externals r rm in
  let skipped := testdata.withSkip testdata.monitor true in
  let bare rm := v1alpha1.setPrometheusRuleRef rm types.empty in
  let stale := v1alpha1.setErrorStatus testdata.monitor "old error" in
  let deleteFails :=
    testdata.reconciler (false, None) None None (Some testdata.CustomError)
      ("", None) (Stop, None) in
  let delete ref := CallDeletePrometheusRuleDeployment ref in
  (callsOf (run (testdata.healthy "99.5") (bare skipped)) [] = [delete types.empty] /\
   resultOf (run (testdata.healthy "99.5") (bare skipped)) [] = (Continue, None))
  /\
  (callsOf (run (testdata.healthy "99.5") skipped) [] =
     [delete testdata.testRef; CallUpdateMonitorResourceStatus (bare skipped)] /\
   resultOf (run (testdata.healthy "99.5") skipped) [] = (Stop, None))
  /\
  (callsOf (run deleteFails skipped) [] = [delete testdata.testRef] /\
   resultOf (run deleteFails skipped) [] = (Requeue, Some testdata.CustomError))
  /\
  (callsOf (run (testdata.healthy "") (bare testdata.monitor)) []
     = [delete types.empty] /\
   resultOf (run (testdata.healthy "") (bare testdata.monitor)) [] = (Stop, None))
  /\
  (callsOf (run (testdata.healthy "") testdata.monitor) [] =
     [delete testdata.testRef; CallUpdateMonitorResourceStatus (bare testdata.monitor)] /\
   resultOf (run (testdata.healthy "") testdata.monitor) [] = (Stop, None))
  /\
  (callsOf (run deleteFails testdata.monitor) [] = [delete testdata.testRef] /\
   resultOf (run deleteFails testdata.monitor) [] = (Requeue, Some testdata.CustomError))
  /\
  (callsOf (run (testdata.healthy "") stale) [] =
     [CallUpdateMonitorResourceStatus (v1alpha1.setErrorStatus stale "")] /\
   resultOf (run (testdata.healthy "") stale) [] = (Stop, None)).
Proof.
  intros run skipped bare stale deleteFails delete.
  assert (Hne : testdata.testRef <> types.empty) by discriminate.
  split; [|split; [|split; [|split; [|split; [|split]]]]].
  - destruct (@EnsurePrometheusRuleExists_skip_and_empty_slo testdata.externals
                (testdata.healthy "99.5") (bare skipped) []) as (H & _).
    destruct (H eq_refl) as (_ & _ & H' & _). exact (H' eq_refl eq_refl).
  - destruct (@EnsurePrometheusRuleExists_skip_and_empty_slo testdata.externals
                (testdata.healthy "99.5") skipped []) as (H & _).
    destruct (H eq_refl) as (_ & _ & _ & H'). exact (H' eq_refl Hne).
  - destruct (@EnsurePrometheusRuleExists_skip_and_empty_slo testdata.externals
                deleteFails skipped []) as (H & _).
    destruct (H eq_refl) as (_ & H' & _). exact (H' testdata.CustomError eq_refl).
  - destruct (@EnsurePrometheusRuleExists_skip_and_empty_slo testdata.externals
                (testdata.healthy "") (bare testdata.monitor) []) as (_ & H).
    destruct (H eq_refl None false "" eq_refl eq_refl) as (_ & _ & _ & _ & H' & _).
    exact (H' eq_refl eq_refl eq_refl).
  - destruct (@EnsurePrometheusRuleExists_skip_and_empty_slo testdata.externals
                (testdata.healthy "") testdata.monitor []) as (_ & H).
    destruct (H eq_refl None false "" eq_refl eq_refl) as (_ & _ & _ & _ & _ & H').
    exact (H' eq_refl eq_refl Hne).
  - destruct (@EnsurePrometheusRuleExists_skip_and_empty_slo testdata.externals
                deleteFails testdata.monitor []) as (_ & H).
    destruct (H eq_refl None false "" eq_refl eq_refl) as (_ & _ & _ & H' & _).
    exact (H' eq_refl testdata.CustomError eq_refl).
  - destruct (@EnsurePrometheusRuleExists_skip_and_empty_slo testdata.externals
                (testdata.healthy "") stale []) as (_ & H).
    destruct (H eq_refl None true "" eq_refl eq_refl) as (_ & _ & H' & _).
    exact (H' eq_refl).
Defined.

(** C5, as stated, fails.  The skip flag is unset and the SLO parses to the
    empty expression in each of three runs on a monitor whose ref is set.
    With an error status left over from an earlier pass, SetErrorStatus
    reports a change: the step is one status write and that write's answer,
    here Continue; no delete is called and the ref in the object written is
    still test/test.  With the error status unchanged and the status write
    answering Requeue with an error, the rule is deleted and the ref cleared,
    and the step returns that Requeue, not Stop.  With the delete failing,
    the step returns Requeue with the error and the cleared ref is never
    written. *)
Lemma EnsurePrometheusRuleExists_empty_slo_without_delete_or_stop :
  let run r rm := @routemonitor.EnsurePrometheusRuleExists testdata.externals r rm in
  let stale := v1alpha1.setErrorStatus testdata.monitor "old error" in
  let writeContinues :=
    testdata.reconciler (false, None) None None None ("", None) (Continue, None) in
  let writeRequeues :=
    testdata.reconciler (false, None) None None None ("", None)
      (Requeue, Some testdata.CustomError) in
  let deleteFails :=
    testdata.reconciler (false, None) None None (Some testdata.CustomError)
      ("", None) (Stop, None) in
  let delete := CallDeletePrometheusRuleDeployment testdata.testRef in
  v1alpha1.SkipPrometheusRule (v1alpha1.Spec stale) = false /\
  v1alpha1.SkipPrometheusRule (v1alpha1.Spec testdata.monitor) = false /\
  controllers.ParseMonitorSLOSpecs (routemonitor.Common writeContinues)
    (v1alpha1.RouteURL (v1alpha1.Status stale)) (v1alpha1.Slo (v1alpha1.Spec stale))
    = ("", None) /\
  run writeContinues stale [] =
    ((Continue, None),
     [CallUpdateMonitorResourceStatus (v1alpha1.setErrorStatus stale "")]) /\
  (delete ∉ callsOf (run writeContinues stale) []) /\
  v1alpha1.PrometheusRuleRef (v1alpha1.Status (v1alpha1.setErrorStatus stale ""))
    = testdata.testRef /\
  testdata.testRef <> types.empty /\
  run writeRequeues testdata.monitor [] =
    ((Requeue, Some testdata.CustomError),
     [delete;
      CallUpdateMonitorResourceStatus
        (v1alpha1.setPrometheusRuleRef testdata.monitor types.empty)]) /\
  run deleteFails testdata.monitor [] =
    ((Requeue, Some testdata.CustomError), [delete]) /\
  (Continue, @None error) <> (Stop, None) /\
  (Requeue, Some testdata.CustomError) <> (Stop, None).
Proof.
  intros run stale writeContinues writeRequeues deleteFails delete.
  assert (N : delete ∉ callsOf (run writeContinues stale) []).
  { intros I. vm_compute in I. apply list_elem_of_singleton in I. discriminate. }
  repeat split; try reflexivity; try discriminate. exact N.
Qed.

Lemma unresolved_url_guard_is_in_EnsureServiceMonitorExists_witness :
  let unresolved := v1alpha1.setRouteURL testdata.monitor "" in
  let scrape := @routemonitor.EnsureServiceMonitorExists testdata.externals
                  (testdata.healthy "") unresolved in
  let alert := @routemonitor.EnsurePrometheusRuleExists testdata.externals
                 (testdata.healthy "") unresolved in
  v1alpha1.RouteURL (v1alpha1.Status unresolved) = "" /\
  (resultOf scrape [] = (Requeue, Some (@NoHost testdata.externals)) /\
   callsOf scrape [] = []) /\
  head (callsOf alert []) = Some (CallDeletePrometheusRuleDeployment testdata.testRef).
Proof.
  intros unresolved scrape alert. split; [reflexivity|].
  destruct (@unresolved_url_guard_is_in_EnsureServiceMonitorExists testdata.externals
              (testdata.healthy "") unresolved [] eq_refl) as (G & A).
  split; [exact G|].
  destruct (A eq_refl "" None false "" eq_refl eq_refl) as (_ & A' & _).
  exact (A' eq_refl eq_refl).
Defined.

(** C6, as stated, fails.  The skip flag is unset and the RouteURL in status
    is empty, and [EnsurePrometheusRuleExists] does not return Requeue with
    the no-host error: where the SLO parses to the empty expression it calls
    ensureAbsent on the alert resource, persists the cleared ref and returns
    Stop; where the SLO parses to an expression it calls ensureExists with a
    template for the empty URL; where the parse itself reports the no-host
    error it records the text in the status and returns the signal of that
    write. *)
Lemma EnsurePrometheusRuleExists_no_guard_on_unresolved_url :
  let unresolved := v1alpha1.setRouteURL testdata.monitor "" in
  let run r := @routemonitor.EnsurePrometheusRuleExists testdata.externals r unresolved in
  let nohost := @NoHost testdata.externals in
  let parseFails :=
    testdata.reconciler (false, None) None None None ("", Some nohost) (Stop, None) in
  v1alpha1.SkipPrometheusRule (v1alpha1.Spec unresolved) = false /\
  v1alpha1.RouteURL (v1alpha1.Status unresolved) = "" /\
  run (testdata.healthy "") [] =
    ((Stop, None),
     [CallDeletePrometheusRuleDeployment testdata.testRef;
      CallUpdateMonitorResourceStatus
        (v1alpha1.setPrometheusRuleRef unresolved types.empty)]) /\
  run (testdata.healthy "99.5") [] =
    ((Continue, None),
     [CallUpdatePrometheusRuleDeployment
        (@TemplateForPrometheusRuleResource testdata.externals "" "99.5"
           testdata.testRef)]) /\
  run parseFails [] =
    ((Stop, None),
     [CallUpdateMonitorResourceStatus (v1alpha1.setErrorStatus unresolved "no host")]) /\
  (Stop, @None error) <> (Requeue, Some nohost) /\
  (Continue, @None error) <> (Requeue, Some nohost).
Proof.
  intros unresolved run nohost parseFails.
  repeat split; try reflexivity; discriminate.
Qed.

(** * Further properties of the code *)

(** Goes through a membership in an explicit list of calls, one element at a
    time, discarding the calls of another shape. *)
Ltac pick_call H :=
  repeat (apply elem_of_cons in H as [H|H]; [try discriminate|]);
  try (apply elem_of_nil in H; contradiction).

(** ** controllers/clusterurlmonitor: the reconcile driver *)

Section ReconcileDriver.
Import clusterurlmonitor.
Variable ClusterUrlMonitor : Type.
Variable ShouldStop : Result -> bool.
Variable GetClusterUrlMonitor :
  ctrl.Request -> M (ClusterUrlMonitor * Result * option error).
Variable EnsureMonitorAndDependenciesAbsent : ClusterUrlMonitor -> M Signal.
Variable EnsureFinalizerSet : ClusterUrlMonitor -> M Signal.
Variable EnsureBlackBoxExporterResourcesExist : M (option error).
Variable EnsureServiceMonitorExists : ClusterUrlMonitor -> M Signal.
Variable EnsurePrometheusRuleExists : ClusterUrlMonitor -> M Signal.

(** X1.  [Reconcile] runs its steps in the order fetch, deletion cascade,
    finalizer, exporter, scrape resource, alert rule, each on the trace the
    step before left and all on the parent the fetch returned; it ends with
    the first step that returns an error or whose result asks to stop, and
    with the alert-rule step otherwise.  What it returns is always the zero
    ctrl.Result together with the error value of the step it ended with (nil
    when that step stopped or went through): a requeue is never asked for
    through the result. *)
Theorem Reconcile_ends_with_first_step_that_does_not_proceed
    (req : ctrl.Request) (t : Trace) :
  let run := Reconcile ClusterUrlMonitor ShouldStop GetClusterUrlMonitor
               EnsureMonitorAndDependenciesAbsent EnsureFinalizerSet
               EnsureBlackBoxExporterResourcesExist EnsureServiceMonitorExists
               EnsurePrometheusRuleExists req t in
  let goes := proceeds ShouldStop in
  let fetched := GetClusterUrlMonitor req t in
  let parent := fst (fst (fst fetched)) in
  let found : Signal := (snd (fst (fst fetched)), snd (fst fetched)) in
  let absent := EnsureMonitorAndDependenciesAbsent parent (snd fetched) in
  let finalizer := EnsureFinalizerSet parent (snd absent) in
  let exporter := EnsureBlackBoxExporterResourcesExist (snd finalizer) in
  let scrape := EnsureServiceMonitorExists parent (snd exporter) in
  let alert := EnsurePrometheusRuleExists parent (snd scrape) in
  fst (fst run) = zeroResult /\
  (goes found = false -> run = ((zeroResult, snd found), snd fetched)) /\
  (goes found = true -> goes (fst absent) = false ->
     run = ((zeroResult, snd (fst absent)), snd absent)) /\
  (goes found = true -> goes (fst absent) = true ->
   goes (fst finalizer) = false ->
     run = ((zeroResult, snd (fst finalizer)), snd finalizer)) /\
  (goes found = true -> goes (fst absent) = true ->
   goes (fst finalizer) = true ->
     (forall err, fst exporter = Some err ->
        run = ((zeroResult, Some err), snd exporter)) /\
     (fst exporter = None -> goes (fst scrape) = false ->
        run = ((zeroResult, snd (fst scrape)), snd scrape)) /\
     (fst exporter = None -> goes (fst scrape) = true ->
        run = ((zeroResult, snd (fst alert)), snd alert))).
Proof.
  intros run goes fetched parent found absent finalizer exporter scrape alert.
  subst run goes parent found absent finalizer exporter scrape alert.
  unfold Reconcile, proceeds, bind, ret. subst fetched.
  destruct (GetClusterUrlMonitor req t) as [[[parent res1] [e1|]] s1]; simpl.
  { repeat split; try reflexivity; discriminate. }
  destruct (ShouldStop res1); simpl.
  { repeat split; try reflexivity; discriminate. }
  destruct (EnsureMonitorAndDependenciesAbsent parent s1) as [[res2 [e2|]] s2]; simpl.
  { repeat split; try reflexivity; discriminate. }
  destruct (ShouldStop res2); simpl.
  { repeat split; try reflexivity; discriminate. }
  destruct (EnsureFinalizerSet parent s2) as [[res3 [e3|]] s3]; simpl.
  { repeat split; try reflexivity; discriminate. }
  destruct (ShouldStop res3); simpl.
  { repeat split; try reflexivity; discriminate. }
  destruct (EnsureBlackBoxExporterResourcesExist s3) as [[e4|] s4]; simpl.
  { repeat split; try reflexivity; try discriminate. intros err [= ->]. reflexivity. }
  destruct (EnsureServiceMonitorExists parent s4) as [[res5 [e5|]] s5]; simpl.
  { repeat split; try reflexivity; discriminate. }
  destruct (ShouldStop res5); simpl.
  { repeat split; try reflexivity; discriminate. }
  destruct (EnsurePrometheusRuleExists parent s5) as [[res6 [e6|]] s6]; simpl.
  { repeat split; try reflexivity; discriminate. }
  destruct (ShouldStop res6); simpl; repeat split; try reflexivity; discriminate.
Qed.
End ReconcileDriver.

Lemma Reconcile_ends_with_first_step_that_does_not_proceed_witness :
  let req := {| ctrl.NamespacedName := testdata.testRef |} in
  let go : Signal := (Continue, None) in
  let fetch := ClientGet KRouteMonitor testdata.testRef in
  moredata.scriptedReconcile go go (Stop, None) None go go req [] =
    ((clusterurlmonitor.zeroResult, None),
     [fetch; CallShouldDeleteBlackBoxExporterResources;
      CallUpdateMonitorResource v1alpha1.zero])
  /\
  moredata.scriptedReconcile go go go (Some testdata.CustomError) go go req [] =
    ((clusterurlmonitor.zeroResult, Some testdata.CustomError),
     [fetch; CallShouldDeleteBlackBoxExporterResources;
      CallUpdateMonitorResource v1alpha1.zero;
      CallEnsureBlackBoxExporterResourcesAbsent])
  /\
  moredata.scriptedReconcile go go go None go
      (Requeue, Some testdata.CustomError) req [] =
    ((clusterurlmonitor.zeroResult, Some testdata.CustomError),
     [fetch; CallShouldDeleteBlackBoxExporterResources;
      CallUpdateMonitorResource v1alpha1.zero;
      CallEnsureBlackBoxExporterResourcesAbsent; CallGetOSDClusterID;
      CallUpdateMonitorResourceStatus v1alpha1.zero]).
Proof.
  intros req go fetch. split; [|split].
  - destruct (Reconcile_ends_with_first_step_that_does_not_proceed unit
                moredata.stopsUnlessContinue
                (fun req => invoke (ClientGet KRouteMonitor (ctrl.NamespacedName req))
                              (fun _ => (tt, fst go, snd go)))
                (fun _ => invoke CallShouldDeleteBlackBoxExporterResources (fun _ => go))
                (fun _ => invoke (CallUpdateMonitorResource v1alpha1.zero)
                            (fun _ => (Stop, None)))
                (invoke CallEnsureBlackBoxExporterResourcesAbsent (fun _ => None))
                (fun _ => invoke CallGetOSDClusterID (fun _ => go))
                (fun _ => invoke (CallUpdateMonitorResourceStatus v1alpha1.zero)
                            (fun _ => go))
                req []) as (_ & _ & _ & H & _).
    exact (H eq_refl eq_refl eq_refl).
  - destruct (Reconcile_ends_with_first_step_that_does_not_proceed unit
                moredata.stopsUnlessContinue
                (fun req => invoke (ClientGet KRouteMonitor (ctrl.NamespacedName req))
                              (fun _ => (tt, fst go, snd go)))
                (fun _ => invoke CallShouldDeleteBlackBoxExporterResources (fun _ => go))
                (fun _ => invoke (CallUpdateMonitorResource v1alpha1.zero)
                            (fun _ => go))
                (invoke CallEnsureBlackBoxExporterResourcesAbsent
                   (fun _ => Some testdata.CustomError))
                (fun _ => invoke CallGetOSDClusterID (fun _ => go))
                (fun _ => invoke (CallUpdateMonitorResourceStatus v1alpha1.zero)
                            (fun _ => go))
                req []) as (_ & _ & _ & _ & H).
    destruct (H eq_refl eq_refl eq_refl) as (H' & _).
    exact (H' testdata.CustomError eq_refl).
  - destruct (Reconcile_ends_with_first_step_that_does_not_proceed unit
                moredata.stopsUnlessContinue
                (fun req => invoke (ClientGet KRouteMonitor (ctrl.NamespacedName req))
                              (fun _ => (tt, fst go, snd go)))
                (fun _ => invoke CallShouldDeleteBlackBoxExporterResources (fun _ => go))
                (fun _ => invoke (CallUpdateMonitorResource v1alpha1.zero)
                            (fun _ => go))
                (invoke CallEnsureBlackBoxExporterResourcesAbsent (fun _ => None))
                (fun _ => invoke CallGetOSDClusterID (fun _ => go))
                (fun _ => invoke (CallUpdateMonitorResourceStatus v1alpha1.zero)
                            (fun _ => (Requeue, Some testdata.CustomError)))
                req []) as (_ & _ & _ & _ & H).
    destruct (H eq_refl eq_refl eq_refl) as (_ & _ & H').
    exact (H' eq_refl eq_refl).
Defined.

(** ** pkg/servicemonitor: templating and the two flavours *)

Section TemplateAndUpdate.
Import servicemonitor monitoringv1.
Context `{Externals}.
Variable u : servicemonitor.ServiceMonitor.

(** The full case analysis of [TemplateAndUpdateServiceMonitorDeployment],
    for both flavours. *)
Lemma TemplateAndUpdateServiceMonitorDeployment_run
    (routeURL blackBoxExporterNamespace : string)
    (namespacedName : types.NamespacedName) (clusterID : string)
    (isHCP : bool) (t : Trace) :
  let k := fetchedKind isHCP in
  let template :=
    TemplateForServiceMonitorResource routeURL blackBoxExporterNamespace
      (probeParams routeURL) namespacedName clusterID in
  let fetch := ClientGet k namespacedName in
  TemplateAndUpdateServiceMonitorDeployment u routeURL blackBoxExporterNamespace
    namespacedName clusterID isHCP t =
    match client.onGet (Client u) k t namespacedName with
    | inl err =>
        if IsNotFound err
        then (client.onCreate (Client u) (t ++ [fetch])
                (toObject k (flavourOfServiceMonitor isHCP template)),
              t ++ [fetch;
                    ClientCreate (toObject k (flavourOfServiceMonitor isHCP template))])
        else (Some err, t ++ [fetch])
    | inr deployed =>
        let current := flavourToServiceMonitor isHCP deployed in
        let updated :=
          toObject k (flavourOfServiceMonitor isHCP
                        (withSpec current (Spec template))) in
        if DeepEqual (Comparer u) (Spec current) (Spec template)
        then (None, t ++ [fetch])
        else (client.onUpdate (Client u) (t ++ [fetch]) updated,
              t ++ [fetch; ClientUpdate updated])
    end.
Proof.
  intros k template fetch.
  assert (Ekey : {| types.Name := metav1.Name (ObjectMeta template);
                    types.Namespace := metav1.Namespace (ObjectMeta template) |}
                 = namespacedName) by (now destruct namespacedName).
  unfold TemplateAndUpdateServiceMonitorDeployment,
    HyperShiftTemplateForServiceMonitorResource.
  change (<["module" := ["http_2xx"]]> (<["target" := [routeURL]]> ∅))
    with (probeParams routeURL).
  fold template. clearbody template. subst k fetch.
  destruct isHCP; cbv iota zeta.
  - unfold HypershiftUpdateServiceMonitorDeployment.
    rewrite Ekey. unfold client.Get. unfold bind at 1.
    rewrite invoke_run. unfold fetchedKind, flavourOfServiceMonitor,
      flavourToServiceMonitor, toObject.
    destruct (client.onGet (Client u) KRhobsServiceMonitor t namespacedName)
      as [err|deployed].
    + destruct (IsNotFound err); cbn [negb]; [|reflexivity].
      unfold client.Create. rewrite invoke_run. now rewrite trace_snoc2.
    + destruct (DeepEqual (Comparer u) (Spec deployed) (Spec template)); cbn [negb];
        [reflexivity|].
      unfold client.Update. rewrite invoke_run. now rewrite trace_snoc2.
  - rewrite (UpdateServiceMonitorDeployment_run u template t).
    cbv zeta. rewrite Ekey.
    unfold fetchedKind, flavourOfServiceMonitor, flavourToServiceMonitor, toObject.
    destruct (client.onGet (Client u) KServiceMonitor t namespacedName)
      as [err|deployed]; reflexivity.
Qed.

(** X2.  [TemplateAndUpdateServiceMonitorDeployment] is diff-gated in both
    flavours: it fetches by the given namespaced name in the API group the
    HCP flag selects; on not-found it creates the templated object; on a
    fetched object it updates exactly when the comparer reports the deployed
    spec unequal to the templated one, writing the fetched object with its
    spec replaced; on equal specs it writes nothing and returns nil; any
    other fetch error is returned with no write. *)
Theorem TemplateAndUpdateServiceMonitorDeployment_diff_gated
    (routeURL blackBoxExporterNamespace : string)
    (namespacedName : types.NamespacedName) (clusterID : string)
    (isHCP : bool) (t : Trace) :
  let k := fetchedKind isHCP in
  let template :=
    TemplateForServiceMonitorResource routeURL blackBoxExporterNamespace
      (probeParams routeURL) namespacedName clusterID in
  let fetch := ClientGet k namespacedName in
  let m := TemplateAndUpdateServiceMonitorDeployment u routeURL
             blackBoxExporterNamespace namespacedName clusterID isHCP in
  (forall err,
     client.onGet (Client u) k t namespacedName = inl err -> IsNotFound err = true ->
     callsOf m t =
       [fetch; ClientCreate (toObject k (flavourOfServiceMonitor isHCP template))] /\
     resultOf m t =
       client.onCreate (Client u) (t ++ [fetch])
         (toObject k (flavourOfServiceMonitor isHCP template)))
  /\
  (forall deployed,
     client.onGet (Client u) k t namespacedName = inr deployed ->
     let current := flavourToServiceMonitor isHCP deployed in
     let updated :=
       toObject k (flavourOfServiceMonitor isHCP
                     (withSpec current (Spec template))) in
     (DeepEqual (Comparer u) (Spec current) (Spec template) = false ->
        callsOf m t = [fetch; ClientUpdate updated] /\
        resultOf m t = client.onUpdate (Client u) (t ++ [fetch]) updated) /\
     (DeepEqual (Comparer u) (Spec current) (Spec template) = true ->
        callsOf m t = [fetch] /\ resultOf m t = None))
  /\
  (forall err,
     client.onGet (Client u) k t namespacedName = inl err -> IsNotFound err = false ->
     callsOf m t = [fetch] /\ resultOf m t = Some err).
Proof.
  intros k template fetch m.
  pose proof (TemplateAndUpdateServiceMonitorDeployment_run routeURL
                blackBoxExporterNamespace namespacedName clusterID isHCP t) as R.
  cbv zeta in R. fold k template fetch m in R.
  split; [|split].
  - intros err G NF. rewrite G, NF in R.
    split; [eapply callsOf_app | eapply resultOf_eq]; exact R.
  - intros deployed G current updated. rewrite G in R. fold current updated in R.
    split; intros D; rewrite D in R;
      (split; [eapply callsOf_app | eapply resultOf_eq]; exact R).
  - intros err G NF. rewrite G, NF in R.
    split; [eapply callsOf_app | eapply resultOf_eq]; exact R.
Qed.

(** X3.  The HCP flag keeps the two API groups apart, and neither operation
    strays into the other's writes: every call of
    [TemplateAndUpdateServiceMonitorDeployment] and of
    [DeleteServiceMonitorDeployment] is on the kind the flag selects; the
    first never deletes, the second never creates or updates; each makes at
    most two calls. *)
Theorem servicemonitor_calls_stay_in_flavour
    (routeURL blackBoxExporterNamespace : string)
    (namespacedName ref : types.NamespacedName) (clusterID : string)
    (isHCP : bool) (t : Trace) :
  let ensure := TemplateAndUpdateServiceMonitorDeployment u routeURL
                  blackBoxExporterNamespace namespacedName clusterID isHCP in
  let remove := DeleteServiceMonitorDeployment u ref isHCP in
  (forall c, c ∈ callsOf ensure t ->
     callKind c = Some (fetchedKind isHCP) /\ (forall o, c <> ClientDelete o)) /\
  (forall c, c ∈ callsOf remove t ->
     callKind c = Some (fetchedKind isHCP) /\
     (forall o, c <> ClientCreate o) /\ (forall o, c <> ClientUpdate o)) /\
  length (callsOf ensure t) <= 2 /\
  length (callsOf remove t) <= 2.
Proof.
  intros ensure remove.
  pose proof (TemplateAndUpdateServiceMonitorDeployment_run routeURL
                blackBoxExporterNamespace namespacedName clusterID isHCP t) as R.
  cbv zeta in R. fold ensure in R.
  assert (Kobj : forall sm,
            objectKind (toObject (fetchedKind isHCP)
                          (flavourOfServiceMonitor isHCP sm)) = fetchedKind isHCP)
    by (intros sm; now destruct isHCP).
  assert (Kobj' : forall o : objectOf (fetchedKind isHCP),
            objectKind (toObject (fetchedKind isHCP) o) = fetchedKind isHCP)
    by (intros o; now destruct isHCP).
  assert (Hensure : (forall c, c ∈ callsOf ensure t ->
            callKind c = Some (fetchedKind isHCP) /\ (forall o, c <> ClientDelete o))
          /\ length (callsOf ensure t) <= 2).
  { destruct (client.onGet (Client u) (fetchedKind isHCP) t namespacedName)
      as [err|deployed];
      [destruct (IsNotFound err)|
       destruct (DeepEqual (Comparer u) _ _)];
      rewrite (callsOf_app ensure t _ _ R); (split; [|simpl; lia]);
      intros c Hc; pick_call Hc; subst c; simpl; rewrite ?Kobj;
      (split; [reflexivity | discriminate]). }
  assert (Hremove : (forall c, c ∈ callsOf remove t ->
            callKind c = Some (fetchedKind isHCP) /\
            (forall o, c <> ClientCreate o) /\ (forall o, c <> ClientUpdate o))
          /\ length (callsOf remove t) <= 2).
  { destruct (decide (types.Name ref = "")) as [En|Hn];
      [|destruct (decide (types.Namespace ref = "")) as [Ens|Hns]].
    - rewrite (callsOf_nil remove t None)
        by (apply DeleteServiceMonitorDeployment_skip; now left).
      split; [|simpl; lia]. intros c Hc. now apply elem_of_nil in Hc.
    - rewrite (callsOf_nil remove t None)
        by (apply DeleteServiceMonitorDeployment_skip; now right).
      split; [|simpl; lia]. intros c Hc. now apply elem_of_nil in Hc.
    - pose proof (DeleteServiceMonitorDeployment_run u ref isHCP t Hn Hns) as R'.
      cbv zeta in R'. fold remove in R'.
      destruct (client.onGet (Client u) (fetchedKind isHCP) t ref);
        rewrite (callsOf_app remove t _ _ R'); (split; [|simpl; lia]);
        intros c Hc; pick_call Hc; subst c; simpl; rewrite ?Kobj';
        (split; [reflexivity | split; discriminate]). }
  destruct Hensure as [E1 E2], Hremove as [R1 R2].
  exact (conj E1 (conj R1 (conj E2 R2))).
Qed.

(** The templated spec determines the route URL, the exporter namespace and
    the cluster ID it was made for. *)
Lemma TemplateForServiceMonitorResource_spec_inj
    (url url' ns ns' : string) (params params' : gmap string (list string))
    (nn nn' : types.NamespacedName) (id id' : string) :
  Spec (TemplateForServiceMonitorResource url ns params nn id)
  = Spec (TemplateForServiceMonitorResource url' ns' params' nn' id') ->
  url = url' /\ ns = ns' /\ id = id'.
Proof.
  unfold TemplateForServiceMonitorResource. simpl. intros E.
  injection E as Eparams Eurl Eid Ens. now subst.
Qed.

(** X4.  Running [TemplateAndUpdateServiceMonitorDeployment] again is a
    no-op, and a changed target is picked up: when the store returns an
    object whose spec is the templated one and the comparer is reflexive,
    only the fetch is made and nil returned; when the store returns an
    object templated for another route URL, exporter namespace or cluster ID
    and the comparer only reports equal what is equal, the fetched object is
    updated with the new templated spec. *)
Theorem TemplateAndUpdateServiceMonitorDeployment_rerun_and_changed_target
    (routeURL blackBoxExporterNamespace : string)
    (namespacedName : types.NamespacedName) (clusterID : string)
    (isHCP : bool) (t : Trace)
    (deployed : objectOf (fetchedKind isHCP)) :
  let k := fetchedKind isHCP in
  let template :=
    TemplateForServiceMonitorResource routeURL blackBoxExporterNamespace
      (probeParams routeURL) namespacedName clusterID in
  let fetch := ClientGet k namespacedName in
  let m := TemplateAndUpdateServiceMonitorDeployment u routeURL
             blackBoxExporterNamespace namespacedName clusterID isHCP in
  let current := flavourToServiceMonitor isHCP deployed in
  client.onGet (Client u) k t namespacedName = inr deployed ->
  ((forall s, DeepEqual (Comparer u) s s = true) ->
   Spec current = Spec template ->
     callsOf m t = [fetch] /\ resultOf m t = None)
  /\
  ((forall a b, DeepEqual (Comparer u) a b = true -> a = b) ->
   forall url' ns' nn' id',
   Spec current
   = Spec (TemplateForServiceMonitorResource url' ns' (probeParams url') nn' id') ->
   url' <> routeURL \/ ns' <> blackBoxExporterNamespace \/ id' <> clusterID ->
     callsOf m t =
       [fetch;
        ClientUpdate (toObject k (flavourOfServiceMonitor isHCP
                                    (withSpec current (Spec template))))]).
Proof.
  intros k template fetch m current G.
  pose proof (TemplateAndUpdateServiceMonitorDeployment_run routeURL
                blackBoxExporterNamespace namespacedName clusterID isHCP t) as R.
  cbv zeta in R. fold k template fetch m in R. rewrite G in R. fold current in R.
  split.
  - intros Hrefl E. rewrite E, Hrefl in R.
    split; [eapply callsOf_app | eapply resultOf_eq]; exact R.
  - intros Hsound url' ns' nn' id' E Hdiff.
    destruct (DeepEqual (Comparer u) (Spec current) (Spec template)) eqn:D.
    + exfalso. apply Hsound in D. rewrite E in D. subst template.
      apply TemplateForServiceMonitorResource_spec_inj in D as (-> & -> & ->).
      now destruct Hdiff as [?|[?|?]].
    + eapply callsOf_app; exact R.
Qed.
End TemplateAndUpdate.

Lemma TemplateAndUpdateServiceMonitorDeployment_diff_gated_witness :
  let run h := @servicemonitor.TemplateAndUpdateServiceMonitorDeployment
                 testdata.externals h "https://console.example.com"
                 "openshift-monitoring" testdata.testRef "cluster-1" false in
  let missing := testdata.handler
    (testdata.scriptedClient (testdata.getFails testdata.NotFoundErr) None None None) in
  let stale := testdata.handler
    (testdata.scriptedClient (testdata.getsServiceMonitor testdata.deployedStale)
       None None None) in
  let same := testdata.handler
    (testdata.scriptedClient (testdata.getsServiceMonitor testdata.deployedSame)
       None None None) in
  let broken := testdata.handler
    (testdata.scriptedClient (testdata.getFails testdata.CustomError) None None None) in
  let fetch := ClientGet KServiceMonitor testdata.testRef in
  (callsOf (run missing) [] = [fetch; ClientCreate (ObjServiceMonitor testdata.template)] /\
   resultOf (run missing) [] = None)
  /\
  (callsOf (run stale) [] =
     [fetch;
      ClientUpdate (ObjServiceMonitor
        (monitoringv1.withSpec testdata.deployedStale
           (monitoringv1.Spec testdata.template)))] /\
   resultOf (run stale) [] = None)
  /\
  (callsOf (run same) [] = [fetch] /\ resultOf (run same) [] = None)
  /\
  (callsOf (run broken) [] = [fetch] /\
   resultOf (run broken) [] = Some testdata.CustomError).
Proof.
  intros run missing stale same broken fetch.
  split; [|split; [|split]].
  - destruct (@TemplateAndUpdateServiceMonitorDeployment_diff_gated testdata.externals
                missing "https://console.example.com" "openshift-monitoring"
                testdata.testRef "cluster-1" false []) as (H & _).
    exact (H testdata.NotFoundErr eq_refl eq_refl).
  - destruct (@TemplateAndUpdateServiceMonitorDeployment_diff_gated testdata.externals
                stale "https://console.example.com" "openshift-monitoring"
                testdata.testRef "cluster-1" false []) as (_ & H & _).
    destruct (H testdata.deployedStale eq_refl) as (H' & _).
    apply H'. vm_compute. reflexivity.
  - destruct (@TemplateAndUpdateServiceMonitorDeployment_diff_gated testdata.externals
                same "https://console.example.com" "openshift-monitoring"
                testdata.testRef "cluster-1" false []) as (_ & H & _).
    destruct (H testdata.deployedSame eq_refl) as (_ & H').
    apply H'. vm_compute. reflexivity.
  - destruct (@TemplateAndUpdateServiceMonitorDeployment_diff_gated testdata.externals
                broken "https://console.example.com" "openshift-monitoring"
                testdata.testRef "cluster-1" false []) as (_ & _ & H).
    exact (H testdata.CustomError eq_refl eq_refl).
Defined.

Lemma servicemonitor_calls_stay_in_flavour_witness :
  let present := testdata.handler
    (testdata.scriptedClient (testdata.getsServiceMonitor testdata.deployedStale)
       None None None) in
  let ensure := @servicemonitor.TemplateAndUpdateServiceMonitorDeployment
                  testdata.externals present "https://console.example.com"
                  "openshift-monitoring" testdata.testRef "cluster-1" true in
  let remove := servicemonitor.DeleteServiceMonitorDeployment present
                  testdata.testRef true in
  let updated := ClientUpdate (ObjRhobsServiceMonitor
                   (monitoringv1.withSpec testdata.deployedStale
                      (monitoringv1.Spec testdata.template))) in
  let deleted := ClientDelete (ObjRhobsServiceMonitor testdata.deployedStale) in
  (updated ∈ callsOf ensure [] /\ callKind updated = Some KRhobsServiceMonitor) /\
  (deleted ∈ callsOf remove [] /\ callKind deleted = Some KRhobsServiceMonitor).
Proof.
  intros present ensure remove updated deleted.
  destruct (@servicemonitor_calls_stay_in_flavour testdata.externals present
              "https://console.example.com" "openshift-monitoring"
              testdata.testRef testdata.testRef "cluster-1" true [])
    as (He & Hr & _).
  assert (Iu : updated ∈ callsOf ensure [])
    by (vm_compute; apply list_elem_of_further, list_elem_of_here).
  assert (Id : deleted ∈ callsOf remove [])
    by (vm_compute; apply list_elem_of_further, list_elem_of_here).
  split.
  - split; [exact Iu | exact (proj1 (He _ Iu))].
  - split; [exact Id | exact (proj1 (Hr _ Id))].
Defined.

Lemma TemplateAndUpdateServiceMonitorDeployment_rerun_and_changed_target_witness :
  let run h := @servicemonitor.TemplateAndUpdateServiceMonitorDeployment
                 testdata.externals h "https://console.example.com"
                 "openshift-monitoring" testdata.testRef "cluster-1" false in
  let stale := testdata.handler
    (testdata.scriptedClient (testdata.getsServiceMonitor testdata.deployedStale)
       None None None) in
  let same := testdata.handler
    (testdata.scriptedClient (testdata.getsServiceMonitor testdata.deployedSame)
       None None None) in
  let fetch := ClientGet KServiceMonitor testdata.testRef in
  (callsOf (run same) [] = [fetch] /\ resultOf (run same) [] = None)
  /\
  ("http://old.example.com" <> "https://console.example.com" /\
   callsOf (run stale) [] =
     [fetch;
      ClientUpdate (ObjServiceMonitor
        (monitoringv1.withSpec testdata.deployedStale
           (monitoringv1.Spec testdata.template)))]).
Proof.
  intros run stale same fetch.
  assert (Hrefl : forall s, servicemonitor.DeepEqual testdata.exactComparer s s = true)
    by (intros s; apply bool_decide_eq_true_2; reflexivity).
  assert (Hsound : forall a b,
            servicemonitor.DeepEqual testdata.exactComparer a b = true -> a = b)
    by (intros a b E; exact (bool_decide_eq_true_1 _ E)).
  split.
  - destruct (@TemplateAndUpdateServiceMonitorDeployment_rerun_and_changed_target
                testdata.externals same "https://console.example.com"
                "openshift-monitoring" testdata.testRef "cluster-1" false []
                testdata.deployedSame eq_refl) as (H & _).
    exact (H Hrefl eq_refl).
  - assert (Hne : "http://old.example.com" <> "https://console.example.com")
      by discriminate.
    split; [exact Hne|].
    destruct (@TemplateAndUpdateServiceMonitorDeployment_rerun_and_changed_target
                testdata.externals stale "https://console.example.com"
                "openshift-monitoring" testdata.testRef "cluster-1" false []
                testdata.deployedStale eq_refl) as (_ & H).
    exact (H Hsound "http://old.example.com" "openshift-monitoring"
             testdata.testRef "cluster-1" eq_refl (or_introl Hne)).
Defined.

(** ** controllers/routemonitor: the scrape resource *)

Section ScrapeResource.
Import v1alpha1 routemonitor.
Context `{Externals}.
Variable r : RouteMonitorReconciler.

(** The full case analysis of [EnsureServiceMonitorExists] once the RouteURL
    is set. *)
Lemma EnsureServiceMonitorExists_run (routeMonitor : RouteMonitor) (t : Trace) :
  RouteURL (Status routeMonitor) <> "" ->
  let namespacedName :=
    {| types.Name := metav1.Name (ObjectMeta routeMonitor);
       types.Namespace := metav1.Namespace (ObjectMeta routeMonitor) |} in
  let lookup := controllers.onGetOSDClusterID (Common r) t in
  let template :=
    CallTemplateAndUpdateServiceMonitorDeployment (RouteURL (Status routeMonitor))
      (controllers.GetBlackBoxExporterNamespace (BlackBoxExporter r))
      namespacedName (fst lookup) false in
  let written := setServiceMonitorRef routeMonitor namespacedName in
  EnsureServiceMonitorExists r routeMonitor t =
    match snd lookup with
    | Some err => ((Requeue, Some err), t ++ [CallGetOSDClusterID])
    | None =>
        match controllers.onTemplateAndUpdateServiceMonitorDeployment
                (ServiceMonitor r) (t ++ [CallGetOSDClusterID])
                (RouteURL (Status routeMonitor))
                (controllers.GetBlackBoxExporterNamespace (BlackBoxExporter r))
                namespacedName (fst lookup) false with
        | Some err => ((Requeue, Some err), t ++ [CallGetOSDClusterID; template])
        | None =>
            if bool_decide (ServiceMonitorRef (Status routeMonitor) = namespacedName)
            then ((Continue, None), t ++ [CallGetOSDClusterID; template])
            else (controllers.onUpdateMonitorResourceStatus (Common r)
                    (t ++ [CallGetOSDClusterID; template]) written,
                  t ++ [CallGetOSDClusterID; template;
                        CallUpdateMonitorResourceStatus written])
        end
    end.
Proof.
  intros Hurl namespacedName lookup template written.
  unfold EnsureServiceMonitorExists.
  rewrite bool_decide_eq_false_2 by exact Hurl.
  fold namespacedName. unfold controllers.GetOSDClusterID.
  unfold bind at 1. rewrite invoke_run. subst template. subst lookup.
  destruct (controllers.onGetOSDClusterID (Common r) t) as [id [err|]];
    [reflexivity|].
  cbn [fst snd].
  unfold controllers.TemplateAndUpdateServiceMonitorDeployment.
  unfold bind at 1. rewrite invoke_run. rewrite trace_snoc2.
  destruct (controllers.onTemplateAndUpdateServiceMonitorDeployment _ _ _ _ _ _ _);
    [reflexivity|].
  unfold controllers.SetResourceReference. fold written.
  case_bool_decide as E.
  - reflexivity.
  - unfold controllers.UpdateMonitorResourceStatus. rewrite invoke_run.
    now rewrite <- app_assoc.
Qed.

(** X5.  With the RouteURL set, a failure in [EnsureServiceMonitorExists] is
    returned as Requeue with that error and nothing is written: when the
    cluster-ID lookup fails no ServiceMonitor is templated at all; when the
    template-and-update call fails the ServiceMonitorRef is not touched.  The
    template call is always made for the monitor's own name and namespace,
    with the URL from its status, the exporter's namespace, the cluster ID
    just looked up, and the HCP flag off. *)
Theorem EnsureServiceMonitorExists_failure_requeues
    (routeMonitor : RouteMonitor) (t : Trace) (err : error) :
  RouteURL (Status routeMonitor) <> "" ->
  let namespacedName :=
    {| types.Name := metav1.Name (ObjectMeta routeMonitor);
       types.Namespace := metav1.Namespace (ObjectMeta routeMonitor) |} in
  let m := EnsureServiceMonitorExists r routeMonitor in
  let lookup := controllers.onGetOSDClusterID (Common r) t in
  let template :=
    CallTemplateAndUpdateServiceMonitorDeployment (RouteURL (Status routeMonitor))
      (controllers.GetBlackBoxExporterNamespace (BlackBoxExporter r))
      namespacedName (fst lookup) false in
  (snd lookup = Some err ->
     resultOf m t = (Requeue, Some err) /\ callsOf m t = [CallGetOSDClusterID])
  /\
  (snd lookup = None ->
   controllers.onTemplateAndUpdateServiceMonitorDeployment
     (ServiceMonitor r) (t ++ [CallGetOSDClusterID])
     (RouteURL (Status routeMonitor))
     (controllers.GetBlackBoxExporterNamespace (BlackBoxExporter r))
     namespacedName (fst lookup) false = Some err ->
     resultOf m t = (Requeue, Some err) /\
     callsOf m t = [CallGetOSDClusterID; template])
  /\
  (forall c, c ∈ callsOf m t ->
     c = CallGetOSDClusterID \/ c = template \/
     exists cr, c = CallUpdateMonitorResourceStatus cr).
Proof.
  intros Hurl namespacedName m lookup template.
  pose proof (EnsureServiceMonitorExists_run routeMonitor t Hurl) as R.
  cbv zeta in R. fold namespacedName m lookup template in R.
  split; [|split].
  - intros E. rewrite E in R.
    split; [eapply resultOf_eq | eapply callsOf_app]; exact R.
  - intros E E'. rewrite E, E' in R.
    split; [eapply resultOf_eq | eapply callsOf_app]; exact R.
  - intros c Hc.
    destruct (snd lookup);
      [|destruct (controllers.onTemplateAndUpdateServiceMonitorDeployment
                    _ _ _ _ _ _ _); [|case_bool_decide]];
      rewrite (callsOf_app m t _ _ R) in Hc;
      repeat (apply elem_of_cons in Hc as [->|Hc]; [eauto|]);
      now apply elem_of_nil in Hc.
Qed.

End ScrapeResource.

Lemma EnsureServiceMonitorExists_failure_requeues_witness :
  let run r := @routemonitor.EnsureServiceMonitorExists testdata.externals r
                 testdata.monitor in
  let lookupFails :=
    moredata.scrapeReconciler ("", Some testdata.CustomError) None (Stop, None) in
  let templateFails :=
    moredata.scrapeReconciler ("cluster-1", None) (Some testdata.CustomError)
      (Stop, None) in
  (resultOf (run lookupFails) [] = (Requeue, Some testdata.CustomError) /\
   callsOf (run lookupFails) [] = [CallGetOSDClusterID])
  /\
  (resultOf (run templateFails) [] = (Requeue, Some testdata.CustomError) /\
   callsOf (run templateFails) [] =
     [CallGetOSDClusterID;
      CallTemplateAndUpdateServiceMonitorDeployment "https://console.example.com"
        "openshift-monitoring" testdata.testRef "cluster-1" false]).
Proof.
  intros run lookupFails templateFails.
  assert (Hurl : v1alpha1.RouteURL (v1alpha1.Status testdata.monitor) <> "")
    by discriminate.
  split.
  - destruct (@EnsureServiceMonitorExists_failure_requeues testdata.externals
                lookupFails testdata.monitor [] testdata.CustomError Hurl) as (H & _).
    exact (H eq_refl).
  - destruct (@EnsureServiceMonitorExists_failure_requeues testdata.externals
                templateFails testdata.monitor [] testdata.CustomError Hurl)
      as (_ & H & _).
    exact (H eq_refl eq_refl).
Defined.


(** ** controllers/routemonitor: the alert rule, remaining branches *)

Section AlertRuleBranches.
Import v1alpha1 routemonitor.
Context `{Externals}.
Variable r : RouteMonitorReconciler.

(** The full case analysis of [EnsurePrometheusRuleExists]. *)
Lemma EnsurePrometheusRuleExists_run (routeMonitor : RouteMonitor) (t : Trace) :
  let pref := PrometheusRuleRef (Status routeMonitor) in
  let delete := CallDeletePrometheusRuleDeployment pref in
  let parsed :=
    controllers.ParseMonitorSLOSpecs (Common r) (RouteURL (Status routeMonitor))
      (Slo (Spec routeMonitor)) in
  let status :=
    controllers.SetErrorStatus (Common r) (ErrorStatus (Status routeMonitor))
      (snd parsed) in
  let noted := setErrorStatus routeMonitor (snd status) in
  let namespacedName :=
    {| types.Namespace := metav1.Namespace (ObjectMeta routeMonitor);
       types.Name := metav1.Name (ObjectMeta routeMonitor) |} in
  let template :=
    TemplateForPrometheusRuleResource (RouteURL (Status routeMonitor))
      (fst parsed) namespacedName in
  let update := CallUpdatePrometheusRuleDeployment template in
  let deleteAndClear (rm : RouteMonitor) (idle : Signal) :=
    match controllers.onDeletePrometheusRuleDeployment (Prom r) t pref with
    | Some err => ((Requeue, Some err), t ++ [delete])
    | None =>
        if bool_decide (pref = types.empty)
        then (idle, t ++ [delete])
        else (controllers.onUpdateMonitorResourceStatus (Common r)
                (t ++ [delete]) (setPrometheusRuleRef rm types.empty),
              t ++ [delete;
                    CallUpdateMonitorResourceStatus
                      (setPrometheusRuleRef rm types.empty)])
    end in
  EnsurePrometheusRuleExists r routeMonitor t =
    if SkipPrometheusRule (Spec routeMonitor)
    then deleteAndClear routeMonitor (Continue, None)
    else if fst status
    then (controllers.onUpdateMonitorResourceStatus (Common r) t noted,
          t ++ [CallUpdateMonitorResourceStatus noted])
    else if bool_decide (fst parsed = "")
    then deleteAndClear noted (Stop, None)
    else
      match controllers.onUpdatePrometheusRuleDeployment (Prom r) t template with
      | Some err => ((Requeue, Some err), t ++ [update])
      | None =>
          if bool_decide (pref = namespacedName)
          then ((Continue, None), t ++ [update])
          else (controllers.onUpdateMonitorResourceStatus (Common r)
                  (t ++ [update]) (setPrometheusRuleRef noted namespacedName),
                t ++ [update;
                      CallUpdateMonitorResourceStatus
                        (setPrometheusRuleRef noted namespacedName)])
      end.
Proof.
  intros pref delete parsed status noted namespacedName template update
    deleteAndClear.
  unfold EnsurePrometheusRuleExists.
  destruct (SkipPrometheusRule (Spec routeMonitor)).
  { now rewrite (delete_and_clear_run r routeMonitor ContinueReconcile (Continue, None))
      by reflexivity. }
  subst deleteAndClear update template noted status. subst parsed.
  destruct (controllers.ParseMonitorSLOSpecs _ _ _) as [parsedSlo err].
  cbn [fst snd].
  destruct (controllers.SetErrorStatus _ _ _) as [changed text].
  cbn [fst snd]. destruct changed; [reflexivity|].
  case_bool_decide as Eslo.
  { now rewrite (delete_and_clear_run r (setErrorStatus routeMonitor text)
                   StopReconcile (Stop, None)) by reflexivity. }
  change (ObjectMeta (setErrorStatus routeMonitor text))
    with (ObjectMeta routeMonitor).
  fold namespacedName.
  unfold bind at 1. unfold controllers.UpdatePrometheusRuleDeployment.
  rewrite invoke_run.
  change (RouteURL (Status (setErrorStatus routeMonitor text)))
    with (RouteURL (Status routeMonitor)).
  destruct (controllers.onUpdatePrometheusRuleDeployment _ _ _); [reflexivity|].
  unfold controllers.SetResourceReference.
  change (PrometheusRuleRef (Status (setErrorStatus routeMonitor text))) with pref.
  case_bool_decide.
  - reflexivity.
  - unfold controllers.UpdateMonitorResourceStatus. rewrite invoke_run.
    now rewrite trace_snoc2.
Qed.

(** X7.  When the PrometheusRule delete fails, in the skip branch as in the
    empty-SLO branch, [EnsurePrometheusRuleExists] returns Requeue with that
    error and writes nothing: the delete is its only call, so the
    PrometheusRuleRef stays set for the next attempt. *)
Theorem EnsurePrometheusRuleExists_delete_failure_keeps_ref
    (routeMonitor : RouteMonitor) (t : Trace) (err : error) :
  let pref := PrometheusRuleRef (Status routeMonitor) in
  let parsed :=
    controllers.ParseMonitorSLOSpecs (Common r) (RouteURL (Status routeMonitor))
      (Slo (Spec routeMonitor)) in
  let status :=
    controllers.SetErrorStatus (Common r) (ErrorStatus (Status routeMonitor))
      (snd parsed) in
  let m := EnsurePrometheusRuleExists r routeMonitor in
  controllers.onDeletePrometheusRuleDeployment (Prom r) t pref = Some err ->
  SkipPrometheusRule (Spec routeMonitor) = true \/
  (SkipPrometheusRule (Spec routeMonitor) = false /\
   fst status = false /\ fst parsed = "") ->
  resultOf m t = (Requeue, Some err) /\
  callsOf m t = [CallDeletePrometheusRuleDeployment pref].
Proof.
  intros pref parsed status m Edel Hbranch.
  pose proof (EnsurePrometheusRuleExists_run routeMonitor t) as R.
  cbv zeta in R. fold pref parsed status m in R.
  destruct Hbranch as [Eskip|(Eskip & Estatus & Eparsed)].
  - rewrite Eskip, Edel in R.
    split; [eapply resultOf_eq | eapply callsOf_app]; exact R.
  - rewrite Eskip, Estatus, Edel in R.
    rewrite bool_decide_eq_true_2 in R by exact Eparsed.
    split; [eapply resultOf_eq | eapply callsOf_app]; exact R.
Qed.

(** X8.  With the skip flag unset, when SetErrorStatus reports that the
    error text changed, [EnsurePrometheusRuleExists] only persists the
    status: its single call is the status write carrying the new text, whose
    answer it returns; the alert resource is neither deleted nor updated and
    the PrometheusRuleRef is as before. *)
Theorem EnsurePrometheusRuleExists_changed_error_status_only_persisted
    (routeMonitor : RouteMonitor) (t : Trace) :
  let parsed :=
    controllers.ParseMonitorSLOSpecs (Common r) (RouteURL (Status routeMonitor))
      (Slo (Spec routeMonitor)) in
  let status :=
    controllers.SetErrorStatus (Common r) (ErrorStatus (Status routeMonitor))
      (snd parsed) in
  let noted := setErrorStatus routeMonitor (snd status) in
  let m := EnsurePrometheusRuleExists r routeMonitor in
  SkipPrometheusRule (Spec routeMonitor) = false ->
  fst status = true ->
  callsOf m t = [CallUpdateMonitorResourceStatus noted] /\
  resultOf m t = controllers.onUpdateMonitorResourceStatus (Common r) t noted /\
  ErrorStatus (Status noted) = snd status /\
  PrometheusRuleRef (Status noted) = PrometheusRuleRef (Status routeMonitor).
Proof.
  intros parsed status noted m Eskip Estatus.
  pose proof (EnsurePrometheusRuleExists_run routeMonitor t) as R.
  cbv zeta in R. fold parsed status noted m in R.
  rewrite Eskip, Estatus in R.
  repeat split; try reflexivity;
    [eapply callsOf_app | eapply resultOf_eq]; exact R.
Qed.

(** X9.  With the skip flag unset, the error status unchanged and a
    non-empty SLO expression, [EnsurePrometheusRuleExists] calls
    UpdatePrometheusRuleDeployment with the template for the status URL, the
    parsed expression and the monitor's own name and namespace.  If that
    fails it returns Requeue with the error and writes nothing.  If it
    succeeds and the PrometheusRuleRef names the monitor already, it returns
    Continue without a write; otherwise it writes the status once with the
    ref set to the monitor's own name and namespace and returns the answer
    of that write. *)
Theorem EnsurePrometheusRuleExists_ensures_rule
    (routeMonitor : RouteMonitor) (t : Trace) :
  let pref := PrometheusRuleRef (Status routeMonitor) in
  let parsed :=
    controllers.ParseMonitorSLOSpecs (Common r) (RouteURL (Status routeMonitor))
      (Slo (Spec routeMonitor)) in
  let status :=
    controllers.SetErrorStatus (Common r) (ErrorStatus (Status routeMonitor))
      (snd parsed) in
  let namespacedName :=
    {| types.Namespace := metav1.Namespace (ObjectMeta routeMonitor);
       types.Name := metav1.Name (ObjectMeta routeMonitor) |} in
  let template :=
    TemplateForPrometheusRuleResource (RouteURL (Status routeMonitor))
      (fst parsed) namespacedName in
  let update := CallUpdatePrometheusRuleDeployment template in
  let written :=
    setPrometheusRuleRef (setErrorStatus routeMonitor (snd status)) namespacedName in
  let m := EnsurePrometheusRuleExists r routeMonitor in
  SkipPrometheusRule (Spec routeMonitor) = false ->
  fst status = false ->
  fst parsed <> "" ->
  (forall err,
     controllers.onUpdatePrometheusRuleDeployment (Prom r) t template = Some err ->
     resultOf m t = (Requeue, Some err) /\ callsOf m t = [update])
  /\
  (controllers.onUpdatePrometheusRuleDeployment (Prom r) t template = None ->
   pref = namespacedName ->
     resultOf m t = (Continue, None) /\ callsOf m t = [update])
  /\
  (controllers.onUpdatePrometheusRuleDeployment (Prom r) t template = None ->
   pref <> namespacedName ->
     callsOf m t = [update; CallUpdateMonitorResourceStatus written] /\
     resultOf m t =
       controllers.onUpdateMonitorResourceStatus (Common r) (t ++ [update]) written /\
     PrometheusRuleRef (Status written) = namespacedName /\
     ErrorStatus (Status written) = snd status).
Proof.
  intros pref parsed status namespacedName template update written m
    Eskip Estatus Eparsed.
  pose proof (EnsurePrometheusRuleExists_run routeMonitor t) as R.
  cbv zeta in R.
  fold pref parsed status namespacedName template update written m in R.
  rewrite Eskip, Estatus in R.
  rewrite bool_decide_eq_false_2 in R by exact Eparsed.
  split; [|split].
  - intros err E. rewrite E in R.
    split; [eapply resultOf_eq | eapply callsOf_app]; exact R.
  - intros E Eref. rewrite E in R.
    rewrite bool_decide_eq_true_2 in R by exact Eref.
    split; [eapply resultOf_eq | eapply callsOf_app]; exact R.
  - intros E Eref. rewrite E in R.
    rewrite bool_decide_eq_false_2 in R by exact Eref.
    repeat split; try reflexivity;
      [eapply callsOf_app | eapply resultOf_eq]; exact R.
Qed.

(** Finds the status write among explicit calls and identifies the object
    written. *)
Ltac written_object H :=
  pick_call H; injection H as ->.

(** Splits explicit calls that end with a status write into the calls before
    it and the write, and shows that none of the former is a status write. *)
Ltac sole_last_write :=
  first [ exists []; split; [reflexivity|]
        | eexists [_]; split; [reflexivity|]
        | eexists [_; _]; split; [reflexivity|] ];
  split; [let cr' := fresh "cr" in let H' := fresh "H" in
          intros cr' H'; pick_call H' |].

(** X10.  The three convergence steps write only their own field of the
    status, at most once and as their last call, and never write the whole
    object: where a run has a status write, its calls are that write preceded
    by calls none of which is a status write.  A status write of [EnsurePrometheusRuleExists] leaves metadata,
    spec, RouteURL and ServiceMonitorRef as they were; one of
    [EnsureServiceMonitorExists] leaves metadata, spec, RouteURL,
    PrometheusRuleRef and ErrorStatus; one of [EnsureRouteURLExists] leaves
    metadata, spec, both refs and ErrorStatus.  None of them calls
    UpdateMonitorResource, so none touches the finalizers. *)
Theorem status_steps_write_only_their_field
    (route : routev1.Route) (routeMonitor : RouteMonitor) (t : Trace) :
  let alert := EnsurePrometheusRuleExists r routeMonitor in
  let scrape := EnsureServiceMonitorExists r routeMonitor in
  let url := EnsureRouteURLExists r route routeMonitor in
  (forall cr, CallUpdateMonitorResourceStatus cr ∈ callsOf alert t ->
     exists pre,
     callsOf alert t = pre ++ [CallUpdateMonitorResourceStatus cr] /\
     (forall cr', CallUpdateMonitorResourceStatus cr' ∉ pre) /\
     ObjectMeta cr = ObjectMeta routeMonitor /\ Spec cr = Spec routeMonitor /\
     RouteURL (Status cr) = RouteURL (Status routeMonitor) /\
     ServiceMonitorRef (Status cr) = ServiceMonitorRef (Status routeMonitor))
  /\
  (forall cr, CallUpdateMonitorResourceStatus cr ∈ callsOf scrape t ->
     exists pre,
     callsOf scrape t = pre ++ [CallUpdateMonitorResourceStatus cr] /\
     (forall cr', CallUpdateMonitorResourceStatus cr' ∉ pre) /\
     ObjectMeta cr = ObjectMeta routeMonitor /\ Spec cr = Spec routeMonitor /\
     RouteURL (Status cr) = RouteURL (Status routeMonitor) /\
     PrometheusRuleRef (Status cr) = PrometheusRuleRef (Status routeMonitor) /\
     ErrorStatus (Status cr) = ErrorStatus (Status routeMonitor))
  /\
  (forall cr, CallUpdateMonitorResourceStatus cr ∈ callsOf url t ->
     exists pre,
     callsOf url t = pre ++ [CallUpdateMonitorResourceStatus cr] /\
     (forall cr', CallUpdateMonitorResourceStatus cr' ∉ pre) /\
     ObjectMeta cr = ObjectMeta routeMonitor /\ Spec cr = Spec routeMonitor /\
     ServiceMonitorRef (Status cr) = ServiceMonitorRef (Status routeMonitor) /\
     PrometheusRuleRef (Status cr) = PrometheusRuleRef (Status routeMonitor) /\
     ErrorStatus (Status cr) = ErrorStatus (Status routeMonitor))
  /\
  (forall cr,
     (CallUpdateMonitorResource cr ∉ callsOf alert t) /\
     (CallUpdateMonitorResource cr ∉ callsOf scrape t) /\
     (CallUpdateMonitorResource cr ∉ callsOf url t)).
Proof.
  intros alert scrape url.
  pose proof (EnsurePrometheusRuleExists_run routeMonitor t) as Ra.
  cbv zeta in Ra. fold alert in Ra.
  assert (Rs : RouteURL (Status routeMonitor) = "" ->
               scrape t = ((Requeue, Some NoHost), t)).
  { intros E. subst scrape. unfold EnsureServiceMonitorExists.
    now rewrite bool_decide_eq_true_2 by exact E. }
  assert (Ru0 : routev1.Ingress (routev1.Status route) = [] ->
                callsOf url t = []).
  { intros E. subst url. unfold callsOf, EnsureRouteURLExists. rewrite E.
    simpl. apply drop_all. }
  assert (Ru1 : forall i l, routev1.Ingress (routev1.Status route) = i :: l ->
                routev1.Host i = "" -> callsOf url t = []).
  { intros i l E E0. subst url. unfold callsOf, EnsureRouteURLExists. rewrite E.
    rewrite bool_decide_eq_true_2 by exact E0. simpl. apply drop_all. }
  split; [|split; [|split]].
  - intros cr Hin.
    destruct (SkipPrometheusRule (Spec routeMonitor));
      [|destruct (fst (controllers.SetErrorStatus _ _ _));
        [|case_bool_decide]];
      repeat match type of Ra with
             | context [match ?x with Some _ => _ | None => _ end] => destruct x
             | context [if bool_decide ?P then _ else _] =>
                 destruct (bool_decide P)
             end;
      rewrite (callsOf_app alert t _ _ Ra) in Hin |- *;
      written_object Hin; sole_last_write; now repeat split.
  - intros cr Hin. clear Ra.
    destruct (decide (RouteURL (Status routeMonitor) = "")) as [E|Hurl].
    { rewrite (callsOf_nil scrape t _ (Rs E)) in Hin. now apply elem_of_nil in Hin. }
    pose proof (EnsureServiceMonitorExists_run r routeMonitor t Hurl) as R.
    cbv zeta in R. fold scrape in R.
    repeat match type of R with
           | context [match ?x with Some _ => _ | None => _ end] => destruct x
           | context [if bool_decide ?P then _ else _] =>
               destruct (bool_decide P)
           end;
      rewrite (callsOf_app scrape t _ _ R) in Hin |- *;
      written_object Hin; sole_last_write; now repeat split.
  - intros cr Hin. clear Ra.
    destruct (routev1.Ingress (routev1.Status route)) as [|i l] eqn:Ei.
    { rewrite (Ru0 eq_refl) in Hin. now apply elem_of_nil in Hin. }
    destruct (decide (routev1.Host i = "")) as [E0|Hh].
    { rewrite (Ru1 i l eq_refl E0) in Hin. now apply elem_of_nil in Hin. }
    pose proof (EnsureRouteURLExists_run r route routeMonitor t i l Ei Hh) as R.
    cbv zeta in R. fold url in R.
    destruct (bool_decide _).
    { rewrite (callsOf_nil url t _ R) in Hin. now apply elem_of_nil in Hin. }
    rewrite (callsOf_app url t _ _ R) in Hin |- *.
    written_object Hin. sole_last_write. now repeat split.
  - intros cr. split; [|split]; intros Hin.
    + destruct (SkipPrometheusRule (Spec routeMonitor));
        [|destruct (fst (controllers.SetErrorStatus _ _ _));
          [|case_bool_decide]];
        repeat match type of Ra with
               | context [match ?x with Some _ => _ | None => _ end] => destruct x
               | context [if bool_decide ?P then _ else _] =>
                   destruct (bool_decide P)
               end;
        rewrite (callsOf_app alert t _ _ Ra) in Hin; pick_call Hin.
    + clear Ra.
      destruct (decide (RouteURL (Status routeMonitor) = "")) as [E|Hurl].
      { rewrite (callsOf_nil scrape t _ (Rs E)) in Hin.
        now apply elem_of_nil in Hin. }
      pose proof (EnsureServiceMonitorExists_run r routeMonitor t Hurl) as R.
      cbv zeta in R. fold scrape in R.
      repeat match type of R with
             | context [match ?x with Some _ => _ | None => _ end] => destruct x
             | context [if bool_decide ?P then _ else _] =>
                 destruct (bool_decide P)
             end;
        rewrite (callsOf_app scrape t _ _ R) in Hin; pick_call Hin.
    + clear Ra.
      destruct (routev1.Ingress (routev1.Status route)) as [|i l] eqn:Ei.
      { rewrite (Ru0 eq_refl) in Hin. now apply elem_of_nil in Hin. }
      destruct (decide (routev1.Host i = "")) as [E0|Hh].
      { rewrite (Ru1 i l eq_refl E0) in Hin. now apply elem_of_nil in Hin. }
      pose proof (EnsureRouteURLExists_run r route routeMonitor t i l Ei Hh) as R.
      cbv zeta in R. fold url in R.
      destruct (bool_decide _).
      { rewrite (callsOf_nil url t _ R) in Hin. now apply elem_of_nil in Hin. }
      rewrite (callsOf_app url t _ _ R) in Hin. pick_call Hin.
Qed.
End AlertRuleBranches.

Lemma EnsurePrometheusRuleExists_delete_failure_keeps_ref_witness :
  let r := moredata.alertReconciler (Some testdata.CustomError) None ("", None)
             (Stop, None) in
  let run rm := @routemonitor.EnsurePrometheusRuleExists testdata.externals r rm in
  let skipped := testdata.withSkip testdata.monitor true in
  (resultOf (run skipped) [] = (Requeue, Some testdata.CustomError) /\
   callsOf (run skipped) [] = [CallDeletePrometheusRuleDeployment testdata.testRef])
  /\
  (resultOf (run testdata.monitor) [] = (Requeue, Some testdata.CustomError) /\
   callsOf (run testdata.monitor) [] =
     [CallDeletePrometheusRuleDeployment testdata.testRef]).
Proof.
  intros r run skipped. split.
  - exact (@EnsurePrometheusRuleExists_delete_failure_keeps_ref testdata.externals
             r skipped [] testdata.CustomError eq_refl (or_introl eq_refl)).
  - exact (@EnsurePrometheusRuleExists_delete_failure_keeps_ref testdata.externals
             r testdata.monitor [] testdata.CustomError eq_refl
             (or_intror (conj eq_refl (conj eq_refl eq_refl)))).
Defined.

Lemma EnsurePrometheusRuleExists_changed_error_status_only_persisted_witness :
  let r := moredata.alertReconciler None None ("", Some testdata.CustomError)
             (Stop, None) in
  let m := @routemonitor.EnsurePrometheusRuleExists testdata.externals r
             testdata.monitor in
  let noted := v1alpha1.setErrorStatus testdata.monitor "custom error" in
  callsOf m [] = [CallUpdateMonitorResourceStatus noted] /\
  resultOf m [] = (Stop, None).
Proof.
  intros r m noted.
  destruct (@EnsurePrometheusRuleExists_changed_error_status_only_persisted
              testdata.externals r testdata.monitor [] eq_refl eq_refl)
    as (C & R & _).
  split; [exact C | exact R].
Defined.

Lemma EnsurePrometheusRuleExists_ensures_rule_witness :
  let ok := moredata.alertReconciler None None ("99.5", None) (Stop, None) in
  let failing := moredata.alertReconciler None (Some testdata.CustomError)
                   ("99.5", None) (Stop, None) in
  let run r rm := @routemonitor.EnsurePrometheusRuleExists testdata.externals r rm in
  let unset := v1alpha1.setPrometheusRuleRef testdata.monitor types.empty in
  let update :=
    CallUpdatePrometheusRuleDeployment
      (@TemplateForPrometheusRuleResource testdata.externals
         "https://console.example.com" "99.5" testdata.testRef) in
  (resultOf (run failing testdata.monitor) [] = (Requeue, Some testdata.CustomError) /\
   callsOf (run failing testdata.monitor) [] = [update])
  /\
  (resultOf (run ok testdata.monitor) [] = (Continue, None) /\
   callsOf (run ok testdata.monitor) [] = [update])
  /\
  (callsOf (run ok unset) [] =
     [update; CallUpdateMonitorResourceStatus testdata.monitor] /\
   resultOf (run ok unset) [] = (Stop, None)).
Proof.
  intros ok failing run unset update.
  assert (Hslo : "99.5" <> "") by discriminate.
  assert (Hne : v1alpha1.PrometheusRuleRef (v1alpha1.Status unset) <> testdata.testRef)
    by discriminate.
  split; [|split].
  - destruct (@EnsurePrometheusRuleExists_ensures_rule testdata.externals failing
                testdata.monitor [] eq_refl eq_refl Hslo) as (H & _).
    exact (H testdata.CustomError eq_refl).
  - destruct (@EnsurePrometheusRuleExists_ensures_rule testdata.externals ok
                testdata.monitor [] eq_refl eq_refl Hslo) as (_ & H & _).
    exact (H eq_refl eq_refl).
  - destruct (@EnsurePrometheusRuleExists_ensures_rule testdata.externals ok
                unset [] eq_refl eq_refl Hslo) as (_ & _ & H).
    destruct (H eq_refl Hne) as (C & R & _). split; [exact C | exact R].
Defined.

Lemma status_steps_write_only_their_field_witness :
  let r := testdata.healthy "" in
  let route := testdata.route ["a.example.com"] None in
  let alert := @routemonitor.EnsurePrometheusRuleExists testdata.externals r
                 testdata.monitor in
  let url := @routemonitor.EnsureRouteURLExists testdata.externals r route
               testdata.monitor in
  let cleared := v1alpha1.setPrometheusRuleRef testdata.monitor types.empty in
  let moved := v1alpha1.setRouteURL testdata.monitor "a.example.com" in
  (CallUpdateMonitorResourceStatus cleared ∈ callsOf alert [] /\
   (exists pre,
      callsOf alert [] = pre ++ [CallUpdateMonitorResourceStatus cleared] /\
      forall cr, CallUpdateMonitorResourceStatus cr ∉ pre) /\
   v1alpha1.ServiceMonitorRef (v1alpha1.Status cleared) = testdata.testRef)
  /\
  (CallUpdateMonitorResourceStatus moved ∈ callsOf url [] /\
   (exists pre,
      callsOf url [] = pre ++ [CallUpdateMonitorResourceStatus moved] /\
      forall cr, CallUpdateMonitorResourceStatus cr ∉ pre) /\
   v1alpha1.PrometheusRuleRef (v1alpha1.Status moved) = testdata.testRef).
Proof.
  intros r route alert url cleared moved.
  destruct (@status_steps_write_only_their_field testdata.externals r route
              testdata.monitor []) as (Ha & _ & Hu & _).
  assert (Ia : CallUpdateMonitorResourceStatus cleared ∈ callsOf alert [])
    by (vm_compute; apply list_elem_of_further, list_elem_of_here).
  assert (Iu : CallUpdateMonitorResourceStatus moved ∈ callsOf url [])
    by (vm_compute; apply list_elem_of_here).
  split.
  - destruct (Ha _ Ia) as (pre & E & N & _ & _ & _ & S).
    split; [exact Ia|]. split; [|exact S].
    exists pre. exact (conj E N).
  - destruct (Hu _ Iu) as (pre & E & N & _ & _ & _ & P & _).
    split; [exact Iu|]. split; [|exact P].
    exists pre. exact (conj E N).
Defined.

(** ** controllers/routemonitor: the route URL, edge cases *)

Section RouteURLEdges.
Import v1alpha1 routemonitor.
Context `{Externals}.
Variable r : RouteMonitorReconciler.

(** X11.  A Route that gives no URL makes [EnsureRouteURLExists] return
    Requeue without any call, whatever the monitor holds: with no ingress
    entry the error is the "No Ingress" error; with an empty host in the
    first ingress entry it is NoHost, even if later entries have a host and
    whether or not TLS is set. *)
Theorem EnsureRouteURLExists_unusable_route_requeues
    (route : routev1.Route) (routeMonitor : RouteMonitor) (t : Trace) :
  let m := EnsureRouteURLExists r route routeMonitor in
  (routev1.Ingress (routev1.Status route) = [] ->
     resultOf m t =
       (Requeue,
        Some (errors.New
                "No Ingress: cannot extract route url from the Route resource")) /\
     callsOf m t = [])
  /\
  (forall ingress0 rest,
     routev1.Ingress (routev1.Status route) = ingress0 :: rest ->
     routev1.Host ingress0 = "" ->
     resultOf m t = (Requeue, Some NoHost) /\ callsOf m t = []).
Proof.
  intros m. split.
  - intros E.
    assert (R : m t =
      ((Requeue,
        Some (errors.New
                "No Ingress: cannot extract route url from the Route resource")), t)).
    { subst m. unfold EnsureRouteURLExists. now rewrite E. }
    split; [eapply resultOf_eq | eapply callsOf_nil]; exact R.
  - intros ingress0 rest E E0.
    assert (R : m t = ((Requeue, Some NoHost), t)).
    { subst m. unfold EnsureRouteURLExists. rewrite E.
      now rewrite bool_decide_eq_true_2 by exact E0. }
    split; [eapply resultOf_eq | eapply callsOf_nil]; exact R.
Qed.

(** X12.  [EnsureRouteURLExists] never persists an empty RouteURL, and it
    converges: every status it writes carries a non-empty RouteURL, and run
    again for the same Route on the object it wrote it returns Continue
    without any call, after any trace. *)
Theorem EnsureRouteURLExists_writes_nonempty_and_converges
    (route : routev1.Route) (routeMonitor : RouteMonitor) (t : Trace)
    (cr : RouteMonitor) :
  CallUpdateMonitorResourceStatus cr
    ∈ callsOf (EnsureRouteURLExists r route routeMonitor) t ->
  RouteURL (Status cr) <> "" /\
  forall t' : Trace,
    EnsureRouteURLExists r route cr t' = ((Continue, None), t').
Proof.
  intros Hin.
  destruct (routev1.Ingress (routev1.Status route)) as [|i l] eqn:Ei.
  { exfalso. revert Hin. unfold callsOf, EnsureRouteURLExists. rewrite Ei.
    simpl. rewrite drop_all. apply not_elem_of_nil. }
  destruct (decide (routev1.Host i = "")) as [E0|Hh].
  { exfalso. revert Hin. unfold callsOf, EnsureRouteURLExists. rewrite Ei.
    rewrite bool_decide_eq_true_2 by exact E0. simpl. rewrite drop_all.
    apply not_elem_of_nil. }
  pose proof (EnsureRouteURLExists_run r route routeMonitor t i l Ei Hh) as R.
  cbv zeta in R.
  destruct (bool_decide _).
  { rewrite (callsOf_nil _ t _ R) in Hin. now apply elem_of_nil in Hin. }
  rewrite (callsOf_app _ t _ _ R) in Hin.
  apply list_elem_of_singleton in Hin. injection Hin as ->.
  split.
  - simpl. destruct (routev1.TLS (routev1.Spec route)); [discriminate | exact Hh].
  - intros t'.
    rewrite (EnsureRouteURLExists_run r route _ t' i l Ei Hh). cbv zeta.
    now rewrite bool_decide_eq_true_2 by reflexivity.
Qed.
End RouteURLEdges.

Lemma EnsureRouteURLExists_unusable_route_requeues_witness :
  let run route := @routemonitor.EnsureRouteURLExists testdata.externals
                     (testdata.healthy "") route testdata.monitor in
  (resultOf (run (testdata.route [] (Some testdata.edge))) [] =
     (Requeue,
      Some (errors.New "No Ingress: cannot extract route url from the Route resource")) /\
   callsOf (run (testdata.route [] (Some testdata.edge))) [] = [])
  /\
  (resultOf (run (testdata.route [""; "b.example.com"] (Some testdata.edge))) [] =
     (Requeue, Some (@NoHost testdata.externals)) /\
   callsOf (run (testdata.route [""; "b.example.com"] (Some testdata.edge))) [] = []).
Proof.
  intros run. split.
  - destruct (@EnsureRouteURLExists_unusable_route_requeues testdata.externals
                (testdata.healthy "") (testdata.route [] (Some testdata.edge))
                testdata.monitor []) as (H & _).
    exact (H eq_refl).
  - destruct (@EnsureRouteURLExists_unusable_route_requeues testdata.externals
                (testdata.healthy "")
                (testdata.route [""; "b.example.com"] (Some testdata.edge))
                testdata.monitor []) as (_ & H).
    exact (H _ _ eq_refl eq_refl).
Defined.

Lemma EnsureRouteURLExists_writes_nonempty_and_converges_witness :
  let route := testdata.route ["a.example.com"] (Some testdata.edge) in
  let written := v1alpha1.setRouteURL testdata.monitor "https://a.example.com" in
  CallUpdateMonitorResourceStatus written
    ∈ callsOf (@routemonitor.EnsureRouteURLExists testdata.externals
                 (testdata.healthy "") route testdata.monitor) [] /\
  v1alpha1.RouteURL (v1alpha1.Status written) <> "" /\
  @routemonitor.EnsureRouteURLExists testdata.externals (testdata.healthy "")
    route written [CallUpdateMonitorResourceStatus written]
  = ((Continue, None), [CallUpdateMonitorResourceStatus written]).
Proof.
  intros route written.
  assert (I : CallUpdateMonitorResourceStatus written
                ∈ callsOf (@routemonitor.EnsureRouteURLExists testdata.externals
                             (testdata.healthy "") route testdata.monitor) [])
    by (vm_compute; apply list_elem_of_here).
  split; [exact I|].
  destruct (@EnsureRouteURLExists_writes_nonempty_and_converges testdata.externals
              (testdata.healthy "") route testdata.monitor [] written I) as (N & C).
  split; [exact N | exact (C _)].
Defined.

(** ** controllers/routemonitor: the cascade and the finalizer, further *)

Section CascadeFurther.
Import v1alpha1 routemonitor.
Context `{Externals}.
Variable r : RouteMonitorReconciler.

(** X13.  Without the current finalizer key the cascade never writes the
    parent: [EnsureMonitorAndDependenciesAbsent] issues no
    UpdateMonitorResource, and when the accounting, the teardown where it
    ran, and both deletes succeed it returns Stop after the PrometheusRule
    delete.  This holds also when the legacy key is present: the legacy key
    is only taken off together with the current one. *)
Theorem EnsureMonitorAndDependenciesAbsent_without_finalizer_never_writes
    (routeMonitor : RouteMonitor) (t : Trace) :
  let sref := ServiceMonitorRef (Status routeMonitor) in
  let pref := PrometheusRuleRef (Status routeMonitor) in
  let deleteSM := CallDeleteServiceMonitorDeployment sref false in
  let deleteProm := CallDeletePrometheusRuleDeployment pref in
  let m := EnsureMonitorAndDependenciesAbsent r routeMonitor in
  let accounting :=
    controllers.onShouldDeleteBlackBoxExporterResources (BlackBoxExporter r) t in
  let teardown :=
    controllers.onEnsureBlackBoxExporterResourcesAbsent (BlackBoxExporter r)
      (t ++ [CallShouldDeleteBlackBoxExporterResources]) in
  FinalizerKey ∉ metav1.Finalizers (ObjectMeta routeMonitor) ->
  (forall cr, CallUpdateMonitorResource cr ∉ callsOf m t)
  /\
  (forall should,
     accounting = (should, None) -> (should = true -> teardown = None) ->
     controllers.onDeleteServiceMonitorDeployment (ServiceMonitor r)
       (t ++ exporterCalls should) sref false = None ->
     controllers.onDeletePrometheusRuleDeployment (Prom r)
       (t ++ exporterCalls should ++ [deleteSM]) pref = None ->
     resultOf m t = (Stop, None) /\
     callsOf m t = exporterCalls should ++ [deleteSM; deleteProm]).
Proof.
  intros sref pref deleteSM deleteProm m accounting teardown Hfin.
  pose proof (EnsureMonitorAndDependenciesAbsent_run r routeMonitor t) as R.
  cbv zeta in R. fold sref pref deleteSM deleteProm m accounting teardown in R.
  rewrite bool_decide_eq_false_2 in R by exact Hfin.
  split.
  - intros cr Hin.
    destruct accounting as [should [e|]];
      [|destruct (if should then teardown else None);
        [|destruct (controllers.onDeleteServiceMonitorDeployment _ _ _ _);
          [|destruct (controllers.onDeletePrometheusRuleDeployment _ _ _)]]];
      rewrite (callsOf_app m t _ _ R) in Hin;
      try (destruct should; simpl in Hin); pick_call Hin.
  - intros should Ea Et Esm Epr. rewrite Ea in R.
    assert (Et' : (if should then teardown else None) = None)
      by (destruct should; [now apply Et | reflexivity]).
    rewrite Et', Esm, Epr in R.
    split; [eapply resultOf_eq | eapply callsOf_app]; exact R.
Qed.

(** X14.  The cascade releases the parent once: on the object a cascade has
    written back, [EnsureMonitorAndDependenciesAbsent] never issues
    UpdateMonitorResource again, after any trace and whatever the handlers
    answer. *)
Theorem EnsureMonitorAndDependenciesAbsent_releases_once
    (routeMonitor : RouteMonitor) (t : Trace) (cr : RouteMonitor) :
  CallUpdateMonitorResource cr
    ∈ callsOf (EnsureMonitorAndDependenciesAbsent r routeMonitor) t ->
  forall (t' : Trace) (cr' : RouteMonitor),
    CallUpdateMonitorResource cr'
      ∉ callsOf (EnsureMonitorAndDependenciesAbsent r cr) t'.
Proof.
  intros Hin t' cr'.
  assert (Hgone : FinalizerKey ∉ metav1.Finalizers (ObjectMeta cr)).
  { pose proof (EnsureMonitorAndDependenciesAbsent_run r routeMonitor t) as R.
    cbv zeta in R.
    destruct (controllers.onShouldDeleteBlackBoxExporterResources _ _)
      as [should [e|]];
      [|destruct (if should then _ else None);
        [|destruct (controllers.onDeleteServiceMonitorDeployment _ _ _ _);
          [|destruct (controllers.onDeletePrometheusRuleDeployment _ _ _);
            [|case_bool_decide]]]];
      rewrite (callsOf_app _ t _ _ R) in Hin;
      try (destruct should; simpl in Hin); pick_call Hin;
      injection Hin as ->;
      unfold finalizersDeleted; rewrite DeleteFinalizer_Finalizers;
      intros Hf; apply list_elem_of_filter in Hf as [_ Hf];
      now apply DeleteFinalizer_absent_after in Hf. }
  pose proof (EnsureMonitorAndDependenciesAbsent_run r cr t') as R'.
  cbv zeta in R'. rewrite bool_decide_eq_false_2 in R' by exact Hgone.
  intros Hin'.
  destruct (controllers.onShouldDeleteBlackBoxExporterResources _ _)
    as [should [e|]];
    [|destruct (if should then _ else None);
      [|destruct (controllers.onDeleteServiceMonitorDeployment _ _ _ _);
        [|destruct (controllers.onDeletePrometheusRuleDeployment _ _ _)]]];
    rewrite (callsOf_app _ t' _ _ R') in Hin';
    try (destruct should; simpl in Hin'); pick_call Hin'.
Qed.

(** X15.  The calls of the cascade are always an initial segment of one
    fixed sequence: the accounting call, the teardown of the shared exporter
    only when the accounting said so, the ServiceMonitor delete for the
    status ref with the HCP flag off, the PrometheusRule delete for the
    status ref, the write of the parent without its finalizer keys.  The
    teardown is called exactly when the accounting answers true without an
    error. *)
Theorem EnsureMonitorAndDependenciesAbsent_call_order
    (routeMonitor : RouteMonitor) (t : Trace) :
  let m := EnsureMonitorAndDependenciesAbsent r routeMonitor in
  let accounting :=
    controllers.onShouldDeleteBlackBoxExporterResources (BlackBoxExporter r) t in
  callsOf m t `prefix_of`
    (exporterCalls (fst accounting && bool_decide (snd accounting = None)) ++
     [CallDeleteServiceMonitorDeployment (ServiceMonitorRef (Status routeMonitor)) false;
      CallDeletePrometheusRuleDeployment (PrometheusRuleRef (Status routeMonitor));
      CallUpdateMonitorResource (finalizersDeleted routeMonitor)])
  /\
  (CallEnsureBlackBoxExporterResourcesAbsent ∈ callsOf m t <->
   accounting = (true, None)).
Proof.
  intros m accounting.
  pose proof (EnsureMonitorAndDependenciesAbsent_run r routeMonitor t) as R.
  cbv zeta in R. fold m accounting in R.
  destruct accounting as [should [e|]]; cbn [fst snd].
  { rewrite (callsOf_app m t _ _ R). split.
    - rewrite andb_false_r. now exists
        [CallDeleteServiceMonitorDeployment (ServiceMonitorRef (Status routeMonitor))
           false;
         CallDeletePrometheusRuleDeployment (PrometheusRuleRef (Status routeMonitor));
         CallUpdateMonitorResource (finalizersDeleted routeMonitor)].
    - split; [intros Hin; pick_call Hin | discriminate]. }
  rewrite bool_decide_eq_true_2 by reflexivity. rewrite andb_true_r.
  destruct (if should then _ else None) as [e|] eqn:Et.
  { rewrite (callsOf_app m t _ _ R). split.
    - apply prefix_app_r. reflexivity.
    - destruct should; [|discriminate].
      split; [reflexivity|]. intros _. simpl. set_solver. }
  assert (Hiff : forall rest,
            (forall c, c ∈ rest -> c <> CallEnsureBlackBoxExporterResourcesAbsent) ->
            CallEnsureBlackBoxExporterResourcesAbsent ∈ exporterCalls should ++ rest
            <-> (should, @None error) = (true, None)).
  { intros rest Hrest. destruct should; simpl.
    - split; [reflexivity|]. intros _. set_solver.
    - split; [|discriminate]. intros Hin.
      apply elem_of_cons in Hin as [Hin|Hin]; [discriminate|].
      now apply Hrest in Hin. }
  destruct (controllers.onDeleteServiceMonitorDeployment _ _ _ _) as [e|];
    [|destruct (controllers.onDeletePrometheusRuleDeployment _ _ _) as [e|];
      [|case_bool_decide]];
    rewrite (callsOf_app m t _ _ R); (split;
      [apply prefix_app; try reflexivity;
       repeat (apply prefix_cons); apply prefix_nil
      |apply Hiff; intros c Hc; pick_call Hc; subst c; discriminate]).
Qed.

(** X16.  [EnsureFinalizerSet] writes the parent only to add the finalizer:
    with the current key present it returns Continue without any call; with
    the key missing it issues one UpdateMonitorResource, whose answer it
    returns, for the object with the key appended and the legacy key taken
    off, status and spec as they were.  When the two keys differ the object
    written carries the current key and not the legacy one, and the step run
    on it again returns Continue without any call. *)
Theorem EnsureFinalizerSet_adds_key_once (routeMonitor : RouteMonitor) (t : Trace) :
  let m := EnsureFinalizerSet r routeMonitor in
  let finalizers := metav1.Finalizers (ObjectMeta routeMonitor) in
  (FinalizerKey ∈ finalizers ->
     resultOf m t = (Continue, None) /\ callsOf m t = [])
  /\
  (FinalizerKey ∉ finalizers ->
   exists written,
     callsOf m t = [CallUpdateMonitorResource written] /\
     resultOf m t = controllers.onUpdateMonitorResource (Common r) t written /\
     metav1.Finalizers (ObjectMeta written)
       = filter (fun f => f ≠ PrevFinalizerKey) (finalizers ++ [FinalizerKey]) /\
     Status written = Status routeMonitor /\
     Spec written = Spec routeMonitor /\
     (FinalizerKey <> PrevFinalizerKey ->
        FinalizerKey ∈ metav1.Finalizers (ObjectMeta written) /\
        (PrevFinalizerKey ∉ metav1.Finalizers (ObjectMeta written)) /\
        forall t' : Trace,
          EnsureFinalizerSet r written t' = ((Continue, None), t'))).
Proof.
  intros m finalizers. split.
  - intros Hin.
    assert (R : m t = ((Continue, None), t)).
    { subst m. unfold EnsureFinalizerSet, controllers.SetFinalizer.
      fold finalizers. now rewrite bool_decide_eq_true_2 by exact Hin. }
    split; [eapply resultOf_eq | eapply callsOf_nil]; exact R.
  - intros Hnot.
    set (added := withObjectMeta routeMonitor
                    (metav1.SetFinalizers (ObjectMeta routeMonitor)
                       (finalizers ++ [FinalizerKey]))).
    set (written := snd (controllers.DeleteFinalizer added PrevFinalizerKey)).
    assert (R : m t =
      (controllers.onUpdateMonitorResource (Common r) t written,
       t ++ [CallUpdateMonitorResource written])).
    { subst m. unfold EnsureFinalizerSet, controllers.SetFinalizer.
      fold finalizers. rewrite bool_decide_eq_false_2 by exact Hnot.
      fold added. subst written.
      now destruct (controllers.DeleteFinalizer added PrevFinalizerKey). }
    assert (Ef : metav1.Finalizers (ObjectMeta written)
                 = filter (fun f => f ≠ PrevFinalizerKey)
                     (finalizers ++ [FinalizerKey]))
      by (subst written; now rewrite DeleteFinalizer_Finalizers).
    exists written.
    split; [eapply callsOf_app; exact R|].
    split; [eapply resultOf_eq; exact R|].
    split; [exact Ef|].
    split; [subst written; now rewrite DeleteFinalizer_Status|].
    split; [subst written; unfold controllers.DeleteFinalizer;
            now case_bool_decide|].
    intros Hne.
    assert (Hin : FinalizerKey ∈ metav1.Finalizers (ObjectMeta written)).
    { rewrite Ef. apply list_elem_of_filter. split; [exact Hne|]. set_solver. }
    split; [exact Hin|]. split.
    + subst written. apply DeleteFinalizer_absent_after.
    + intros t'. unfold EnsureFinalizerSet, controllers.SetFinalizer.
      now rewrite bool_decide_eq_true_2 by exact Hin.
Qed.

(** X17.  [GetRoute] refuses an incomplete route reference without asking
    the store, and hides no store error: with the name or the namespace of
    Spec.Route empty it returns the zero Route with the "Invalid CR" error
    and makes no call; otherwise it fetches the Route once by that name and
    namespace and returns the fetched Route with nil, or the zero Route with
    the fetch error, a not-found error included. *)
Theorem GetRoute_validates_then_fetches (routeMonitor : RouteMonitor) (t : Trace) :
  let m := GetRoute r routeMonitor in
  let nsName :=
    {| types.Name := Name (Route (Spec routeMonitor));
       types.Namespace := Namespace (Route (Spec routeMonitor)) |} in
  (types.Name nsName = "" \/ types.Namespace nsName = "" ->
     resultOf m t =
       (routev1.zero,
        Some (errors.New
                "Invalid CR: Cannot retrieve route if one of the fields is empty")) /\
     callsOf m t = [])
  /\
  (types.Name nsName <> "" -> types.Namespace nsName <> "" ->
     callsOf m t = [ClientGet KRoute nsName] /\
     (forall route,
        client.onGet (Client r) KRoute t nsName = inr route ->
        resultOf m t = (route, None)) /\
     (forall err,
        client.onGet (Client r) KRoute t nsName = inl err ->
        resultOf m t = (routev1.zero, Some err))).
Proof.
  intros m nsName. split.
  - intros E.
    assert (R : m t =
      ((routev1.zero,
        Some (errors.New
                "Invalid CR: Cannot retrieve route if one of the fields is empty")),
       t)).
    { subst m. unfold GetRoute. fold nsName.
      destruct E as [E|E]; rewrite E; simpl; [reflexivity|].
      now rewrite orb_true_r. }
    split; [eapply resultOf_eq | eapply callsOf_nil]; exact R.
  - intros Hn Hns.
    assert (R : m t =
      (match client.onGet (Client r) KRoute t nsName with
       | inl err => (routev1.zero, Some err)
       | inr route => (route, None)
       end, t ++ [ClientGet KRoute nsName])).
    { subst m. unfold GetRoute. fold nsName.
      rewrite (bool_decide_eq_false_2 _ Hn), (bool_decide_eq_false_2 _ Hns).
      simpl. unfold bind, client.Get. rewrite invoke_run.
      now destruct (client.onGet (Client r) KRoute t nsName). }
    split; [eapply callsOf_app; exact R|].
    split.
    + intros route G. rewrite G in R. eapply resultOf_eq; exact R.
    + intros err G. rewrite G in R. eapply resultOf_eq; exact R.
Qed.
End CascadeFurther.

Lemma EnsureMonitorAndDependenciesAbsent_without_finalizer_never_writes_witness :
  let m := @routemonitor.EnsureMonitorAndDependenciesAbsent testdata.externals
             (testdata.healthy "") moredata.legacyOnly in
  (@FinalizerKey testdata.externals
     ∉ metav1.Finalizers (v1alpha1.ObjectMeta moredata.legacyOnly)) /\
  @PrevFinalizerKey testdata.externals
    ∈ metav1.Finalizers (v1alpha1.ObjectMeta moredata.legacyOnly) /\
  resultOf m [] = (Stop, None) /\
  callsOf m [] =
    [CallShouldDeleteBlackBoxExporterResources;
     CallDeleteServiceMonitorDeployment testdata.testRef false;
     CallDeletePrometheusRuleDeployment testdata.testRef].
Proof.
  intros m.
  assert (Hnot : @FinalizerKey testdata.externals
                   ∉ metav1.Finalizers (v1alpha1.ObjectMeta moredata.legacyOnly)).
  { intros Hin. apply list_elem_of_singleton in Hin. discriminate. }
  split; [exact Hnot|].
  split; [apply list_elem_of_here|].
  destruct (@EnsureMonitorAndDependenciesAbsent_without_finalizer_never_writes
              testdata.externals (testdata.healthy "") moredata.legacyOnly [] Hnot)
    as (_ & H).
  exact (H false eq_refl (fun E => match Bool.diff_false_true E with end)
           eq_refl eq_refl).
Defined.

Lemma EnsureMonitorAndDependenciesAbsent_releases_once_witness :
  let run rm := @routemonitor.EnsureMonitorAndDependenciesAbsent testdata.externals
                  (testdata.healthy "") rm in
  CallUpdateMonitorResource testdata.released ∈ callsOf (run testdata.monitor) [] /\
  (CallUpdateMonitorResource testdata.released
     ∉ callsOf (run testdata.released) (snd (run testdata.monitor []))).
Proof.
  intros run.
  assert (I : CallUpdateMonitorResource testdata.released
                ∈ callsOf (run testdata.monitor) [])
    by (vm_compute; do 3 apply list_elem_of_further; apply list_elem_of_here).
  split; [exact I|].
  exact (@EnsureMonitorAndDependenciesAbsent_releases_once testdata.externals
           (testdata.healthy "") testdata.monitor [] testdata.released I
           (snd (run testdata.monitor [])) testdata.released).
Defined.

Lemma EnsureMonitorAndDependenciesAbsent_call_order_witness :
  let lastUser :=
    testdata.reconciler (true, None) None None None ("", None) (Stop, None) in
  let m := @routemonitor.EnsureMonitorAndDependenciesAbsent testdata.externals
             lastUser testdata.monitor in
  CallEnsureBlackBoxExporterResourcesAbsent ∈ callsOf m [] /\
  callsOf m [] =
    [CallShouldDeleteBlackBoxExporterResources;
     CallEnsureBlackBoxExporterResourcesAbsent;
     CallDeleteServiceMonitorDeployment testdata.testRef false;
     CallDeletePrometheusRuleDeployment testdata.testRef;
     CallUpdateMonitorResource testdata.released].
Proof.
  intros lastUser m.
  destruct (@EnsureMonitorAndDependenciesAbsent_call_order testdata.externals
              lastUser testdata.monitor []) as (_ & Hiff).
  split; [exact (proj2 Hiff eq_refl) | reflexivity].
Defined.

Lemma EnsureFinalizerSet_adds_key_once_witness :
  let run rm := @routemonitor.EnsureFinalizerSet testdata.externals
                  (testdata.healthy "") rm in
  (resultOf (run testdata.monitor) [] = (Continue, None) /\
   callsOf (run testdata.monitor) [] = [])
  /\
  (exists written,
     callsOf (run moredata.fresh) [] = [CallUpdateMonitorResource written] /\
     resultOf (run moredata.fresh) [] = (Stop, None) /\
     metav1.Finalizers (v1alpha1.ObjectMeta written)
       = [@FinalizerKey testdata.externals] /\
     run written [] = ((Continue, None), [])).
Proof.
  intros run. split.
  - destruct (@EnsureFinalizerSet_adds_key_once testdata.externals
                (testdata.healthy "") testdata.monitor []) as (H & _).
    exact (H (list_elem_of_here _ _)).
  - destruct (@EnsureFinalizerSet_adds_key_once testdata.externals
                (testdata.healthy "") moredata.fresh []) as (_ & H).
    destruct (H (not_elem_of_nil _)) as (written & C & R & F & _ & _ & K).
    exists written.
    split; [exact C|]. split; [exact R|]. split; [exact F|].
    assert (Hne : @FinalizerKey testdata.externals <> @PrevFinalizerKey testdata.externals)
      by discriminate.
    exact (proj2 (proj2 (K Hne)) []).
Defined.

Lemma GetRoute_validates_then_fetches_witness :
  let console := testdata.route ["console.example.com"] (Some testdata.edge) in
  let key := {| types.Name := "console"; types.Namespace := "openshift-console" |} in
  let run c rm := routemonitor.GetRoute (testdata.withClient c) rm in
  let serving := testdata.scriptedClient (moredata.getsRoute console) None None None in
  let empty := testdata.scriptedClient (testdata.getFails testdata.NotFoundErr)
                 None None None in
  (resultOf (run serving v1alpha1.zero) [] =
     (routev1.zero,
      Some (errors.New
              "Invalid CR: Cannot retrieve route if one of the fields is empty")) /\
   callsOf (run serving v1alpha1.zero) [] = [])
  /\
  (callsOf (run serving testdata.monitor) [] = [ClientGet KRoute key] /\
   resultOf (run serving testdata.monitor) [] = (console, None))
  /\
  resultOf (run empty testdata.monitor) [] = (routev1.zero, Some testdata.NotFoundErr).
Proof.
  intros console key run serving empty.
  assert (Hn : types.Name key <> "") by discriminate.
  assert (Hns : types.Namespace key <> "") by discriminate.
  split; [|split].
  - destruct (GetRoute_validates_then_fetches (testdata.withClient serving)
                v1alpha1.zero []) as (H & _).
    exact (H (or_introl eq_refl)).
  - destruct (GetRoute_validates_then_fetches (testdata.withClient serving)
                testdata.monitor []) as (_ & H).
    destruct (H Hn Hns) as (C & F & _).
    split; [exact C | exact (F console eq_refl)].
  - destruct (GetRoute_validates_then_fetches (testdata.withClient empty)
                testdata.monitor []) as (_ & H).
    destruct (H Hn Hns) as (_ & _ & F).
    exact (F testdata.NotFoundErr eq_refl).
Defined.

(** ** controllers/routemonitor: the skip flag converges *)

Section SkipConverges.
Import v1alpha1 routemonitor.
Context `{Externals}.
Variable r : RouteMonitorReconciler.

(** X18.  With Spec.SkipPrometheusRule set, [EnsurePrometheusRuleExists]
    writes the status at most once over repeated runs: a status it writes has
    the PrometheusRuleRef cleared, and run on that object again, after any
    trace and whatever the handlers answer, it makes the delete call for the
    absent ref and no status write, returning Continue when the delete
    succeeds. *)
Theorem EnsurePrometheusRuleExists_skip_converges
    (routeMonitor : RouteMonitor) (t : Trace) (cr : RouteMonitor) :
  SkipPrometheusRule (Spec routeMonitor) = true ->
  CallUpdateMonitorResourceStatus cr
    ∈ callsOf (EnsurePrometheusRuleExists r routeMonitor) t ->
  PrometheusRuleRef (Status cr) = types.empty /\
  forall t' : Trace,
    callsOf (EnsurePrometheusRuleExists r cr) t'
      = [CallDeletePrometheusRuleDeployment types.empty] /\
    (controllers.onDeletePrometheusRuleDeployment (Prom r) t' types.empty = None ->
     resultOf (EnsurePrometheusRuleExists r cr) t' = (Continue, None)).
Proof.
  intros Eskip Hin.
  pose proof (EnsurePrometheusRuleExists_run r routeMonitor t) as R.
  cbv zeta in R. rewrite Eskip in R.
  assert (Ecr : cr = setPrometheusRuleRef routeMonitor types.empty).
  { destruct (controllers.onDeletePrometheusRuleDeployment _ _ _);
      [|case_bool_decide];
      rewrite (callsOf_app _ t _ _ R) in Hin; pick_call Hin.
    now injection Hin. }
  subst cr. split; [reflexivity|].
  intros t'.
  pose proof (EnsurePrometheusRuleExists_run r
                (setPrometheusRuleRef routeMonitor types.empty) t') as R'.
  cbv zeta in R'.
  change (SkipPrometheusRule
            (Spec (setPrometheusRuleRef routeMonitor types.empty)))
    with (SkipPrometheusRule (Spec routeMonitor)) in R'.
  rewrite Eskip in R'.
  change (PrometheusRuleRef
            (Status (setPrometheusRuleRef routeMonitor types.empty)))
    with types.empty in R'.
  rewrite bool_decide_eq_true_2 in R' by reflexivity.
  destruct (controllers.onDeletePrometheusRuleDeployment (Prom r) t' types.empty).
  - split; [eapply callsOf_app; exact R' | discriminate].
  - split; [eapply callsOf_app; exact R'|].
    intros _. eapply resultOf_eq; exact R'.
Qed.
End SkipConverges.

Lemma EnsurePrometheusRuleExists_skip_converges_witness :
  let r := testdata.healthy "99.5" in
  let skipped := testdata.withSkip testdata.monitor true in
  let cleared := v1alpha1.setPrometheusRuleRef skipped types.empty in
  let run rm := @routemonitor.EnsurePrometheusRuleExists testdata.externals r rm in
  CallUpdateMonitorResourceStatus cleared ∈ callsOf (run skipped) [] /\
  callsOf (run cleared) (snd (run skipped [])) =
    [CallDeletePrometheusRuleDeployment types.empty] /\
  resultOf (run cleared) (snd (run skipped [])) = (Continue, None).
Proof.
  intros r skipped cleared run.
  assert (I : CallUpdateMonitorResourceStatus cleared ∈ callsOf (run skipped) [])
    by (vm_compute; apply list_elem_of_further, list_elem_of_here).
  split; [exact I|].
  destruct (@EnsurePrometheusRuleExists_skip_converges testdata.externals r
              skipped [] cleared eq_refl I) as (_ & Hagain).
  destruct (Hagain (snd (run skipped []))) as (C & R).
  split; [exact C | exact (R eq_refl)].
Defined.
